(** * WeMow760 quote intake: the serverless handlers, embedded and verified

    The repository holds three versions of the quote-intake handler and one
    configuration report:

    - [Quote]        src/api/quote.js: parallel fan-out, silent success;
    - [QuoteEcho]    src/unnamed/part_000: parallel fan-out, outcome summary
                     echoed to the caller under [_debug];
    - [QuoteLinked]  src/api/debug.js (second handler): record store first,
                     then SMS and email in parallel, silent success;
    - [EnvDebug]     src/api/debug.js (first handler): which configuration
                     variables are set.

    Modelling decisions.
    - Strings are [string], one character per code unit: [length] and [slice]
      count characters, as JavaScript does on ASCII text. The two non-ASCII
      literals of the source (the leaf of the SMS heading, the dash of the
      email subject) are written as their UTF-8 bytes; nothing measures them.
    - The handlers are embedded twice. In [Quote], [QuoteEcho] and
      [QuoteLinked] the six form fields hold JSON scalars other than numbers
      ([Js.jsval]), which is what the specification's data model (text
      fields) allows, and interpolation is total. In [FullQuote],
      [FullQuoteEcho] and [FullQuoteLinked] a field holds any JSON value:
      numbers, arrays and objects too, where interpolating an object with an
      own [toString] member throws. On scalar bodies the two agree
      ([scalar_bodies_run_alike]).
    - A JSON tree ([Js.json]) holds a number as the text JavaScript prints
      for it.
    - [JSON.stringify (x)] is modelled by the tree [x] it serialises, with the
      members whose value is [undefined] left out, as [JSON.stringify] does.
    - An async call is run to settlement: it yields the effects it performed
      and how its promise settled ([Net.task]). Calls started together are
      listed in the order they are started; each makes its one request before
      its first [await]. The outside world is a parameter ([Net.world]): the
      process environment, the rendering of the current time, and what each
      outbound request is answered with.
    - A run of a handler over JSON is a trace ([Full.event]): its effects,
      the points where it resumes from an [await], and the response, in
      program order. *)

From Stdlib Require Import String Ascii List ZArith Bool Lia DecimalString.
From stdpp Require Import gmap strings.

Set Warnings "-register-all".

Open Scope string_scope.
Open Scope Z_scope.
Open Scope list_scope.

(* ===================================================================== *)
(** ** JavaScript values *)
(* ===================================================================== *)

Module Js.

(** The double quote character, as a one-character string. *)
Definition dq : string := String (ascii_of_nat 34) EmptyString.

(** The line feed, [\n]. *)
Definition nl : string := String (ascii_of_nat 10) EmptyString.

(** A form field of the specification's data model: [undefined] (the key is
    absent), [null], a boolean or a string. Fields of any JSON value are
    those of [Full.value]. *)
Inductive jsval : Type :=
| Undefined
| Null
| Bool (b : bool)
| Str (s : string).

(** ToBoolean: what [!v], [v ? a : b], [v || d], [if (v)] and
    [.filter(Boolean)] test. *)
Definition truthy (v : jsval) : bool :=
  match v with
  | Undefined | Null => false
  | Bool b => b
  | Str s => negb (String.eqb s "")
  end.

(** ToString: what a template literal does to an interpolated field. On
    these scalars it cannot throw; on a JSON tree it can ([json_to_string]). *)
Definition to_string (v : jsval) : string :=
  match v with
  | Undefined => "undefined"
  | Null => "null"
  | Bool true => "true"
  | Bool false => "false"
  | Str s => s
  end.

(** [a || b]. *)
Definition or_else (a b : jsval) : jsval := if truthy a then a else b.

(** [String.prototype.slice (b, e)] for [0 <= b <= e]. *)
Definition slice (s : string) (b e : nat) : string := substring b (e - b) s.

(** A number in a template literal: [val.length], [resp.status]. *)
Definition digits (n : nat) : string := NilZero.string_of_uint (Nat.to_uint n).

(** [Array.prototype.join (sep)] on strings. *)
Definition join (sep : string) (l : list string) : string := String.concat sep l.

(** JSON trees: request and reply bodies, and what [JSON.stringify] and
    [res.json] are given. A number is held as the text JavaScript prints for
    it ([String (n)]: [42], [0.5], [1e+21]): the handlers interpolate numbers,
    test them and pass them on, and never compute with them. *)
Inductive json : Type :=
| JNull
| JBool (b : bool)
| JNum (printed : string)
| JStr (s : string)
| JArr (items : list json)
| JObj (members : list (string * json)).

(** Own-property lookup in an object's member list. *)
Fixpoint assoc {A : Type} (k : string) (ms : list (string * A)) : option A :=
  match ms with
  | [] => None
  | (k', v) :: rest => if String.eqb k k' then Some v else assoc k rest
  end.

(** [obj[k] = v]: overwrite in place, or append a new member. *)
Fixpoint obj_set {A : Type} (ms : list (string * A)) (k : string) (v : A) : list (string * A) :=
  match ms with
  | [] => [(k, v)]
  | (k', v') :: rest =>
      if String.eqb k k' then (k, v) :: rest else (k', v') :: obj_set rest k v
  end.

(** An object literal handed to [JSON.stringify]: a member whose value is
    [undefined] ([None]) is not serialised. *)
Definition stringify_members (ms : list (string * option json)) : list (string * json) :=
  omap (fun m => match snd m with Some v => Some (fst m, v) | None => None end) ms.

(** A form field as a JSON value; [undefined] has none. *)
Definition json_of (v : jsval) : option json :=
  match v with
  | Undefined => None
  | Null => Some JNull
  | Bool b => Some (JBool b)
  | Str s => Some (JStr s)
  end.

(** A [process.env] entry in a template literal, as an object member, and as
    an array element. *)
Definition env_text (v : option string) : string := default "undefined" v.
Definition env_member (v : option string) : option json := JStr <$> v.
Definition env_item (v : option string) : json := default JNull (JStr <$> v).

(** The result of evaluating an expression that may throw; the reason is the
    thrown value as [String (err)] renders it. *)
Inductive completion (A : Type) : Type :=
| Normal (a : A)
| Throw (reason : string).
Arguments Normal {A} a.
Arguments Throw {A} reason.

Definition cannot_read (what k : string) : string :=
  "TypeError: Cannot read properties of " +:+ what +:+ " (reading '" +:+ k +:+ "')".

(** [v.k] on a value read from a reply ([None] is [undefined]), for the
    member names the handlers read: [success], [error], [records], [id]. *)
Definition member (v : option json) (k : string) : completion (option json) :=
  match v with
  | None => Throw (cannot_read "undefined" k)
  | Some JNull => Throw (cannot_read "null" k)
  | Some (JObj ms) => Normal (assoc k ms)
  | Some _ => Normal None
  end.

(** [v?.[0]]. *)
Definition opt_first (v : option json) : option json :=
  match v with
  | None | Some JNull => None
  | Some (JArr items) => head items
  | Some (JObj ms) => assoc "0" ms
  | Some (JStr (String c _)) => Some (JStr (String c EmptyString))
  | Some _ => None
  end.

(** [v?.k], for the same member names as [member]. *)
Definition opt_member (v : option json) (k : string) : option json :=
  match v with
  | Some (JObj ms) => assoc k ms
  | _ => None
  end.

(** ToBoolean on a value read from a reply or a request body. The falsy
    numbers of JSON are [0] and [-0], and both print as [0]. *)
Definition json_truthy (v : option json) : bool :=
  match v with
  | None | Some JNull => false
  | Some (JBool b) => b
  | Some (JNum printed) => negb (String.eqb printed "0")
  | Some (JStr s) => negb (String.eqb s "")
  | Some (JArr _) | Some (JObj _) => true
  end.

(** ToString on a JSON tree. An array joins its items with commas, [null]
    items rendering empty; a plain object renders as [[object Object]] unless
    an own member shadows [toString], in which case the conversion throws. *)
Fixpoint json_to_string (j : json) : completion string :=
  match j with
  | JNull => Normal "null"
  | JBool true => Normal "true"
  | JBool false => Normal "false"
  | JNum printed => Normal printed
  | JStr s => Normal s
  | JArr items =>
      (fix items_to_string (l : list json) : completion string :=
         match l with
         | [] => Normal ""
         | x :: rest =>
             let sx := match x with JNull => Normal "" | _ => json_to_string x end in
             match rest, sx with
             | _, Throw r => Throw r
             | [], Normal s => Normal s
             | _ :: _, Normal s =>
                 match items_to_string rest with
                 | Normal t => Normal (s +:+ "," +:+ t)
                 | Throw r => Throw r
                 end
             end
         end) items
  | JObj ms =>
      match assoc "toString" ms with
      | Some _ => Throw "TypeError: Cannot convert object to primitive value"
      | None => Normal "[object Object]"
      end
  end.

(** ToString on a value read from a reply or a request body. *)
Definition reply_to_string (v : option json) : completion string :=
  match v with
  | None => Normal "undefined"
  | Some j => json_to_string j
  end.

(** [s.split ('\n')]: the lines of a text. *)
Fixpoint split_lines (s : string) : list string :=
  match s with
  | EmptyString => [EmptyString]
  | String c s' =>
      if Ascii.eqb c (ascii_of_nat 10) then EmptyString :: split_lines s'
      else match split_lines s' with
           | [] => [String c EmptyString]
           | l :: ls => String c l :: ls
           end
  end.

(** [s.includes (t)]: [t] occurs in [s]. *)
Fixpoint occurs (t s : string) : bool :=
  String.prefix t s
  || match s with
     | EmptyString => false
     | String _ s' => occurs t s'
     end.

End Js.

(* ===================================================================== *)
(** ** Requests, responses, the network *)
(* ===================================================================== *)

Module Net.
Import Js.

(** [req.body]: [undefined] (no body was parsed), [null] (the JSON text
    [null]), a text body, or a parsed JSON object. *)
Inductive reqbody : Type :=
| BUndefined
| BNull
| BText (s : string)
| BObject (props : gmap string jsval).

(** The inbound request, as far as the handlers read it. *)
Record request : Type := { method : string; body : reqbody }.

(** What the handler has made of [res] when it returns: the status, the
    headers it set, and the JSON body ([None] after [.end ()]). *)
Record response : Type := {
  status : Z;
  headers : list (string * string);
  payload : option json }.

(** [res.setHeader (k, v)]. *)
Definition setHeader (k v : string) (hs : list (string * string)) : list (string * string) :=
  obj_set hs k v.

(** The three CORS headers, set in the order of the source. *)
Definition cors (hs : list (string * string)) : list (string * string) :=
  setHeader "Access-Control-Allow-Headers" "Content-Type"
    (setHeader "Access-Control-Allow-Methods" "POST"
       (setHeader "Access-Control-Allow-Origin" "*" hs)).

(** [res.status (s).json (j)] and [res.status (s).end ()]. *)
Definition send_json (hs : list (string * string)) (s : Z) (j : json) : response :=
  {| status := s; headers := hs; payload := Some j |}.
Definition send_end (hs : list (string * string)) (s : Z) : response :=
  {| status := s; headers := hs; payload := None |}.

(** An outbound [fetch (url, {method, headers, body})]; [content] is the tree
    whose JSON text is the body. *)
Record http_request : Type := {
  url : string;
  verb : string;
  http_headers : list (string * string);
  content : json }.

(** How a promise settles; a rejection carries [String (reason)]. *)
Inductive settled (A : Type) : Type :=
| Fulfilled (value : A)
| Rejected (reason : string).
Arguments Fulfilled {A} value.
Arguments Rejected {A} reason.

Definition is_rejected {A : Type} (p : settled A) : bool :=
  match p with Rejected _ => true | Fulfilled _ => false end.

(** A [Response]: its status, and what [resp.text ()] and [resp.json ()]
    settle to. *)
Record http_reply : Type := {
  code : nat;
  text : settled string;
  parsed : settled json }.

(** [resp.ok]. *)
Definition ok (r : http_reply) : bool := (200 <=? code r)%nat && (code r <=? 299)%nat.

(** The world a handler runs in. *)
Record world : Type := {
  env : gmap string string;          (* process.env *)
  now : string;                      (* new Date ().toLocaleString ('en-US', ...) *)
  fetch : http_request -> settled http_reply }.

Inductive level : Type := LLog | LWarn | LError.

(** A console argument: text, or the JSON text of a tree. *)
Inductive logarg : Type :=
| Text (s : string)
| Json (j : json).

(** What a handler does to the outside, in program order. *)
Inductive effect : Type :=
| Fetch (r : http_request)
| Console (l : level) (args : list logarg).

(** An async call run to settlement. *)
Definition task (A : Type) : Type := (list effect * settled A)%type.

Definition ret {A : Type} (a : A) : task A := ([], Fulfilled a).
Definition throw {A : Type} (reason : string) : task A := ([], Rejected reason).
Definition await {A : Type} (p : settled A) : task A := ([], p).
Definition bind {A B : Type} (m : task A) (k : A -> task B) : task B :=
  match m with
  | (es, Fulfilled a) => let (es', r) := k a in (es ++ es', r)
  | (es, Rejected reason) => (es, Rejected reason)
  end.

(** [await fetch (...)]. *)
Definition do_fetch (w : world) (r : http_request) : task http_reply :=
  ([Fetch r], fetch w r).

(** A handler's run: the effects it performed, in program order, and the
    response it then sent (every path of a handler ends by sending one). *)
Record outcome : Type := { sent : response; effects : list effect }.

(** The outbound requests among some effects, in order. *)
Definition fetches (es : list effect) : list http_request :=
  omap (fun e => match e with Fetch r => Some r | Console _ _ => None end) es.

(** How many of the outbound requests among some effects go to URLs that
    start with [prefix]. *)
Definition calls_to (prefix : string) (es : list effect) : nat :=
  length (List.filter (fun r => String.prefix prefix (url r)) (fetches es)).

(** [content.records?.[0]?.fields], as a member list: the field set a
    record-store request carries. *)
Definition record_fields (r : http_request) : list (string * json) :=
  match opt_member (opt_first (opt_member (Some (content r)) "records")) "fields" with
  | Some (JObj fs) => fs
  | _ => []
  end.

(** [content.message]: the text an SMS request carries. *)
Definition message_of (r : http_request) : string :=
  match opt_member (Some (content r)) "message" with
  | Some (JStr m) => m
  | _ => ""
  end.

(** The console output among some effects, in order. *)
Definition console (es : list effect) : list (level * list logarg) :=
  omap (fun e => match e with Console l a => Some (l, a) | Fetch _ => None end) es.

End Net.

(** [const x = await m; k]. *)
Notation "'let*' x ':=' m 'in' k" := (Net.bind m (fun x => k))
  (at level 10, x name, m at level 100, k at level 200).

(* ===================================================================== *)
(** ** The submitted form and the rendered messages *)
(* ===================================================================== *)

Module Form.
Import Js Net.

(** The object [{ name, phone, address, service, urgency, details }] that the
    handlers build from the body and hand to each collaborator. *)
Record quote : Type := {
  name : jsval;
  phone : jsval;
  address : jsval;
  service : jsval;
  urgency : jsval;
  details : jsval }.

(** [o.k] on the parsed body. *)
Definition prop (o : gmap string jsval) (k : string) : jsval := default Undefined (o !! k).

(** What destructuring [req.body] binds to the key [k]: a member of the
    parsed object; [undefined] on a text body (and nothing at all on
    [undefined] and [null], where destructuring throws). *)
Definition field (b : reqbody) (k : string) : jsval :=
  match b with
  | BObject o => prop o k
  | _ => Undefined
  end.

Definition cannot_destructure (what : string) : string :=
  "TypeError: Cannot destructure property 'name' of 'req.body' as it is " +:+ what +:+ ".".

(** The bindings of [{ name, phone, address, service, urgency, details }]. *)
Definition quote_of (b : reqbody) : quote :=
  {| name := field b "name"; phone := field b "phone";
     address := field b "address"; service := field b "service";
     urgency := field b "urgency"; details := field b "details" |}.

(** [const { name, phone, address, service, urgency, details } = req.body]. *)
Definition destructure (b : reqbody) : completion quote :=
  match b with
  | BUndefined => Throw (cannot_destructure "undefined")
  | BNull => Throw (cannot_destructure "null")
  | _ => Normal (quote_of b)
  end.

(** [!name || !phone || !address]. *)
Definition missing_required (d : quote) : bool :=
  negb (truthy (name d)) || negb (truthy (phone d)) || negb (truthy (address d)).

(** The six keys a handler reads from the body. *)
Definition form_keys : list string :=
  ["name"; "phone"; "address"; "service"; "urgency"; "details"].

(** A field that fails the handler's check: missing ([undefined]), the empty
    string, and also [null] and [false]. *)
Definition blank (v : jsval) : Prop := truthy v = false.

(** A valid request: name, phone and address all pass the check. *)
Definition valid (b : reqbody) : Prop :=
  truthy (field b "name") = true /\ truthy (field b "phone") = true
  /\ truthy (field b "address") = true.

(** The JSON bodies of the fixed responses. *)
Definition method_not_allowed : json := JObj [("error", JStr "Method not allowed")].
Definition fields_required : json := JObj [("error", JStr "Name, phone, and address are required.")].
Definition went_wrong : json := JObj [("error", JStr "Something went wrong. Please call us instead.")].
Definition success : json := JObj [("success", JBool true)].

End Form.

Module Template.
Import Js Net Form.

(** The array literal of [sendSMS], before [.filter (Boolean)]: [heading] is
    its first element, each absent optional field leaves a [null]. *)
Definition sms_lines (heading : string) (d : quote) : list jsval :=
  [ Str heading;
    Str "";
    Str ("Name: " +:+ to_string (name d));
    Str ("Phone: " +:+ to_string (phone d));
    Str ("Address: " +:+ to_string (address d));
    if truthy (service d) then Str ("Service: " +:+ to_string (service d)) else Null;
    if truthy (urgency d) then Str ("Urgency: " +:+ to_string (urgency d)) else Null;
    if truthy (details d) then Str ("Details: " +:+ to_string (details d)) else Null ].

(** The entry of an optional field in the filtered array: its labelled line
    when the field is truthy, nothing otherwise. *)
Definition present (label : string) (v : jsval) : list string :=
  if truthy v then [label +:+ to_string v] else [].

(** [[...].filter (Boolean)]: the elements that are kept. *)
Definition kept (l : list jsval) : list string := map to_string (List.filter truthy l).

(** [[...].filter (Boolean).join ('\n')]. *)
Definition sms_message (heading : string) (d : quote) : string :=
  join nl (kept (sms_lines heading d)).

(** The request of [sendSMS]. *)
Definition sms_request (e : gmap string string) (heading : string) (d : quote) : http_request :=
  {| url := "https://textbelt.com/text";
     verb := "POST";
     http_headers := [("Content-Type", "application/json")];
     content := JObj (stringify_members
       [ ("phone", env_member (e !! "NOTIFY_PHONE"));
         ("message", Some (JStr (sms_message heading d)));
         ("key", env_member (e !! "TEXTBELT_API_KEY")) ]) |}.

(** The URL and the headers of [createAirtableRecord]. *)
Definition airtable_url (e : gmap string string) : string :=
  "https://api.airtable.com/v0/" +:+ env_text (e !! "AIRTABLE_BASE_ID")
    +:+ "/" +:+ env_text (e !! "AIRTABLE_TABLE_ID").
Definition airtable_headers (e : gmap string string) : list (string * string) :=
  [ ("Authorization", "Bearer " +:+ env_text (e !! "AIRTABLE_API_KEY"));
    ("Content-Type", "application/json") ].

(** [JSON.stringify ({ records: [{ fields }] })]. *)
Definition airtable_request (e : gmap string string) (fields : list (string * option json)) : http_request :=
  {| url := airtable_url e;
     verb := "POST";
     http_headers := airtable_headers e;
     content := JObj [("records", JArr [JObj [("fields", JObj (stringify_members fields))]])] |}.

(** The literal text of the email template, between its interpolations. *)
Definition html_open : string :=
  "
    <div style=" +:+ dq +:+ "font-family: -apple-system, sans-serif; max-width: 500px;" +:+ dq +:+ ">
      <h2 style=" +:+ dq +:+ "color: #00BF66; margin-bottom: 4px;" +:+ dq +:+ ">New Quote Request</h2>
      <p style=" +:+ dq +:+ "color: #888; margin-top: 0; font-size: 14px;" +:+ dq +:+ ">".

Definition html_name : string :=
  "</p>
      <table style=" +:+ dq +:+ "width: 100%; border-collapse: collapse;" +:+ dq +:+ ">
        <tr>
          <td style=" +:+ dq +:+ "padding: 10px 0; border-bottom: 1px solid #eee; font-weight: 600; width: 100px;" +:+ dq +:+ ">Name</td>
          <td style=" +:+ dq +:+ "padding: 10px 0; border-bottom: 1px solid #eee;" +:+ dq +:+ ">".

Definition html_phone : string :=
  "</td>
        </tr>
        <tr>
          <td style=" +:+ dq +:+ "padding: 10px 0; border-bottom: 1px solid #eee; font-weight: 600;" +:+ dq +:+ ">Phone</td>
          <td style=" +:+ dq +:+ "padding: 10px 0; border-bottom: 1px solid #eee;" +:+ dq +:+ ">
            <a href=" +:+ dq +:+ "tel:".

Definition html_phone_text : string :=
  dq +:+ " style=" +:+ dq +:+ "color: #00BF66;" +:+ dq +:+ ">".

Definition html_address : string :=
  "</a>
          </td>
        </tr>
        <tr>
          <td style=" +:+ dq +:+ "padding: 10px 0; border-bottom: 1px solid #eee; font-weight: 600;" +:+ dq +:+ ">Address</td>
          <td style=" +:+ dq +:+ "padding: 10px 0; border-bottom: 1px solid #eee;" +:+ dq +:+ ">".

Definition html_rows : string :=
  "</td>
        </tr>
        ".

Definition html_gap : string :=
  "
        ".

Definition html_close : string :=
  "
      </table>
    </div>
  ".

Definition row_service : string :=
  "<tr>
          <td style=" +:+ dq +:+ "padding: 10px 0; border-bottom: 1px solid #eee; font-weight: 600;" +:+ dq +:+ ">Service</td>
          <td style=" +:+ dq +:+ "padding: 10px 0; border-bottom: 1px solid #eee;" +:+ dq +:+ ">".

Definition row_urgency : string :=
  "<tr>
          <td style=" +:+ dq +:+ "padding: 10px 0; border-bottom: 1px solid #eee; font-weight: 600;" +:+ dq +:+ ">Urgency</td>
          <td style=" +:+ dq +:+ "padding: 10px 0; border-bottom: 1px solid #eee;" +:+ dq +:+ ">".

Definition row_details : string :=
  "<tr>
          <td style=" +:+ dq +:+ "padding: 10px 0; font-weight: 600; vertical-align: top;" +:+ dq +:+ ">Details</td>
          <td style=" +:+ dq +:+ "padding: 10px 0;" +:+ dq +:+ ">".

Definition row_details_linked : string :=
  "<tr>
          <td style=" +:+ dq +:+ "padding: 10px 0; border-bottom: 1px solid #eee; font-weight: 600; vertical-align: top;" +:+ dq +:+ ">Details</td>
          <td style=" +:+ dq +:+ "padding: 10px 0;" +:+ dq +:+ ">".

Definition row_end : string :=
  "</td>
        </tr>".

Definition html_link : string :=
  "
      </table>
      <p style=" +:+ dq +:+ "margin-top: 20px;" +:+ dq +:+ ">
        <a href=" +:+ dq.

Definition html_link_close : string :=
  dq +:+ " style=" +:+ dq +:+ "display: inline-block; padding: 10px 20px; background: #00BF66; color: #fff; text-decoration: none; border-radius: 6px; font-weight: 600;" +:+ dq +:+ ">View in Airtable</a>
      </p>
    </div>
  ".


(** [data.x ? `<tr>...${data.x}</td></tr>` : ''] *)
Definition optional_row (opening : string) (v : jsval) : string :=
  if truthy v then opening +:+ to_string v +:+ row_end else "".

(** The template up to and including the urgency row, shared by the three
    versions. *)
Definition html_upper (timestamp : string) (d : quote) : string :=
  html_open +:+ timestamp
    +:+ html_name +:+ to_string (name d)
    +:+ html_phone +:+ to_string (phone d)
    +:+ html_phone_text +:+ to_string (phone d)
    +:+ html_address +:+ to_string (address d)
    +:+ html_rows +:+ optional_row row_service (service d)
    +:+ html_gap +:+ optional_row row_urgency (urgency d)
    +:+ html_gap.

(** The subject line; [prefix] is the text before the name. *)
Definition subject (prefix : string) (d : quote) : string :=
  prefix +:+ to_string (name d)
    +:+ (if truthy (service d) then " (" +:+ to_string (service d) +:+ ")" else "").

(** The request of [sendEmail]. *)
Definition email_request (e : gmap string string) (subj html : string) : http_request :=
  {| url := "https://api.resend.com/emails";
     verb := "POST";
     http_headers :=
       [ ("Authorization", "Bearer " +:+ env_text (e !! "RESEND_API_KEY"));
         ("Content-Type", "application/json") ];
     content := JObj (stringify_members
       [ ("from", Some (JStr "WeMow760 <notifications@wemow760.com>"));
         ("to", Some (JArr [env_item (e !! "NOTIFY_EMAIL")]));
         ("subject", Some (JStr subj));
         ("html", Some (JStr html)) ]) |}.

(** The tail of [createAirtableRecord] and [sendEmail], after the fetch:
    [if (!resp.ok) { const err = await resp.text (); throw new Error (...) }
     return resp.json ()]. *)
Definition checked_json (service_name : string) (resp : http_reply) : task json :=
  if negb (ok resp) then
    let* err := await (text resp) in
    throw ("Error: " +:+ service_name +:+ " " +:+ digits (code resp) +:+ ": " +:+ err)
  else await (parsed resp).

(** [sendSMS] after building its message; Textbelt reports a failure in a
    successful reply, by a falsy [success]. *)
Definition sendSMS (w : world) (heading : string) (d : quote) : task json :=
  let* resp := do_fetch w (sms_request (env w) heading d) in
  let* result := checked_json "Textbelt" resp in
  match member (Some result) "success" with
  | Throw r => throw r
  | Normal flag =>
      if negb (json_truthy flag) then
        match member (Some result) "error" with
        | Throw r => throw r
        | Normal e =>
            match reply_to_string e with
            | Throw r => throw r
            | Normal t => throw ("Error: Textbelt failed: " +:+ t)
            end
        end
      else ret result
  end.

(** [await Promise.allSettled ([a, b, c])] for three calls made in this
    order: their effects in the order of the calls, and, once all three have
    settled, how each did. *)
Definition allSettled3 {A B C : Type} (a : task A) (b : task B) (c : task C)
  : list effect * (settled A * settled B * settled C) :=
  (fst a ++ fst b ++ fst c, (snd a, snd b, snd c)).

(** [if (p.status === 'rejected') console.error (label, p.reason)]. *)
Definition log_rejected {A : Type} (label : string) (p : settled A) : list effect :=
  match p with
  | Rejected r => [Console LError [Text label; Text r]]
  | Fulfilled _ => []
  end.

End Template.

(* ===================================================================== *)
(** ** src/api/debug.js, first handler: which configuration is set *)
(* ===================================================================== *)

Module EnvDebug.
Import Js Net.

Definition vars : list string :=
  [ "AIRTABLE_API_KEY";
    "AIRTABLE_BASE_ID";
    "AIRTABLE_TABLE_ID";
    "TEXTBELT_API_KEY";
    "NOTIFY_PHONE";
    "NOTIFY_EMAIL";
    "RESEND_API_KEY" ].

(** The preview of a set variable:
    [`SET (${val.length} chars, starts with "${val.slice(0, 4)}...")`]. *)
Definition preview (len : nat) (start : string) : string :=
  "SET (" +:+ digits len +:+ " chars, starts with " +:+ dq +:+ start +:+ "..." +:+ dq +:+ ")".

(** [val ? `SET (...)` : 'MISSING'], for [val = process.env[v]]. *)
Definition describe (val : option string) : string :=
  match val with
  | Some v =>
      if negb (String.eqb v "")
      then preview (String.length v) (slice v 0 4)
      else "MISSING"
  | None => "MISSING"
  end.

(** The loop [for (const v of vars) status[v] = ...]. *)
Definition status (e : gmap string string) : list (string * json) :=
  fold_left (fun st v => obj_set st v (JStr (describe (e !! v)))) vars [].

Definition handler (w : world) (req : request) : outcome :=
  {| sent := send_json [] 200 (JObj (status (env w))); effects := [] |}.

End EnvDebug.

(* ===================================================================== *)
(** ** src/api/quote.js: parallel fan-out, silent success *)
(* ===================================================================== *)

Module Quote.
Import Js Net Form Template.

Definition heading : string := "🌿 New WeMow760 Quote".

(** The [fields] literal of [createAirtableRecord]. *)
Definition fields (d : quote) : list (string * option json) :=
  [ ("Name", json_of (name d));
    ("Phone", json_of (phone d));
    ("Address", json_of (address d));
    ("Service", json_of (or_else (service d) Undefined));
    ("Urgency", json_of (or_else (urgency d) Undefined));
    ("Details", json_of (or_else (details d) (Str "")));
    ("Status", Some (JStr "New")) ].

Definition createAirtableRecord (w : world) (d : quote) : task json :=
  let* resp := do_fetch w (airtable_request (env w) (fields d)) in
  checked_json "Airtable" resp.

Definition sendSMS (w : world) (d : quote) : task json := Template.sendSMS w heading d.

Definition html (timestamp : string) (d : quote) : string :=
  html_upper timestamp d +:+ optional_row row_details (details d) +:+ html_close.

Definition sendEmail (w : world) (d : quote) : task json :=
  let* resp := do_fetch w (email_request (env w) (subject "New Quote — " d) (html (now w) d)) in
  checked_json "Resend" resp.

(** [errors], after the three [if (x.status === 'rejected') errors.push (..)]. *)
Definition errors {A B C : Type} (airtable : settled A) (sms : settled B) (email : settled C)
  : list string :=
  (if is_rejected airtable then ["airtable"] else [])
    ++ (if is_rejected sms then ["sms"] else [])
    ++ (if is_rejected email then ["email"] else []).

Definition handler (w : world) (req : request) : outcome :=
  if negb (String.eqb (method req) "POST") then
    {| sent := send_json [] 405 method_not_allowed; effects := [] |}
  else
    let hs := cors [] in
    match destructure (body req) with
    | Throw err =>
        {| sent := send_json hs 500 went_wrong;
           effects := [Console LError [Text "Quote handler error:"; Text err]] |}
    | Normal d =>
        if missing_required d then
          {| sent := send_json hs 400 fields_required; effects := [] |}
        else
          let '(calls, (airtable, sms, email)) :=
            allSettled3 (createAirtableRecord w d) (sendSMS w d) (sendEmail w d) in
          let failed := errors airtable sms email in
          {| sent := send_json hs 200 success;
             effects :=
               calls
                 ++ log_rejected "Airtable error:" airtable
                 ++ log_rejected "SMS error:" sms
                 ++ log_rejected "Email error:" email
                 ++ (if (0 <? length failed)%nat
                     then [Console LWarn [Text "Some notifications failed:";
                                          Text (join ", " failed)]]
                     else []) |}
    end.

End Quote.

(* ===================================================================== *)
(** ** src/unnamed/part_000: parallel fan-out, outcomes echoed *)
(* ===================================================================== *)

Module QuoteEcho.
Import Js Net Form Template.

Definition heading : string := "🌿 New WeMow760 Quote".

(** [fields] of [createAirtableRecord]: the literal, then the two
    conditional assignments. *)
Definition fields (d : quote) : list (string * option json) :=
  let fields0 :=
    [ ("Name", json_of (name d));
      ("Phone", json_of (phone d));
      ("Address", json_of (address d));
      ("Details", json_of (or_else (details d) (Str "")));
      ("Status", Some (JStr "New")) ] in
  let fields1 :=
    if truthy (service d) then obj_set fields0 "Service" (json_of (service d)) else fields0 in
  if truthy (urgency d) then obj_set fields1 "Urgency" (json_of (urgency d)) else fields1.

Definition createAirtableRecord (w : world) (d : quote) : task json :=
  let* resp := do_fetch w (airtable_request (env w) (fields d)) in
  checked_json "Airtable" resp.

Definition sendSMS (w : world) (d : quote) : task json := Template.sendSMS w heading d.

Definition html (timestamp : string) (d : quote) : string :=
  html_upper timestamp d +:+ optional_row row_details (details d) +:+ html_close.

Definition sendEmail (w : world) (d : quote) : task json :=
  let* resp := do_fetch w (email_request (env w) (subject "New Quote — " d) (html (now w) d)) in
  checked_json "Resend" resp.

(** [p.status === 'fulfilled' ? 'OK' : `FAIL: ${p.reason}`]. *)
Definition verdict {A : Type} (p : settled A) : string :=
  match p with
  | Fulfilled _ => "OK"
  | Rejected r => "FAIL: " +:+ r
  end.

Definition summary {A B C : Type} (airtable : settled A) (sms : settled B) (email : settled C)
  : json :=
  JObj [ ("airtable", JStr (verdict airtable));
         ("sms", JStr (verdict sms));
         ("email", JStr (verdict email)) ].

Definition handler (w : world) (req : request) : outcome :=
  if String.eqb (method req) "OPTIONS" then
    {| sent := send_end (cors []) 200; effects := [] |}
  else if negb (String.eqb (method req) "POST") then
    {| sent := send_json [] 405 method_not_allowed; effects := [] |}
  else
    let hs := cors [] in
    match destructure (body req) with
    | Throw err =>
        {| sent := send_json hs 500 went_wrong;
           effects := [Console LError [Text "Quote handler error:"; Text err]] |}
    | Normal d =>
        if missing_required d then
          {| sent := send_json hs 400 fields_required; effects := [] |}
        else
          let '(calls, (airtable, sms, email)) :=
            allSettled3 (createAirtableRecord w d) (sendSMS w d) (sendEmail w d) in
          let report := summary airtable sms email in
          {| sent := send_json hs 200 (JObj [("success", JBool true); ("_debug", report)]);
             effects :=
               [Console LLog [Text "Processing quote for:"; Text (to_string (name d))]]
                 ++ calls
                 ++ [Console LLog [Text "Results:"; Json report]] |}
    end.

End QuoteEcho.

(* ===================================================================== *)
(** ** src/api/debug.js, second handler: record store first *)
(* ===================================================================== *)

Module QuoteLinked.
Import Js Net Form Template.

Definition heading : string := "🌿 New WeMow760 Quote Request".

Definition fields (d : quote) : list (string * option json) :=
  let fields0 :=
    [ ("Name", json_of (name d));
      ("Phone", json_of (phone d));
      ("Address", json_of (address d));
      ("Details", json_of (or_else (details d) (Str "")));
      ("Status", Some (JStr "New")) ] in
  let fields1 :=
    if truthy (service d) then obj_set fields0 "Service" (json_of (service d)) else fields0 in
  if truthy (urgency d) then obj_set fields1 "Urgency" (json_of (urgency d)) else fields1.

Definition createAirtableRecord (w : world) (d : quote) : task json :=
  let* resp := do_fetch w (airtable_request (env w) (fields d)) in
  checked_json "Airtable" resp.

Definition sendSMS (w : world) (d : quote) : task json := Template.sendSMS w heading d.

(** [airtableUrl]; [id] is [airtableRecordId], [None] standing for [null]. *)
Definition airtableUrl (e : gmap string string) (id : option json) : completion string :=
  let base :=
    "https://airtable.com/" +:+ env_text (e !! "AIRTABLE_BASE_ID")
      +:+ "/" +:+ env_text (e !! "AIRTABLE_TABLE_ID") in
  if json_truthy id then
    match reply_to_string id with
    | Normal t => Normal (base +:+ "/" +:+ t)
    | Throw r => Throw r
    end
  else Normal base.

Definition html (timestamp : string) (d : quote) (link : string) : string :=
  html_upper timestamp d +:+ optional_row row_details_linked (details d)
    +:+ html_link +:+ link +:+ html_link_close.

Definition sendEmail (w : world) (d : quote) (id : option json) : task json :=
  match airtableUrl (env w) id with
  | Throw r => throw r
  | Normal link =>
      let* resp :=
        do_fetch w (email_request (env w) (subject "New Quote Request — " d)
                      (html (now w) d link)) in
      checked_json "Resend" resp
  end.

(** Step 1 of the handler, after the call has settled:
    [airtableRecordId = airtableResult.records?.[0]?.id || null] inside
    [try], [console.error ('Airtable error:', err)] in its [catch]. *)
Definition record_id (airtable : settled json) : list effect * option json :=
  match airtable with
  | Rejected r => ([Console LError [Text "Airtable error:"; Text r]], None)
  | Fulfilled airtableResult =>
      match member (Some airtableResult) "records" with
      | Throw r => ([Console LError [Text "Airtable error:"; Text r]], None)
      | Normal records =>
          let id := opt_member (opt_first records) "id" in
          ([], if json_truthy id then id else None)
      end
  end.

Definition handler (w : world) (req : request) : outcome :=
  if String.eqb (method req) "OPTIONS" then
    {| sent := send_end (cors []) 200; effects := [] |}
  else if negb (String.eqb (method req) "POST") then
    {| sent := send_json [] 405 method_not_allowed; effects := [] |}
  else
    let hs := cors [] in
    match destructure (body req) with
    | Throw err =>
        {| sent := send_json hs 500 went_wrong;
           effects := [Console LError [Text "Quote handler error:"; Text err]] |}
    | Normal formData =>
        if missing_required formData then
          {| sent := send_json hs 400 fields_required; effects := [] |}
        else
          let '(call1, airtable) := createAirtableRecord w formData in
          let '(log1, airtableRecordId) := record_id airtable in
          let sms := sendSMS w formData in
          let email := sendEmail w formData airtableRecordId in
          {| sent := send_json hs 200 success;
             effects :=
               call1 ++ log1 ++ fst sms ++ fst email
                 ++ log_rejected "SMS error:" (snd sms)
                 ++ log_rejected "Email error:" (snd email) |}
    end.

End QuoteLinked.

(* ===================================================================== *)
(** ** The handlers on any JSON body, as a trace *)
(* ===================================================================== *)

(** [Js.jsval] holds the scalars that the specification's data model allows
    in a field. A JSON body can hold more: numbers, arrays and objects pass
    the handlers' check like any other truthy value, and an object with an
    own [toString] member cannot be interpolated: the template literal throws
    a [TypeError], inside [sendSMS] and [sendEmail], before their [fetch].
    The modules [Full], [FullQuote], [FullQuoteEcho] and [FullQuoteLinked]
    embed the same three handlers over every JSON value, with that error
    path, and record where among its effects a handler resumes from an
    [await] and where it sends its response. On the bodies of [Net.reqbody]
    they do what [Quote], [QuoteEcho] and [QuoteLinked] do (theorem
    [scalar_bodies_run_alike]). *)
Module Full.
Import Js Net Template.

(** A value read from [req.body]: [undefined] ([None]) or a JSON value. *)
Definition value : Type := option json.

(** The inbound request, as far as the handlers read it. *)
Record request : Type := { method : string; body : value }.

(** The object [{ name, phone, address, service, urgency, details }]. *)
Record quote : Type := {
  name : value;
  phone : value;
  address : value;
  service : value;
  urgency : value;
  details : value }.

(** What destructuring binds to the key [k]: an own member of an object;
    [undefined] on an array, a string, a number or a boolean, none of which
    has a property of these names. *)
Definition field (b : value) (k : string) : value :=
  match b with
  | Some (JObj ms) => assoc k ms
  | _ => None
  end.

Definition quote_of (b : value) : quote :=
  {| name := field b "name"; phone := field b "phone";
     address := field b "address"; service := field b "service";
     urgency := field b "urgency"; details := field b "details" |}.

(** [const { name, phone, address, service, urgency, details } = req.body]. *)
Definition destructure (b : value) : completion quote :=
  match b with
  | None => Throw (Form.cannot_destructure "undefined")
  | Some JNull => Throw (Form.cannot_destructure "null")
  | _ => Normal (quote_of b)
  end.

(** [!name || !phone || !address]. *)
Definition missing_required (d : quote) : bool :=
  negb (json_truthy (name d)) || negb (json_truthy (phone d))
  || negb (json_truthy (address d)).

(** A valid request: name, phone and address all pass the check. *)
Definition valid (b : value) : Prop :=
  json_truthy (field b "name") = true /\ json_truthy (field b "phone") = true
  /\ json_truthy (field b "address") = true.

(** [a || b]. *)
Definition or_else (a b : value) : value := if json_truthy a then a else b.

(** What [JSON.stringify] writes for a value: the value itself, except that a
    number too large for a double (it has parsed to [Infinity]) is written
    [null]. *)
Fixpoint stringified (j : json) : json :=
  match j with
  | JNum printed =>
      if String.eqb printed "Infinity" || String.eqb printed "-Infinity" then JNull else j
  | JArr items => JArr (map stringified items)
  | JObj ms => JObj (map (fun m => (fst m, stringified (snd m))) ms)
  | _ => j
  end.

(** Evaluation in sequence: the first [throw] ends it. *)
Definition and_then {A B : Type} (c : completion A) (k : A -> completion B) : completion B :=
  match c with
  | Normal a => k a
  | Throw r => Throw r
  end.

Notation "'let!' x ':=' c 'in' k" := (and_then c (fun x => k))
  (at level 10, x name, c at level 100, k at level 200).

(** [`${label}${v}`]. *)
Definition labelled (label : string) (v : value) : completion string :=
  let! s := reply_to_string v in
  Normal (label +:+ s).

(** [v ? `${label}${v}` : null]; [None] is the [null]. *)
Definition optional_line (label : string) (v : value) : completion (option string) :=
  if json_truthy v then
    let! s := labelled label v in
    Normal (Some s)
  else Normal None.

(** The array literal of [sendSMS], its elements evaluated in order. *)
Definition sms_lines (heading : string) (d : quote) : completion (list (option string)) :=
  let! n := labelled "Name: " (name d) in
  let! p := labelled "Phone: " (phone d) in
  let! a := labelled "Address: " (address d) in
  let! s := optional_line "Service: " (service d) in
  let! u := optional_line "Urgency: " (urgency d) in
  let! t := optional_line "Details: " (details d) in
  Normal [Some heading; Some ""; Some n; Some p; Some a; s; u; t].

(** [[...].filter (Boolean)] on strings and [null]s. *)
Definition kept (l : list (option string)) : list string :=
  omap (fun x => match x with
                 | Some s => if String.eqb s "" then None else Some s
                 | None => None
                 end) l.

Definition sms_message (heading : string) (d : quote) : completion string :=
  let! l := sms_lines heading d in
  Normal (join nl (kept l)).

(** The request of [sendSMS], given its message. *)
Definition sms_request_of (e : gmap string string) (message : string) : http_request :=
  {| url := "https://textbelt.com/text";
     verb := "POST";
     http_headers := [("Content-Type", "application/json")];
     content := JObj (stringify_members
       [ ("phone", env_member (e !! "NOTIFY_PHONE"));
         ("message", Some (JStr message));
         ("key", env_member (e !! "TEXTBELT_API_KEY")) ]) |}.

Definition sms_request (e : gmap string string) (heading : string) (d : quote)
  : completion http_request :=
  let! message := sms_message heading d in
  Normal (sms_request_of e message).

(** [data.x ? `<tr>...${data.x}</td></tr>` : '']. *)
Definition optional_row (opening : string) (v : value) : completion string :=
  if json_truthy v then
    let! s := reply_to_string v in
    Normal (opening +:+ s +:+ row_end)
  else Normal "".

(** The template up to and including the urgency row. *)
Definition html_upper (timestamp : string) (d : quote) : completion string :=
  let! n := reply_to_string (name d) in
  let! p := reply_to_string (phone d) in
  let! p' := reply_to_string (phone d) in
  let! a := reply_to_string (address d) in
  let! s := optional_row row_service (service d) in
  let! u := optional_row row_urgency (urgency d) in
  Normal (html_open +:+ timestamp
            +:+ html_name +:+ n
            +:+ html_phone +:+ p
            +:+ html_phone_text +:+ p'
            +:+ html_address +:+ a
            +:+ html_rows +:+ s
            +:+ html_gap +:+ u
            +:+ html_gap).

(** The subject line; [prefix] is the text before the name. *)
Definition subject (prefix : string) (d : quote) : completion string :=
  let! n := reply_to_string (name d) in
  let! s := (if json_truthy (service d) then
               let! t := reply_to_string (service d) in
               Normal (" (" +:+ t +:+ ")")
             else Normal "") in
  Normal (prefix +:+ n +:+ s).

(** What an async function does with the request it has built: when building
    it threw, the promise is rejected and nothing is sent. *)
Definition issued (rq : completion http_request) : list effect :=
  match rq with
  | Normal r => [Fetch r]
  | Throw _ => []
  end.

(** The tail of [sendSMS], after [resp.json ()]. *)
Definition textbelt_result (result : json) : task json :=
  match member (Some result) "success" with
  | Throw r => throw r
  | Normal flag =>
      if negb (json_truthy flag) then
        match member (Some result) "error" with
        | Throw r => throw r
        | Normal e =>
            match reply_to_string e with
            | Throw r => throw r
            | Normal t => throw ("Error: Textbelt failed: " +:+ t)
            end
        end
      else ret result
  end.

Definition sendSMS (w : world) (heading : string) (d : quote) : task json :=
  match sms_request (env w) heading d with
  | Throw r => throw r
  | Normal rq =>
      let* resp := do_fetch w rq in
      let* result := checked_json "Textbelt" resp in
      textbelt_result result
  end.

(** What a handler's run consists of, in program order: its effects, the
    points where it resumes from an [await] (with how each awaited promise
    has settled), and the response it sends. *)
Inductive event : Type :=
| Did (e : effect)
| Awaited (results : list (settled json))
| Send (r : response).

(** The effects of a run, in order. *)
Definition effects_of (t : list event) : list effect :=
  omap (fun ev => match ev with Did e => Some e | _ => None end) t.

(** The responses sent in a run, in order. *)
Definition responses (t : list event) : list response :=
  omap (fun ev => match ev with Send r => Some r | _ => None end) t.

(** The settlements a run has awaited, in order. *)
Definition awaited (t : list event) : list (settled json) :=
  concat (omap (fun ev => match ev with Awaited rs => Some rs | _ => None end) t).

(** A value as a [console.log] argument: a scalar prints as its text, an
    array or an object by inspection. *)
Definition console_arg (v : value) : logarg :=
  match v with
  | None => Text "undefined"
  | Some (JArr _ as j) | Some (JObj _ as j) => Json j
  | Some JNull => Text "null"
  | Some (JBool true) => Text "true"
  | Some (JBool false) => Text "false"
  | Some (JNum printed) => Text printed
  | Some (JStr s) => Text s
  end.

(** Whether a value can be interpolated, and the text it then gives. *)
Definition renders (v : value) : bool :=
  match reply_to_string v with
  | Normal _ => true
  | Throw _ => false
  end.

Definition shown (v : value) : string :=
  match reply_to_string v with
  | Normal s => s
  | Throw _ => ""
  end.

(** A form that every template can render: the required fields, and each
    optional field that is present, can be interpolated. *)
Definition renderable (d : quote) : bool :=
  renders (name d) && renders (phone d) && renders (address d)
  && (negb (json_truthy (service d)) || renders (service d))
  && (negb (json_truthy (urgency d)) || renders (urgency d))
  && (negb (json_truthy (details d)) || renders (details d)).

(** The texts of a renderable form: the SMS, an optional row, the subject,
    the upper part of the email. *)
Definition line (label : string) (v : value) : list string :=
  if json_truthy v then [label +:+ shown v] else [].

Definition sms_text (heading : string) (d : quote) : string :=
  join nl
    ([ heading;
       "Name: " +:+ shown (name d);
       "Phone: " +:+ shown (phone d);
       "Address: " +:+ shown (address d) ]
       ++ line "Service: " (service d)
       ++ line "Urgency: " (urgency d)
       ++ line "Details: " (details d)).

Definition row (opening : string) (v : value) : string :=
  if json_truthy v then opening +:+ shown v +:+ row_end else "".

Definition subject_text (prefix : string) (d : quote) : string :=
  prefix +:+ shown (name d)
    +:+ (if json_truthy (service d) then " (" +:+ shown (service d) +:+ ")" else "").

Definition html_upper_text (timestamp : string) (d : quote) : string :=
  html_open +:+ timestamp
    +:+ html_name +:+ shown (name d)
    +:+ html_phone +:+ shown (phone d)
    +:+ html_phone_text +:+ shown (phone d)
    +:+ html_address +:+ shown (address d)
    +:+ html_rows +:+ row row_service (service d)
    +:+ html_gap +:+ row row_urgency (urgency d)
    +:+ html_gap.

(** A body of [Net.reqbody] as a JSON body: the members of the parsed object
    that have a value; and a form of scalars as a form. *)
Definition members (o : gmap string jsval) : list (string * json) :=
  omap (fun m => match json_of (snd m) with
                 | Some j => Some (fst m, j)
                 | None => None
                 end) (map_to_list o).

Definition of_body (b : reqbody) : value :=
  match b with
  | BUndefined => None
  | BNull => Some JNull
  | BText s => Some (JStr s)
  | BObject o => Some (JObj (members o))
  end.

Definition of_request (req : Net.request) : request :=
  {| method := Net.method req; body := of_body (Net.body req) |}.

Definition of_quote (d : Form.quote) : quote :=
  {| name := json_of (Form.name d);
     phone := json_of (Form.phone d);
     address := json_of (Form.address d);
     service := json_of (Form.service d);
     urgency := json_of (Form.urgency d);
     details := json_of (Form.details d) |}.

End Full.

(** src/api/quote.js. *)
Module FullQuote.
Import Js Net Template Full.

Definition fields (d : quote) : list (string * option json) :=
  [ ("Name", stringified <$> name d);
    ("Phone", stringified <$> phone d);
    ("Address", stringified <$> address d);
    ("Service", stringified <$> or_else (service d) None);
    ("Urgency", stringified <$> or_else (urgency d) None);
    ("Details", stringified <$> or_else (details d) (Some (JStr "")));
    ("Status", Some (JStr "New")) ].

Definition createAirtableRecord (w : world) (d : quote) : task json :=
  let* resp := do_fetch w (airtable_request (env w) (fields d)) in
  checked_json "Airtable" resp.

Definition sendSMS (w : world) (d : quote) : task json := Full.sendSMS w Quote.heading d.

Definition html (timestamp : string) (d : quote) : completion string :=
  let! upper := html_upper timestamp d in
  let! row := optional_row row_details (details d) in
  Normal (upper +:+ row +:+ html_close).

(** The request of [sendEmail]: the HTML is built first, the subject inside
    the call to [fetch]. *)
Definition email (e : gmap string string) (timestamp : string) (d : quote)
  : completion http_request :=
  let! h := html timestamp d in
  let! s := subject "New Quote — " d in
  Normal (email_request e s h).

Definition sendEmail (w : world) (d : quote) : task json :=
  match email (env w) (now w) d with
  | Throw r => throw r
  | Normal rq =>
      let* resp := do_fetch w rq in
      checked_json "Resend" resp
  end.

Definition handler (w : world) (req : request) : list event :=
  if negb (String.eqb (method req) "POST") then
    [Send (send_json [] 405 Form.method_not_allowed)]
  else
    let hs := cors [] in
    match destructure (body req) with
    | Throw err =>
        [ Did (Console LError [Text "Quote handler error:"; Text err]);
          Send (send_json hs 500 Form.went_wrong) ]
    | Normal d =>
        if missing_required d then [Send (send_json hs 400 Form.fields_required)]
        else
          let airtable := createAirtableRecord w d in
          let sms := sendSMS w d in
          let email := sendEmail w d in
          let failed := Quote.errors (snd airtable) (snd sms) (snd email) in
          map Did (fst airtable ++ fst sms ++ fst email)
            ++ [Awaited [snd airtable; snd sms; snd email]]
            ++ map Did
                 (log_rejected "Airtable error:" (snd airtable)
                    ++ log_rejected "SMS error:" (snd sms)
                    ++ log_rejected "Email error:" (snd email)
                    ++ (if (0 <? length failed)%nat
                        then [Console LWarn [Text "Some notifications failed:";
                                             Text (join ", " failed)]]
                        else []))
            ++ [Send (send_json hs 200 Form.success)]
    end.

End FullQuote.

(** src/unnamed/part_000. *)
Module FullQuoteEcho.
Import Js Net Template Full.

Definition fields (d : quote) : list (string * option json) :=
  let fields0 :=
    [ ("Name", stringified <$> name d);
      ("Phone", stringified <$> phone d);
      ("Address", stringified <$> address d);
      ("Details", stringified <$> or_else (details d) (Some (JStr "")));
      ("Status", Some (JStr "New")) ] in
  let fields1 :=
    if json_truthy (service d)
    then obj_set fields0 "Service" (stringified <$> service d) else fields0 in
  if json_truthy (urgency d)
  then obj_set fields1 "Urgency" (stringified <$> urgency d) else fields1.

Definition createAirtableRecord (w : world) (d : quote) : task json :=
  let* resp := do_fetch w (airtable_request (env w) (fields d)) in
  checked_json "Airtable" resp.

Definition sendSMS (w : world) (d : quote) : task json := Full.sendSMS w QuoteEcho.heading d.

Definition html (timestamp : string) (d : quote) : completion string :=
  let! upper := html_upper timestamp d in
  let! row := optional_row row_details (details d) in
  Normal (upper +:+ row +:+ html_close).

Definition email (e : gmap string string) (timestamp : string) (d : quote)
  : completion http_request :=
  let! h := html timestamp d in
  let! s := subject "New Quote — " d in
  Normal (email_request e s h).

Definition sendEmail (w : world) (d : quote) : task json :=
  match email (env w) (now w) d with
  | Throw r => throw r
  | Normal rq =>
      let* resp := do_fetch w rq in
      checked_json "Resend" resp
  end.

Definition handler (w : world) (req : request) : list event :=
  if String.eqb (method req) "OPTIONS" then [Send (send_end (cors []) 200)]
  else if negb (String.eqb (method req) "POST") then
    [Send (send_json [] 405 Form.method_not_allowed)]
  else
    let hs := cors [] in
    match destructure (body req) with
    | Throw err =>
        [ Did (Console LError [Text "Quote handler error:"; Text err]);
          Send (send_json hs 500 Form.went_wrong) ]
    | Normal d =>
        if missing_required d then [Send (send_json hs 400 Form.fields_required)]
        else
          let airtable := createAirtableRecord w d in
          let sms := sendSMS w d in
          let email := sendEmail w d in
          let report := QuoteEcho.summary (snd airtable) (snd sms) (snd email) in
          [Did (Console LLog [Text "Processing quote for:"; console_arg (name d)])]
            ++ map Did (fst airtable ++ fst sms ++ fst email)
            ++ [Awaited [snd airtable; snd sms; snd email]]
            ++ [Did (Console LLog [Text "Results:"; Json report])]
            ++ [Send (send_json hs 200 (JObj [("success", JBool true); ("_debug", report)]))]
    end.

End FullQuoteEcho.

(** src/api/debug.js, second handler. *)
Module FullQuoteLinked.
Import Js Net Template Full.

Definition fields (d : quote) : list (string * option json) :=
  let fields0 :=
    [ ("Name", stringified <$> name d);
      ("Phone", stringified <$> phone d);
      ("Address", stringified <$> address d);
      ("Details", stringified <$> or_else (details d) (Some (JStr "")));
      ("Status", Some (JStr "New")) ] in
  let fields1 :=
    if json_truthy (service d)
    then obj_set fields0 "Service" (stringified <$> service d) else fields0 in
  if json_truthy (urgency d)
  then obj_set fields1 "Urgency" (stringified <$> urgency d) else fields1.

Definition createAirtableRecord (w : world) (d : quote) : task json :=
  let* resp := do_fetch w (airtable_request (env w) (fields d)) in
  checked_json "Airtable" resp.

Definition sendSMS (w : world) (d : quote) : task json :=
  Full.sendSMS w QuoteLinked.heading d.

Definition html (timestamp : string) (d : quote) (link : string) : completion string :=
  let! upper := html_upper timestamp d in
  let! row := optional_row row_details_linked (details d) in
  Normal (upper +:+ row +:+ html_link +:+ link +:+ html_link_close).

(** The request of [sendEmail]: the link is built first, then the HTML, the
    subject inside the call to [fetch]. *)
Definition email (e : gmap string string) (timestamp : string) (d : quote) (id : option json)
  : completion http_request :=
  let! link := QuoteLinked.airtableUrl e id in
  let! h := html timestamp d link in
  let! s := subject "New Quote Request — " d in
  Normal (email_request e s h).

Definition sendEmail (w : world) (d : quote) (id : option json) : task json :=
  match email (env w) (now w) d id with
  | Throw r => throw r
  | Normal rq =>
      let* resp := do_fetch w rq in
      checked_json "Resend" resp
  end.

Definition handler (w : world) (req : request) : list event :=
  if String.eqb (method req) "OPTIONS" then [Send (send_end (cors []) 200)]
  else if negb (String.eqb (method req) "POST") then
    [Send (send_json [] 405 Form.method_not_allowed)]
  else
    let hs := cors [] in
    match destructure (body req) with
    | Throw err =>
        [ Did (Console LError [Text "Quote handler error:"; Text err]);
          Send (send_json hs 500 Form.went_wrong) ]
    | Normal formData =>
        if missing_required formData then [Send (send_json hs 400 Form.fields_required)]
        else
          let airtable := createAirtableRecord w formData in
          let '(log1, airtableRecordId) := QuoteLinked.record_id (snd airtable) in
          let sms := sendSMS w formData in
          let email := sendEmail w formData airtableRecordId in
          map Did (fst airtable)
            ++ [Awaited [snd airtable]]
            ++ map Did log1
            ++ map Did (fst sms ++ fst email)
            ++ [Awaited [snd sms; snd email]]
            ++ map Did
                 (log_rejected "SMS error:" (snd sms)
                    ++ log_rejected "Email error:" (snd email))
            ++ [Send (send_json hs 200 Form.success)]
    end.

End FullQuoteLinked.

(* ===================================================================== *)
(** ** Concrete requests and worlds *)
(* ===================================================================== *)

Module Samples.
Import Js Net Form.

Definition configured : gmap string string :=
  <["AIRTABLE_API_KEY" := "patFAKEKEY0123456789"]>
    (<["AIRTABLE_BASE_ID" := "appBASE0000000001"]>
       (<["AIRTABLE_TABLE_ID" := "tblQUOTES00000001"]>
          (<["TEXTBELT_API_KEY" := "textbelt-key-0001"]>
             (<["NOTIFY_PHONE" := "7605550199"]>
                (<["NOTIFY_EMAIL" := "owner@wemow760.com"]>
                   (<["RESEND_API_KEY" := "re_FAKEKEY0123456789"]> ∅)))))).

Definition stamp : string := "Nov 2, 2026, 7:09 AM".

Definition reply_ok : http_reply :=
  {| code := 200;
     text := Fulfilled "{}";
     parsed := Fulfilled (JObj [("success", JBool true);
                                ("records", JArr [JObj [("id", JStr "rec0001")]])]) |}.

(** Every outbound call fails in transport. *)
Definition offline : world :=
  {| env := configured; now := stamp; fetch := fun _ => Rejected "TypeError: fetch failed" |}.

(** Every outbound call succeeds. *)
Definition online : world :=
  {| env := configured; now := stamp; fetch := fun _ => Fulfilled reply_ok |}.

(** The record store answers 422, the two gateways succeed. *)
Definition airtable_down : world :=
  {| env := configured; now := stamp;
     fetch := fun r =>
       if String.prefix "https://api.airtable.com/" (url r)
       then Fulfilled {| code := 422; text := Fulfilled "INVALID_VALUE"; parsed := Rejected "SyntaxError" |}
       else Fulfilled reply_ok |}.

Definition jane : gmap string jsval :=
  <["name" := Str "Jane Doe"]>
    (<["phone" := Str "760-555-0100"]>
       (<["address" := Str "123 Oak St"]>
          (<["service" := Str "Mowing"]>
             (<["details" := Str "Gate code 4521"]> ∅)))).

Definition post (o : gmap string jsval) : request := {| method := "POST"; body := BObject o |}.

Definition jane_post : request := post jane.

(** Name and address only. *)
Definition bare : gmap string jsval :=
  <["name" := Str "Jane Doe"]> (<["address" := Str "123 Oak St"]> ∅).

(** Required fields only. *)
Definition minimal : gmap string jsval := <["phone" := Str "760-555-0100"]> bare.

(** Jane's submission with one more key. *)
Definition jane_tagged : gmap string jsval := <["utm_source" := Str "flyer"]> jane.

Definition post_null : request := {| method := "POST"; body := BNull |}.
Definition post_nobody : request := {| method := "POST"; body := BUndefined |}.
Definition get_empty : request := {| method := "GET"; body := BObject ∅ |}.
Definition options : request := {| method := "OPTIONS"; body := BUndefined |}.

(** A configuration whose record-store key is four characters long. *)
Definition short_key : world :=
  {| env := <["AIRTABLE_API_KEY" := "abcd"]> ∅; now := stamp;
     fetch := fun _ => Rejected "TypeError: fetch failed" |}.

End Samples.

(* ===================================================================== *)
(** ** Further concrete requests and worlds *)
(* ===================================================================== *)

Module Cases.
Import Js Net Form.

(** Two optional values that no collaborator can tell apart: equal, or both
    blank. *)
Definition alike (u v : jsval) : Prop := u = v \/ (blank u /\ blank v).

(** Textbelt answers 200 and reports the failure in its reply. *)
Definition reply_refused : http_reply :=
  {| code := 200;
     text := Fulfilled "{}";
     parsed := Fulfilled (JObj [("success", JBool false); ("error", JStr "Out of quota")]) |}.

Definition textbelt_refuses : world :=
  {| env := Samples.configured; now := Samples.stamp;
     fetch := fun r =>
       if String.prefix "https://textbelt.com/" (url r)
       then Fulfilled reply_refused
       else Fulfilled Samples.reply_ok |}.


(** The configuration of [Samples.online] with one more variable. *)
Definition with_path : world :=
  {| env := <["PATH" := "/usr/bin"]> Samples.configured; now := Samples.stamp;
     fetch := fun _ => Rejected "TypeError: fetch failed" |}.

(** The required fields, with an empty service and a [null] urgency. *)
Definition minimal_blanks : gmap string jsval :=
  <["service" := Str ""]> (<["urgency" := Null]> Samples.minimal).

(** A name that is markup. *)
Definition markup : gmap string jsval :=
  <["name" := Str "<b>Jane</b>"]> Samples.minimal.

End Cases.

(* ===================================================================== *)
(** ** Concrete JSON bodies *)
(* ===================================================================== *)

Module FullCases.
Import Js Net.

Definition post (ms : list (string * json)) : Full.request :=
  {| Full.method := "POST"; Full.body := Some (JObj ms) |}.

(** Jane Doe's submission. *)
Definition jane : list (string * json) :=
  [ ("name", JStr "Jane Doe");
    ("phone", JStr "760-555-0100");
    ("address", JStr "123 Oak St");
    ("service", JStr "Mowing");
    ("details", JStr "Gate code 4521") ].

(** A submission whose name is the object [{"toString": null}]. *)
Definition unprintable : list (string * json) :=
  [ ("name", JObj [("toString", JNull)]);
    ("phone", JStr "760-555-0100");
    ("address", JStr "123 Oak St") ].

(** A submission whose fields are not text: a number, a list, a flag. *)
Definition untyped : list (string * json) :=
  [ ("name", JNum "42");
    ("phone", JArr [JStr "760"; JStr "555"; JStr "0100"]);
    ("address", JBool true);
    ("service", JArr []) ].

End FullCases.

(* ===================================================================== *)
(** ** Properties *)
(* ===================================================================== *)

Import Js Net Form Template.

(** *** Values *)

Lemma truthy_false_iff (v : jsval) :
  blank v <-> v = Undefined \/ v = Null \/ v = Bool false \/ v = Str "".
Proof.
  unfold blank. split.
  - destruct v as [ | | [] | [ | c s]]; simpl; intros H; auto; discriminate.
  - intros [-> | [-> | [-> | ->]]]; reflexivity.
Qed.

Lemma missing_required_true (d : quote) :
  missing_required d = true <-> blank (name d) \/ blank (phone d) \/ blank (address d).
Proof.
  unfold missing_required, blank. rewrite !orb_true_iff, !negb_true_iff. tauto.
Qed.

Lemma missing_required_false (d : quote) :
  missing_required d = false
  <-> truthy (name d) = true /\ truthy (phone d) = true /\ truthy (address d) = true.
Proof.
  unfold missing_required. rewrite !orb_false_iff, !negb_false_iff. tauto.
Qed.

(** Destructuring throws on [undefined] and [null] only. *)
Lemma destructure_defined (b : reqbody) :
  b <> BUndefined -> b <> BNull ->
  destructure b = Normal (quote_of b).
Proof. destruct b; intros H1 H2; try reflexivity; congruence. Qed.

Lemma valid_defined (b : reqbody) : valid b -> b <> BUndefined /\ b <> BNull.
Proof. intros (H & _ & _). destruct b; simpl in H; split; congruence. Qed.

Lemma destructure_valid (b : reqbody) : valid b -> destructure b = Normal (quote_of b).
Proof. intros H. destruct (valid_defined b H). now apply destructure_defined. Qed.

Lemma valid_not_missing (b : reqbody) : valid b -> missing_required (quote_of b) = false.
Proof. intros H. now apply missing_required_false. Qed.

(** *** An async call performs exactly its one fetch *)

Lemma checked_json_quiet (n : string) (resp : http_reply) : fst (checked_json n resp) = [].
Proof.
  unfold checked_json. destruct (ok resp); simpl; [reflexivity |].
  destruct (text resp); reflexivity.
Qed.

Lemma bind_fetch_effects {A : Type} (w : world) (r : http_request) (k : http_reply -> task A) :
  (forall resp, fst (k resp) = []) ->
  fst (let* resp := do_fetch w r in k resp) = [Fetch r].
Proof.
  intros Hk. unfold bind, do_fetch. destruct (fetch w r) as [resp | reason]; [| reflexivity].
  specialize (Hk resp). destruct (k resp) as [es p]. simpl in *. now subst.
Qed.

Lemma bind_quiet {A B : Type} (m : task A) (k : A -> task B) :
  fst m = [] -> (forall a, fst (k a) = []) -> fst (let* a := m in k a) = [].
Proof.
  destruct m as [es [a | reason]]; simpl; intros -> Hk; [| reflexivity].
  specialize (Hk a). destruct (k a) as [es' p]. simpl in *. now subst.
Qed.

Lemma sendSMS_effects (w : world) (h : string) (d : quote) :
  fst (Template.sendSMS w h d) = [Fetch (sms_request (env w) h d)].
Proof.
  unfold Template.sendSMS. apply bind_fetch_effects. intros resp.
  apply bind_quiet; [apply checked_json_quiet |]. intros result.
  destruct (member (Some result) "success") as [flag | r]; [| reflexivity].
  destruct (negb (json_truthy flag)); [| reflexivity].
  destruct (member (Some result) "error") as [e | r]; [| reflexivity].
  destruct (reply_to_string e); reflexivity.
Qed.

Lemma quote_sms_effects (w : world) (d : quote) :
  fst (Quote.sendSMS w d) = [Fetch (sms_request (env w) Quote.heading d)].
Proof. apply sendSMS_effects. Qed.

Lemma echo_sms_effects (w : world) (d : quote) :
  fst (QuoteEcho.sendSMS w d) = [Fetch (sms_request (env w) QuoteEcho.heading d)].
Proof. apply sendSMS_effects. Qed.

Lemma linked_sms_effects (w : world) (d : quote) :
  fst (QuoteLinked.sendSMS w d) = [Fetch (sms_request (env w) QuoteLinked.heading d)].
Proof. apply sendSMS_effects. Qed.

Lemma quote_airtable_effects (w : world) (d : quote) :
  fst (Quote.createAirtableRecord w d) = [Fetch (airtable_request (env w) (Quote.fields d))].
Proof. apply bind_fetch_effects. intros resp. apply checked_json_quiet. Qed.

Lemma quote_email_effects (w : world) (d : quote) :
  fst (Quote.sendEmail w d)
  = [Fetch (email_request (env w) (subject "New Quote — " d) (Quote.html (now w) d))].
Proof. apply bind_fetch_effects. intros resp. apply checked_json_quiet. Qed.

Lemma echo_airtable_effects (w : world) (d : quote) :
  fst (QuoteEcho.createAirtableRecord w d)
  = [Fetch (airtable_request (env w) (QuoteEcho.fields d))].
Proof. apply bind_fetch_effects. intros resp. apply checked_json_quiet. Qed.

Lemma echo_email_effects (w : world) (d : quote) :
  fst (QuoteEcho.sendEmail w d)
  = [Fetch (email_request (env w) (subject "New Quote — " d) (QuoteEcho.html (now w) d))].
Proof. apply bind_fetch_effects. intros resp. apply checked_json_quiet. Qed.

Lemma linked_airtable_effects (w : world) (d : quote) :
  fst (QuoteLinked.createAirtableRecord w d)
  = [Fetch (airtable_request (env w) (QuoteLinked.fields d))].
Proof. apply bind_fetch_effects. intros resp. apply checked_json_quiet. Qed.

Lemma linked_email_effects (w : world) (d : quote) (id : option json) :
  fst (QuoteLinked.sendEmail w d id)
  = match QuoteLinked.airtableUrl (env w) id with
    | Normal link =>
        [Fetch (email_request (env w) (subject "New Quote Request — " d)
                  (QuoteLinked.html (now w) d link))]
    | Throw _ => []
    end.
Proof.
  unfold QuoteLinked.sendEmail. destruct (QuoteLinked.airtableUrl (env w) id); [| reflexivity].
  apply bind_fetch_effects. intros resp. apply checked_json_quiet.
Qed.

(** *** The run of each handler on a valid POST *)

Lemma post_is_post (req : request) : method req = "POST" -> String.eqb (method req) "POST" = true.
Proof. intros ->. reflexivity. Qed.

Lemma post_not_options (req : request) :
  method req = "POST" -> String.eqb (method req) "OPTIONS" = false.
Proof. intros ->. reflexivity. Qed.

Lemma quote_run (w : world) (req : request) :
  method req = "POST" -> valid (body req) ->
  Quote.handler w req =
    let d := quote_of (body req) in
    let airtable := snd (Quote.createAirtableRecord w d) in
    let sms := snd (Quote.sendSMS w d) in
    let email := snd (Quote.sendEmail w d) in
    {| sent := send_json (cors []) 200 success;
       effects :=
         [ Fetch (airtable_request (env w) (Quote.fields d));
           Fetch (sms_request (env w) Quote.heading d);
           Fetch (email_request (env w) (subject "New Quote — " d) (Quote.html (now w) d)) ]
           ++ log_rejected "Airtable error:" airtable
           ++ log_rejected "SMS error:" sms
           ++ log_rejected "Email error:" email
           ++ (if (0 <? length (Quote.errors airtable sms email))%nat
               then [Console LWarn [Text "Some notifications failed:";
                                    Text (join ", " (Quote.errors airtable sms email))]]
               else []) |}.
Proof.
  intros Hm Hv. unfold Quote.handler.
  rewrite (post_is_post req Hm), (destructure_valid _ Hv), (valid_not_missing _ Hv).
  cbn [negb]. unfold allSettled3.
  rewrite quote_airtable_effects, quote_email_effects, quote_sms_effects. reflexivity.
Qed.

Lemma echo_run (w : world) (req : request) :
  method req = "POST" -> valid (body req) ->
  QuoteEcho.handler w req =
    let d := quote_of (body req) in
    let report :=
      QuoteEcho.summary (snd (QuoteEcho.createAirtableRecord w d))
        (snd (QuoteEcho.sendSMS w d)) (snd (QuoteEcho.sendEmail w d)) in
    {| sent := send_json (cors []) 200 (JObj [("success", JBool true); ("_debug", report)]);
       effects :=
         [ Console LLog [Text "Processing quote for:"; Text (to_string (name d))];
           Fetch (airtable_request (env w) (QuoteEcho.fields d));
           Fetch (sms_request (env w) QuoteEcho.heading d);
           Fetch (email_request (env w) (subject "New Quote — " d) (QuoteEcho.html (now w) d));
           Console LLog [Text "Results:"; Json report] ] |}.
Proof.
  intros Hm Hv. unfold QuoteEcho.handler.
  rewrite (post_not_options req Hm), (post_is_post req Hm),
    (destructure_valid _ Hv), (valid_not_missing _ Hv).
  cbn [negb]. unfold allSettled3.
  rewrite echo_airtable_effects, echo_email_effects, echo_sms_effects. reflexivity.
Qed.

Lemma linked_run (w : world) (req : request) :
  method req = "POST" -> valid (body req) ->
  QuoteLinked.handler w req =
    let d := quote_of (body req) in
    let step1 := QuoteLinked.record_id (snd (QuoteLinked.createAirtableRecord w d)) in
    let email := QuoteLinked.sendEmail w d (snd step1) in
    {| sent := send_json (cors []) 200 success;
       effects :=
         [Fetch (airtable_request (env w) (QuoteLinked.fields d))]
           ++ fst step1
           ++ [Fetch (sms_request (env w) QuoteLinked.heading d)]
           ++ fst email
           ++ log_rejected "SMS error:" (snd (QuoteLinked.sendSMS w d))
           ++ log_rejected "Email error:" (snd email) |}.
Proof.
  intros Hm Hv. unfold QuoteLinked.handler.
  rewrite (post_not_options req Hm), (post_is_post req Hm),
    (destructure_valid _ Hv), (valid_not_missing _ Hv).
  cbn [negb].
  pose proof (linked_airtable_effects w (quote_of (body req))) as Ha.
  destruct (QuoteLinked.createAirtableRecord w (quote_of (body req))) as [call1 airtable].
  simpl in Ha. subst call1. cbn [snd].
  destruct (QuoteLinked.record_id airtable) as [log1 id]. cbn [fst snd]. cbv zeta.
  rewrite linked_sms_effects. reflexivity.
Qed.

(** The outbound requests of the two parallel versions on a valid POST. *)
Lemma quote_fetches (w : world) (req : request) :
  method req = "POST" -> valid (body req) ->
  fetches (effects (Quote.handler w req))
  = [ airtable_request (env w) (Quote.fields (quote_of (body req)));
      sms_request (env w) Quote.heading (quote_of (body req));
      email_request (env w) (subject "New Quote — " (quote_of (body req)))
        (Quote.html (now w) (quote_of (body req))) ].
Proof.
  intros Hm Hv. rewrite (quote_run w req Hm Hv). cbv zeta. cbn [effects].
  unfold fetches. rewrite !omap_app.
  assert (Hlog : forall (A : Type) l (p : settled A),
             omap (fun e => match e with Fetch r => Some r | Console _ _ => None end)
               (log_rejected l p) = []) by (intros A l [v | r]; reflexivity).
  rewrite !Hlog. destruct (0 <? _)%nat; reflexivity.
Qed.

Lemma echo_fetches (w : world) (req : request) :
  method req = "POST" -> valid (body req) ->
  fetches (effects (QuoteEcho.handler w req))
  = [ airtable_request (env w) (QuoteEcho.fields (quote_of (body req)));
      sms_request (env w) QuoteEcho.heading (quote_of (body req));
      email_request (env w) (subject "New Quote — " (quote_of (body req)))
        (QuoteEcho.html (now w) (quote_of (body req))) ].
Proof. intros Hm Hv. rewrite (echo_run w req Hm Hv). reflexivity. Qed.

(** *** C1: a request without name, phone or address *)

(** No version of the handler reaches a collaborator unless the three
    required fields pass the check. *)
Lemma blank_no_fetch (w : world) (req : request) :
  blank (field (body req) "name") \/ blank (field (body req) "phone")
  \/ blank (field (body req) "address") ->
  fetches (effects (Quote.handler w req)) = []
  /\ fetches (effects (QuoteEcho.handler w req)) = []
  /\ fetches (effects (QuoteLinked.handler w req)) = [].
Proof.
  intros H. unfold Quote.handler, QuoteEcho.handler, QuoteLinked.handler.
  destruct (String.eqb (method req) "OPTIONS"), (String.eqb (method req) "POST");
    cbn [negb]; repeat split; try reflexivity;
    destruct (body req) as [ | | t | o] eqn:Hb; try reflexivity;
    cbn [destructure];
    (replace (missing_required _) with true
       by (symmetry; apply missing_required_true; exact H));
    reflexivity.
Qed.

(** C1, as the code has it. Whenever name, phone or address is missing or
    empty (or otherwise falsy), no version of the handler calls the record
    store, the SMS gateway or the email gateway. When moreover the request is
    a POST whose body is neither [undefined] nor [null], every version
    answers 400 with [{error: "Name, phone, and address are required."}],
    the CORS headers set, and performs no effect at all. *)
Theorem required_fields_rejected (w : world) (req : request) :
  blank (field (body req) "name") \/ blank (field (body req) "phone")
  \/ blank (field (body req) "address") ->
  (fetches (effects (Quote.handler w req)) = []
   /\ fetches (effects (QuoteEcho.handler w req)) = []
   /\ fetches (effects (QuoteLinked.handler w req)) = [])
  /\ (method req = "POST" -> body req <> BUndefined -> body req <> BNull ->
      let rejected :=
        {| sent := {| status := 400;
                      headers := [ ("Access-Control-Allow-Origin", "*");
                                   ("Access-Control-Allow-Methods", "POST");
                                   ("Access-Control-Allow-Headers", "Content-Type") ];
                      payload := Some (JObj [("error",
                                   JStr "Name, phone, and address are required.")]) |};
           effects := [] |} in
      Quote.handler w req = rejected
      /\ QuoteEcho.handler w req = rejected
      /\ QuoteLinked.handler w req = rejected).
Proof.
  intros H. split; [now apply blank_no_fetch |].
  intros Hm Hu Hn.
  unfold Quote.handler, QuoteEcho.handler, QuoteLinked.handler.
  rewrite (post_is_post req Hm), (post_not_options req Hm), (destructure_defined _ Hu Hn).
  cbn [negb].
  replace (missing_required (quote_of (body req))) with true
    by (symmetry; apply missing_required_true; exact H).
  repeat split.
Qed.

(** The theorem at a POST that carries a name and an address and no phone. *)
Lemma required_fields_rejected_witness :
  blank (field (body (Samples.post Samples.bare)) "phone")
  /\ method (Samples.post Samples.bare) = "POST"
  /\ status (sent (Quote.handler Samples.online (Samples.post Samples.bare))) = 400
  /\ payload (sent (Quote.handler Samples.online (Samples.post Samples.bare)))
     = Some (JObj [("error", JStr "Name, phone, and address are required.")])
  /\ effects (Quote.handler Samples.online (Samples.post Samples.bare)) = [].
Proof.
  assert (Hb : blank (field (body (Samples.post Samples.bare)) "phone")) by reflexivity.
  split; [exact Hb |]. split; [reflexivity |].
  pose proof (proj1 (proj2 (required_fields_rejected Samples.online
                              (Samples.post Samples.bare) (or_intror (or_introl Hb)))
                       eq_refl ltac:(discriminate) ltac:(discriminate))) as Hq.
  rewrite Hq. repeat split.
Defined.

(** C1 as stated fails: a POST whose body is the JSON text [null], and a
    POST that carries no body, have no name, phone or address, and both are
    answered 500 with [{error: "Something went wrong. Please call us
    instead."}]. *)
Lemma required_fields_counterexample :
  (method Samples.post_null = "POST"
   /\ blank (field (body Samples.post_null) "name")
   /\ status (sent (Quote.handler Samples.online Samples.post_null)) = 500
   /\ status (sent (QuoteEcho.handler Samples.online Samples.post_null)) = 500
   /\ payload (sent (Quote.handler Samples.online Samples.post_null))
      = Some (JObj [("error", JStr "Something went wrong. Please call us instead.")]))
  /\ (method Samples.post_nobody = "POST"
      /\ blank (field (body Samples.post_nobody) "name")
      /\ status (sent (Quote.handler Samples.online Samples.post_nobody)) = 500
      /\ status (sent (QuoteEcho.handler Samples.online Samples.post_nobody)) = 500
      /\ payload (sent (Quote.handler Samples.online Samples.post_nobody))
         = Some (JObj [("error", JStr "Something went wrong. Please call us instead.")])).
Proof. repeat split. Qed.

(** *** Jane Doe's submission *)

Lemma valid_jane : valid (body Samples.jane_post).
Proof. repeat split. Qed.

(** *** The record id after a rejected call *)

(** When the record-store call is rejected, step 1 leaves no record id. *)
Lemma record_id_rejected (p : settled json) (r : string) :
  p = Rejected r ->
  QuoteLinked.record_id p = ([Console LError [Text "Airtable error:"; Text r]], None).
Proof. intros ->. reflexivity. Qed.

(** *** C4: silent success *)

(** C4. src/api/quote.js and the second handler of src/api/debug.js never
    echo outcomes: a valid POST is answered 200 with [{success: true}]
    however the three calls settle. When all three are rejected the answer is
    still that one, and the failures reach the console only. *)
Theorem silent_success_when_all_fail (w : world) (req : request) (r1 r2 r3 : string) :
  method req = "POST" -> valid (body req) ->
  let d := quote_of (body req) in
  let accepted :=
    {| status := 200;
       headers := [ ("Access-Control-Allow-Origin", "*");
                    ("Access-Control-Allow-Methods", "POST");
                    ("Access-Control-Allow-Headers", "Content-Type") ];
       payload := Some (JObj [("success", JBool true)]) |} in
  (sent (Quote.handler w req) = accepted
   /\ (snd (Quote.createAirtableRecord w d) = Rejected r1 ->
       snd (Quote.sendSMS w d) = Rejected r2 ->
       snd (Quote.sendEmail w d) = Rejected r3 ->
       console (effects (Quote.handler w req))
       = [ (LError, [Text "Airtable error:"; Text r1]);
           (LError, [Text "SMS error:"; Text r2]);
           (LError, [Text "Email error:"; Text r3]);
           (LWarn, [Text "Some notifications failed:"; Text "airtable, sms, email"]) ]))
  /\ (sent (QuoteLinked.handler w req) = accepted
      /\ (snd (QuoteLinked.createAirtableRecord w d) = Rejected r1 ->
          snd (QuoteLinked.sendSMS w d) = Rejected r2 ->
          snd (QuoteLinked.sendEmail w d None) = Rejected r3 ->
          console (effects (QuoteLinked.handler w req))
          = [ (LError, [Text "Airtable error:"; Text r1]);
              (LError, [Text "SMS error:"; Text r2]);
              (LError, [Text "Email error:"; Text r3]) ])).
Proof.
  intros Hm Hv d accepted. split; split.
  - now rewrite (quote_run w req Hm Hv).
  - intros H1 H2 H3. rewrite (quote_run w req Hm Hv). cbv zeta. fold d.
    rewrite H1, H2, H3. reflexivity.
  - now rewrite (linked_run w req Hm Hv).
  - intros H1 H2 H3. rewrite (linked_run w req Hm Hv). cbv zeta. fold d.
    rewrite (record_id_rejected _ r1 H1). cbn [fst snd].
    rewrite linked_email_effects, H2, H3. reflexivity.
Qed.

(** The theorem at Jane Doe's submission with every call failing in
    transport. *)
Lemma silent_success_when_all_fail_witness :
  method Samples.jane_post = "POST"
  /\ valid (body Samples.jane_post)
  /\ snd (Quote.createAirtableRecord Samples.offline (quote_of (body Samples.jane_post)))
     = Rejected "TypeError: fetch failed"
  /\ snd (Quote.sendSMS Samples.offline (quote_of (body Samples.jane_post)))
     = Rejected "TypeError: fetch failed"
  /\ snd (Quote.sendEmail Samples.offline (quote_of (body Samples.jane_post)))
     = Rejected "TypeError: fetch failed"
  /\ status (sent (Quote.handler Samples.offline Samples.jane_post)) = 200
  /\ payload (sent (Quote.handler Samples.offline Samples.jane_post))
     = Some (JObj [("success", JBool true)])
  /\ console (effects (Quote.handler Samples.offline Samples.jane_post))
     = [ (LError, [Text "Airtable error:"; Text "TypeError: fetch failed"]);
         (LError, [Text "SMS error:"; Text "TypeError: fetch failed"]);
         (LError, [Text "Email error:"; Text "TypeError: fetch failed"]);
         (LWarn, [Text "Some notifications failed:"; Text "airtable, sms, email"]) ].
Proof.
  split; [reflexivity |]. split; [exact valid_jane |].
  split; [reflexivity |]. split; [reflexivity |]. split; [reflexivity |].
  pose proof (proj1 (silent_success_when_all_fail Samples.offline Samples.jane_post
                       "TypeError: fetch failed" "TypeError: fetch failed"
                       "TypeError: fetch failed" eq_refl valid_jane)) as [Hs Hc].
  rewrite Hs. split; [reflexivity |]. split; [reflexivity |].
  exact (Hc eq_refl eq_refl eq_refl).
Defined.

(** *** C5: the outcome summary *)

(** C5. In src/unnamed/part_000, a valid POST whose record-store call is
    rejected with reason [r] while the SMS and the email calls are fulfilled
    is answered 200 with [success: true] and the summary
    [{airtable: "FAIL: " + r, sms: "OK", email: "OK"}] under [_debug]. *)
Theorem echo_reports_record_store_failure (w : world) (req : request) (r : string) :
  method req = "POST" -> valid (body req) ->
  snd (QuoteEcho.createAirtableRecord w (quote_of (body req))) = Rejected r ->
  is_rejected (snd (QuoteEcho.sendSMS w (quote_of (body req)))) = false ->
  is_rejected (snd (QuoteEcho.sendEmail w (quote_of (body req)))) = false ->
  sent (QuoteEcho.handler w req)
  = {| status := 200;
       headers := [ ("Access-Control-Allow-Origin", "*");
                    ("Access-Control-Allow-Methods", "POST");
                    ("Access-Control-Allow-Headers", "Content-Type") ];
       payload :=
         Some (JObj [ ("success", JBool true);
                      ("_debug", JObj [ ("airtable", JStr ("FAIL: " +:+ r));
                                        ("sms", JStr "OK");
                                        ("email", JStr "OK") ]) ]) |}.
Proof.
  intros Hm Hv Ha Hs He. rewrite (echo_run w req Hm Hv). cbv zeta. rewrite Ha.
  destruct (snd (QuoteEcho.sendSMS w _)); [| discriminate].
  destruct (snd (QuoteEcho.sendEmail w _)); [| discriminate].
  reflexivity.
Qed.

(** The theorem at Jane Doe's submission, the record store answering 422. *)
Lemma echo_reports_record_store_failure_witness :
  method Samples.jane_post = "POST"
  /\ valid (body Samples.jane_post)
  /\ snd (QuoteEcho.createAirtableRecord Samples.airtable_down
            (quote_of (body Samples.jane_post)))
     = Rejected "Error: Airtable 422: INVALID_VALUE"
  /\ is_rejected (snd (QuoteEcho.sendSMS Samples.airtable_down
                         (quote_of (body Samples.jane_post)))) = false
  /\ is_rejected (snd (QuoteEcho.sendEmail Samples.airtable_down
                         (quote_of (body Samples.jane_post)))) = false
  /\ payload (sent (QuoteEcho.handler Samples.airtable_down Samples.jane_post))
     = Some (JObj [ ("success", JBool true);
                    ("_debug", JObj [ ("airtable",
                                       JStr "FAIL: Error: Airtable 422: INVALID_VALUE");
                                      ("sms", JStr "OK");
                                      ("email", JStr "OK") ]) ]).
Proof.
  split; [reflexivity |]. split; [exact valid_jane |].
  split; [reflexivity |]. split; [reflexivity |]. split; [reflexivity |].
  rewrite (echo_reports_record_store_failure Samples.airtable_down Samples.jane_post
             "Error: Airtable 422: INVALID_VALUE" eq_refl valid_jane eq_refl eq_refl eq_refl).
  reflexivity.
Defined.

(** *** C6: method dispatch *)

(** X23. A request whose method is neither POST nor OPTIONS is answered 405
    with [{error: "Method not allowed"}] by every version, with no header set
    and no effect. A request whose method is OPTIONS is answered 200 with the
    three CORS headers and no body by the two versions that have a preflight
    branch, src/unnamed/part_000 and the second handler of src/api/debug.js. *)
Theorem method_dispatch (w : world) (req : request) :
  (method req <> "POST" -> method req <> "OPTIONS" ->
   let refused :=
     {| sent := {| status := 405;
                   headers := [];
                   payload := Some (JObj [("error", JStr "Method not allowed")]) |};
        effects := [] |} in
   Quote.handler w req = refused
   /\ QuoteEcho.handler w req = refused
   /\ QuoteLinked.handler w req = refused)
  /\ (method req = "OPTIONS" ->
      let preflight :=
        {| sent := {| status := 200;
                      headers := [ ("Access-Control-Allow-Origin", "*");
                                   ("Access-Control-Allow-Methods", "POST");
                                   ("Access-Control-Allow-Headers", "Content-Type") ];
                      payload := None |};
           effects := [] |} in
      QuoteEcho.handler w req = preflight /\ QuoteLinked.handler w req = preflight).
Proof.
  split.
  - intros Hp Ho. unfold Quote.handler, QuoteEcho.handler, QuoteLinked.handler.
    apply String.eqb_neq in Hp, Ho. rewrite Hp, Ho. repeat split.
  - intros Ho. unfold QuoteEcho.handler, QuoteLinked.handler. rewrite Ho. split; reflexivity.
Qed.

(** The theorem at a GET, and at an OPTIONS request. *)
Lemma method_dispatch_witness :
  (method Samples.get_empty <> "POST"
   /\ method Samples.get_empty <> "OPTIONS"
   /\ status (sent (Quote.handler Samples.online Samples.get_empty)) = 405
   /\ status (sent (QuoteEcho.handler Samples.online Samples.get_empty)) = 405
   /\ status (sent (QuoteLinked.handler Samples.online Samples.get_empty)) = 405)
  /\ (method Samples.options = "OPTIONS"
      /\ status (sent (QuoteEcho.handler Samples.online Samples.options)) = 200
      /\ payload (sent (QuoteEcho.handler Samples.online Samples.options)) = None
      /\ headers (sent (QuoteEcho.handler Samples.online Samples.options))
         = [ ("Access-Control-Allow-Origin", "*");
             ("Access-Control-Allow-Methods", "POST");
             ("Access-Control-Allow-Headers", "Content-Type") ]).
Proof.
  assert (Hp : method Samples.get_empty <> "POST") by discriminate.
  assert (Ho : method Samples.get_empty <> "OPTIONS") by discriminate.
  split.
  - split; [exact Hp |]. split; [exact Ho |].
    destruct (proj1 (method_dispatch Samples.online Samples.get_empty) Hp Ho)
      as (H1 & H2 & H3).
    rewrite H1, H2, H3. repeat split.
  - split; [reflexivity |].
    destruct (proj2 (method_dispatch Samples.online Samples.options) eq_refl) as (H1 & _).
    rewrite H1. repeat split.
Defined.

(** C6. The claim fails at src/api/quote.js, which has no preflight branch.
    An OPTIONS request meets its POST-only check: it is answered 405 with
    [{error: "Method not allowed"}] and no CORS header, although the handler
    sets the three preflight headers on its POST path. src/unnamed/part_000
    and the second handler of src/api/debug.js answer the same request 200
    with the three CORS headers and no body, as the claim says. *)
Theorem preflight_refused_by_quote_js :
  method Samples.options = "OPTIONS"
  /\ Quote.handler Samples.online Samples.options
     = {| sent := {| status := 405;
                     headers := [];
                     payload := Some (JObj [("error", JStr "Method not allowed")]) |};
          effects := [] |}
  /\ QuoteEcho.handler Samples.online Samples.options
     = {| sent := {| status := 200;
                     headers := [ ("Access-Control-Allow-Origin", "*");
                                  ("Access-Control-Allow-Methods", "POST");
                                  ("Access-Control-Allow-Headers", "Content-Type") ];
                     payload := None |};
          effects := [] |}
  /\ QuoteLinked.handler Samples.online Samples.options
     = {| sent := {| status := 200;
                     headers := [ ("Access-Control-Allow-Origin", "*");
                                  ("Access-Control-Allow-Methods", "POST");
                                  ("Access-Control-Allow-Headers", "Content-Type") ];
                     payload := None |};
          effects := [] |}.
Proof. repeat split. Qed.

(** X2. src/api/quote.js has no preflight branch: OPTIONS meets its
    POST-only check. *)
Theorem quote_js_answers_options_405 (w : world) (b : reqbody) :
  Quote.handler w {| method := "OPTIONS"; body := b |}
  = {| sent := {| status := 405;
                  headers := [];
                  payload := Some (JObj [("error", JStr "Method not allowed")]) |};
       effects := [] |}.
Proof. reflexivity. Qed.

(** *** C7: absent optional fields *)

(** What [.filter (Boolean)] keeps of the SMS array: the heading, the three
    required lines, and the line of each optional field that is present. The
    empty second element is dropped with the [null]s. *)
Lemma kept_sms_lines (h : string) (d : quote) :
  h <> "" ->
  kept (sms_lines h d)
  = [ h; "Name: " +:+ to_string (name d); "Phone: " +:+ to_string (phone d);
      "Address: " +:+ to_string (address d) ]
      ++ present "Service: " (service d)
      ++ present "Urgency: " (urgency d)
      ++ present "Details: " (details d).
Proof.
  intros Hh. unfold kept, sms_lines, present.
  assert (Ht : truthy (Str h) = true).
  { simpl. destruct h; [congruence | reflexivity]. }
  cbn [List.filter]. rewrite Ht.
  destruct (truthy (service d)), (truthy (urgency d)), (truthy (details d)); reflexivity.
Qed.

(** A serialised member was a member with a value. *)
Lemma stringify_members_key (k : string) (ms : list (string * option json)) :
  In k (map fst (stringify_members ms)) -> exists v, In (k, Some v) ms.
Proof.
  unfold stringify_members. induction ms as [| [k' [v' |]] ms IH]; simpl.
  - intros [].
  - intros [<- | H]; [exists v'; now left |]. destruct (IH H) as [v Hv]. exists v; now right.
  - intros H. destruct (IH H) as [v Hv]. exists v; now right.
Qed.

Lemma record_fields_airtable (e : gmap string string) (fs : list (string * option json)) :
  record_fields (airtable_request e fs) = stringify_members fs.
Proof. reflexivity. Qed.

Lemma message_of_sms (e : gmap string string) (h : string) (d : quote) :
  message_of (sms_request e h d) = sms_message h d.
Proof.
  unfold message_of, sms_request, stringify_members. cbn [content].
  destruct (e !! "NOTIFY_PHONE"); reflexivity.
Qed.

(** Closes [In k (map fst (stringify_members ms))] for an explicit [ms] that
    has no member [k] with a value. *)
Ltac no_such_member H :=
  apply stringify_members_key in H; destruct H as [v H]; simpl in H;
  repeat (destruct H as [H | H]; [congruence |]); exact H.

Lemma quote_fields_without_service (d : quote) :
  service d = Undefined -> ~ In "Service" (map fst (stringify_members (Quote.fields d))).
Proof. intros Hs H. unfold Quote.fields in H. rewrite Hs in H. no_such_member H. Qed.

Lemma quote_fields_without_urgency (d : quote) :
  urgency d = Undefined -> ~ In "Urgency" (map fst (stringify_members (Quote.fields d))).
Proof. intros Hs H. unfold Quote.fields in H. rewrite Hs in H. no_such_member H. Qed.

Lemma echo_fields_without_service (d : quote) :
  service d = Undefined -> ~ In "Service" (map fst (stringify_members (QuoteEcho.fields d))).
Proof.
  intros Hs H. unfold QuoteEcho.fields in H. rewrite Hs in H. cbn [truthy] in H.
  destruct (truthy (urgency d)); no_such_member H.
Qed.

Lemma echo_fields_without_urgency (d : quote) :
  urgency d = Undefined -> ~ In "Urgency" (map fst (stringify_members (QuoteEcho.fields d))).
Proof.
  intros Hs H. unfold QuoteEcho.fields in H. rewrite Hs in H. cbn [truthy] in H.
  destruct (truthy (service d)); no_such_member H.
Qed.

(** C7. On a valid POST, let [a1] and [a2] be the record-store requests of
    src/api/quote.js and src/unnamed/part_000, and [s] the SMS request of
    both. The text of [s] is the heading and the name, phone and address
    lines, followed by the line of each optional field that is present: an
    absent service, urgency or details leaves no line. The field sets of
    [a1] and [a2] have no [Service] member when service is absent and no
    [Urgency] member when urgency is absent. *)
Theorem absent_optional_fields_omitted (w : world) (req : request) :
  method req = "POST" -> valid (body req) ->
  let d := quote_of (body req) in
  let a1 := airtable_request (env w) (Quote.fields d) in
  let a2 := airtable_request (env w) (QuoteEcho.fields d) in
  let s := sms_request (env w) "🌿 New WeMow760 Quote" d in
  let required :=
    [ "🌿 New WeMow760 Quote"; "Name: " +:+ to_string (name d);
      "Phone: " +:+ to_string (phone d); "Address: " +:+ to_string (address d) ] in
  (exists e, fetches (effects (Quote.handler w req)) = [a1; s; e])
  /\ (exists e, fetches (effects (QuoteEcho.handler w req)) = [a2; s; e])
  /\ (field (body req) "service" = Undefined ->
      message_of s
      = join nl (required ++ present "Urgency: " (urgency d) ++ present "Details: " (details d))
      /\ ~ In "Service" (map fst (record_fields a1))
      /\ ~ In "Service" (map fst (record_fields a2)))
  /\ (field (body req) "urgency" = Undefined ->
      message_of s
      = join nl (required ++ present "Service: " (service d) ++ present "Details: " (details d))
      /\ ~ In "Urgency" (map fst (record_fields a1))
      /\ ~ In "Urgency" (map fst (record_fields a2)))
  /\ (field (body req) "details" = Undefined ->
      message_of s
      = join nl (required ++ present "Service: " (service d) ++ present "Urgency: " (urgency d))).
Proof.
  intros Hm Hv d a1 a2 s required.
  assert (Hmsg : message_of s
                 = join nl (required ++ present "Service: " (service d)
                              ++ present "Urgency: " (urgency d)
                              ++ present "Details: " (details d))).
  { unfold s. rewrite message_of_sms. unfold sms_message.
    rewrite kept_sms_lines by discriminate. reflexivity. }
  split; [eexists; exact (quote_fetches w req Hm Hv) |].
  split; [eexists; exact (echo_fetches w req Hm Hv) |].
  unfold a1, a2. rewrite !record_fields_airtable.
  split; [| split]; intros Hf; change (field (body req) _) with (service d) in Hf
    || change (field (body req) _) with (urgency d) in Hf
    || change (field (body req) _) with (details d) in Hf.
  - rewrite Hmsg, Hf. split; [reflexivity |].
    split; [now apply quote_fields_without_service | now apply echo_fields_without_service].
  - rewrite Hmsg, Hf. split; [reflexivity |].
    split; [now apply quote_fields_without_urgency | now apply echo_fields_without_urgency].
  - rewrite Hmsg, Hf. cbn [present truthy]. now rewrite app_nil_r.
Qed.

(** The theorem at a POST with the three required fields only. *)
Lemma absent_optional_fields_omitted_witness :
  method (Samples.post Samples.minimal) = "POST"
  /\ valid (body (Samples.post Samples.minimal))
  /\ field (body (Samples.post Samples.minimal)) "service" = Undefined
  /\ message_of (sms_request (env Samples.online) "🌿 New WeMow760 Quote"
                   (quote_of (body (Samples.post Samples.minimal))))
     = "🌿 New WeMow760 Quote" +:+ nl +:+ "Name: Jane Doe" +:+ nl
         +:+ "Phone: 760-555-0100" +:+ nl +:+ "Address: 123 Oak St"
  /\ ~ In "Service"
         (map fst (record_fields
                     (airtable_request (env Samples.online)
                        (Quote.fields (quote_of (body (Samples.post Samples.minimal))))))).
Proof.
  assert (Hv : valid (body (Samples.post Samples.minimal))) by (repeat split).
  split; [reflexivity |]. split; [exact Hv |]. split; [reflexivity |].
  pose proof (proj1 (proj2 (proj2 (absent_optional_fields_omitted Samples.online
                                     (Samples.post Samples.minimal) eq_refl Hv)))
                eq_refl) as (H1 & H2 & _).
  split; [exact H1 | exact H2].
Defined.

(** *** C8: Jane Doe's submission *)

(** C8. For the submission [{name: "Jane Doe", phone: "760-555-0100",
    address: "123 Oak St", service: "Mowing", details: "Gate code 4521"}],
    in every world: src/api/quote.js answers 200 with [{success: true}];
    its record-store request carries Name "Jane Doe" and Status "New" (the
    whole field set is given); the lines of its SMS text are the heading,
    then Name, Phone, Address, Service and Details, and none starts with
    Urgency. src/unnamed/part_000 sends the same SMS text and answers 200
    with [success: true] followed by its summary. *)
Theorem jane_doe_example (w : world) :
  sent (Quote.handler w Samples.jane_post)
  = {| status := 200;
       headers := [ ("Access-Control-Allow-Origin", "*");
                    ("Access-Control-Allow-Methods", "POST");
                    ("Access-Control-Allow-Headers", "Content-Type") ];
       payload := Some (JObj [("success", JBool true)]) |}
  /\ (exists a s e,
        fetches (effects (Quote.handler w Samples.jane_post)) = [a; s; e]
        /\ record_fields a
           = [ ("Name", JStr "Jane Doe"); ("Phone", JStr "760-555-0100");
               ("Address", JStr "123 Oak St"); ("Service", JStr "Mowing");
               ("Details", JStr "Gate code 4521"); ("Status", JStr "New") ]
        /\ assoc "Name" (record_fields a) = Some (JStr "Jane Doe")
        /\ assoc "Status" (record_fields a) = Some (JStr "New")
        /\ split_lines (message_of s)
           = [ "🌿 New WeMow760 Quote"; "Name: Jane Doe"; "Phone: 760-555-0100";
               "Address: 123 Oak St"; "Service: Mowing"; "Details: Gate code 4521" ]
        /\ Forall (fun l => String.prefix "Urgency" l = false) (split_lines (message_of s)))
  /\ (exists a s e report,
        fetches (effects (QuoteEcho.handler w Samples.jane_post)) = [a; s; e]
        /\ assoc "Name" (record_fields a) = Some (JStr "Jane Doe")
        /\ assoc "Status" (record_fields a) = Some (JStr "New")
        /\ split_lines (message_of s)
           = [ "🌿 New WeMow760 Quote"; "Name: Jane Doe"; "Phone: 760-555-0100";
               "Address: 123 Oak St"; "Service: Mowing"; "Details: Gate code 4521" ]
        /\ status (sent (QuoteEcho.handler w Samples.jane_post)) = 200
        /\ payload (sent (QuoteEcho.handler w Samples.jane_post))
           = Some (JObj [("success", JBool true); ("_debug", report)])).
Proof.
  split; [| split].
  - rewrite (quote_run w Samples.jane_post eq_refl valid_jane). reflexivity.
  - do 3 eexists. split; [exact (quote_fetches w Samples.jane_post eq_refl valid_jane) |].
    rewrite record_fields_airtable, message_of_sms.
    split; [reflexivity |]. split; [reflexivity |]. split; [reflexivity |].
    split; [reflexivity |]. vm_compute. repeat constructor.
  - do 4 eexists. split; [exact (echo_fetches w Samples.jane_post eq_refl valid_jane) |].
    rewrite record_fields_airtable, message_of_sms.
    split; [reflexivity |]. split; [reflexivity |]. split; [reflexivity |].
    rewrite (echo_run w Samples.jane_post eq_refl valid_jane). split; reflexivity.
Qed.

(** *** C9: the configuration report *)

Lemma describe_missing (val : option string) :
  EnvDebug.describe val = "MISSING" <-> val = None \/ val = Some "".
Proof.
  split.
  - destruct val as [[| c v] |]; simpl; auto. intros H. discriminate H.
  - intros [-> | ->]; reflexivity.
Qed.

Lemma describe_reads_length_and_start (val val' : string) :
  String.length val = String.length val' -> slice val 0 4 = slice val' 0 4 ->
  EnvDebug.describe (Some val) = EnvDebug.describe (Some val').
Proof.
  intros Hl Hs. unfold EnvDebug.describe.
  replace (String.eqb val' "") with (String.eqb val "")
    by (destruct val, val'; simpl in Hl; try discriminate; reflexivity).
  now rewrite Hs, Hl.
Qed.

Lemma slice_short (val : string) : (String.length val <= 4)%nat -> slice val 0 4 = val.
Proof.
  destruct val as [| c1 [| c2 [| c3 [| c4 [| c5 t]]]]]; simpl; intros H;
    try reflexivity; lia.
Qed.

Lemma slice_long (val : string) : (4 < String.length val)%nat -> slice val 0 4 <> val.
Proof.
  destruct val as [| c1 [| c2 [| c3 [| c4 [| c5 t]]]]]; simpl; intros H;
    try lia; discriminate.
Qed.

(** Past its first [n] characters a string can be changed at will without
    changing its length or its first [n] characters. *)
Lemma another_with_same_start (n : nat) (val : string) :
  (n < String.length val)%nat ->
  exists val', val' <> val /\ String.length val' = String.length val
               /\ substring 0 n val' = substring 0 n val.
Proof.
  revert val. induction n as [| n IH]; intros [| c t] H; simpl in H; try lia.
  - exists (String (if Ascii.eqb c "a"%char then "b"%char else "a"%char) t). repeat split.
    + destruct (Ascii.eqb c "a"%char) eqn:E; intros Heq; injection Heq as Heq.
      * apply Ascii.eqb_eq in E. congruence.
      * apply Ascii.eqb_neq in E. congruence.
  - destruct (IH t ltac:(lia)) as (t' & Hne & Hl & Hs).
    exists (String c t'). repeat split; simpl; congruence.
Qed.

(** X1. What the endpoint does in every configuration. It answers 200 with
    one entry for each of the seven names, in order. An entry is [MISSING]
    exactly when the variable is unset or empty. The entry of a set variable is computed from
    the length of its value and its first four characters, and from nothing
    else. A value of more than four characters is never shown in full, and
    the entry does not determine it; a value of at most four characters is
    shown in full between the quotes. *)
Theorem env_report_shows_length_and_start (w : world) (req : request) :
  EnvDebug.handler w req
  = {| sent := send_json [] 200
                 (JObj (map (fun v => (v, JStr (EnvDebug.describe (env w !! v))))
                          [ "AIRTABLE_API_KEY"; "AIRTABLE_BASE_ID"; "AIRTABLE_TABLE_ID";
                            "TEXTBELT_API_KEY"; "NOTIFY_PHONE"; "NOTIFY_EMAIL";
                            "RESEND_API_KEY" ]));
       effects := [] |}
  /\ (forall val : option string,
        EnvDebug.describe val = "MISSING" <-> val = None \/ val = Some "")
  /\ (forall val : string,
        val <> "" ->
        EnvDebug.describe (Some val)
        = "SET (" +:+ digits (String.length val) +:+ " chars, starts with "
            +:+ dq +:+ slice val 0 4 +:+ "..." +:+ dq +:+ ")")
  /\ (forall val val' : string,
        String.length val = String.length val' -> slice val 0 4 = slice val' 0 4 ->
        EnvDebug.describe (Some val) = EnvDebug.describe (Some val'))
  /\ (forall val : string,
        (4 < String.length val)%nat ->
        slice val 0 4 <> val
        /\ exists val', val' <> val
                        /\ EnvDebug.describe (Some val') = EnvDebug.describe (Some val))
  /\ (forall val : string, (String.length val <= 4)%nat -> slice val 0 4 = val).
Proof.
  split; [reflexivity |]. split; [exact describe_missing |].
  split; [intros [| c v] H; [congruence | reflexivity] |].
  split; [exact describe_reads_length_and_start |].
  split; [| exact slice_short].
  intros val H. split; [now apply slice_long |].
  destruct (another_with_same_start 4 val H) as (val' & Hne & Hl & Hs).
  exists val'. split; [exact Hne |]. now apply describe_reads_length_and_start.
Qed.

(** C9 at a configuration whose record-store key is four characters long
    and whose other variables are unset: the answer shows the whole key
    between the quotes of its entry. *)
Theorem env_report_shows_short_value :
  In "AIRTABLE_API_KEY" EnvDebug.vars
  /\ env Samples.short_key !! "AIRTABLE_API_KEY" = Some "abcd"
  /\ sent (EnvDebug.handler Samples.short_key Samples.get_empty)
     = {| status := 200;
          headers := [];
          payload :=
            Some (JObj [ ("AIRTABLE_API_KEY",
                          JStr ("SET (4 chars, starts with " +:+ dq +:+ "abcd" +:+ "..."
                                  +:+ dq +:+ ")"));
                         ("AIRTABLE_BASE_ID", JStr "MISSING");
                         ("AIRTABLE_TABLE_ID", JStr "MISSING");
                         ("TEXTBELT_API_KEY", JStr "MISSING");
                         ("NOTIFY_PHONE", JStr "MISSING");
                         ("NOTIFY_EMAIL", JStr "MISSING");
                         ("RESEND_API_KEY", JStr "MISSING") ]) |}
  /\ slice "abcd" 0 4 = "abcd"
  /\ occurs "abcd" (EnvDebug.describe (env Samples.short_key !! "AIRTABLE_API_KEY")) = true.
Proof.
  split; [now left |]. split; [reflexivity |]. split; [reflexivity |].
  split; reflexivity.
Qed.

(** *** C10: keys beyond the six *)

Lemma quote_of_agree (o1 o2 : gmap string jsval) :
  (forall k, In k form_keys -> o1 !! k = o2 !! k) ->
  quote_of (BObject o1) = quote_of (BObject o2).
Proof.
  intros H. unfold quote_of, field, prop.
  rewrite !(H _) by (simpl; tauto). reflexivity.
Qed.

(** C10. Two requests with the same method whose bodies are objects that
    agree on [name], [phone], [address], [service], [urgency] and [details]
    get, in the same world, the same run from every version of the handler:
    the same response, the same outbound requests, the same console output.
    Whatever else the bodies hold is never read. *)
Theorem extra_body_keys_ignored (w : world) (m : string) (o1 o2 : gmap string jsval) :
  (forall k, In k form_keys -> o1 !! k = o2 !! k) ->
  Quote.handler w {| method := m; body := BObject o1 |}
  = Quote.handler w {| method := m; body := BObject o2 |}
  /\ QuoteEcho.handler w {| method := m; body := BObject o1 |}
     = QuoteEcho.handler w {| method := m; body := BObject o2 |}
  /\ QuoteLinked.handler w {| method := m; body := BObject o1 |}
     = QuoteLinked.handler w {| method := m; body := BObject o2 |}.
Proof.
  intros H. unfold Quote.handler, QuoteEcho.handler, QuoteLinked.handler.
  cbn [method body destructure]. rewrite (quote_of_agree o1 o2 H). repeat split.
Qed.

(** The theorem at Jane Doe's submission with and without a [utm_source]
    key. *)
Lemma extra_body_keys_ignored_witness :
  Samples.jane_tagged !! "utm_source" <> Samples.jane !! "utm_source"
  /\ (forall k, In k form_keys -> Samples.jane_tagged !! k = Samples.jane !! k)
  /\ Quote.handler Samples.online (Samples.post Samples.jane_tagged)
     = Quote.handler Samples.online (Samples.post Samples.jane).
Proof.
  assert (H : forall k, In k form_keys -> Samples.jane_tagged !! k = Samples.jane !! k).
  { intros k Hk. simpl in Hk.
    destruct Hk as [<- | [<- | [<- | [<- | [<- | [<- | []]]]]]]; reflexivity. }
  split; [discriminate |]. split; [exact H |].
  exact (proj1 (extra_body_keys_ignored Samples.online "POST" Samples.jane_tagged
                  Samples.jane H)).
Defined.

(** *** Further properties of the handlers *)

(** X3. A POST whose body is [null] or [undefined] is answered 500 by every
    version, with the CORS headers set, one line on the console and no
    outbound request. *)
Theorem unusable_body_answered_500 (w : world) :
  Quote.handler w {| method := "POST"; body := BNull |}
  = {| sent := send_json (cors []) 500 went_wrong;
       effects := [Console LError [Text "Quote handler error:";
                                   Text (cannot_destructure "null")]] |}
  /\ Quote.handler w {| method := "POST"; body := BUndefined |}
     = {| sent := send_json (cors []) 500 went_wrong;
          effects := [Console LError [Text "Quote handler error:";
                                      Text (cannot_destructure "undefined")]] |}
  /\ QuoteEcho.handler w {| method := "POST"; body := BNull |}
     = Quote.handler w {| method := "POST"; body := BNull |}
  /\ QuoteEcho.handler w {| method := "POST"; body := BUndefined |}
     = Quote.handler w {| method := "POST"; body := BUndefined |}
  /\ QuoteLinked.handler w {| method := "POST"; body := BNull |}
     = Quote.handler w {| method := "POST"; body := BNull |}
  /\ QuoteLinked.handler w {| method := "POST"; body := BUndefined |}
     = Quote.handler w {| method := "POST"; body := BUndefined |}.
Proof. repeat split. Qed.

(** X4. The SMS text has no blank line after its heading: [.filter (Boolean)]
    removes the empty second element of the array together with the
    [null]s. *)
Theorem sms_text_has_no_blank_line (d : quote) :
  sms_message Quote.heading d
  = join nl ([ "🌿 New WeMow760 Quote"; "Name: " +:+ to_string (name d);
               "Phone: " +:+ to_string (phone d); "Address: " +:+ to_string (address d) ]
               ++ present "Service: " (service d)
               ++ present "Urgency: " (urgency d)
               ++ present "Details: " (details d))
  /\ sms_message QuoteEcho.heading d = sms_message Quote.heading d
  /\ sms_message QuoteLinked.heading d
     = join nl ([ "🌿 New WeMow760 Quote Request"; "Name: " +:+ to_string (name d);
                  "Phone: " +:+ to_string (phone d); "Address: " +:+ to_string (address d) ]
                  ++ present "Service: " (service d)
                  ++ present "Urgency: " (urgency d)
                  ++ present "Details: " (details d)).
Proof.
  unfold sms_message. rewrite !kept_sms_lines by discriminate. repeat split.
Qed.

(** X5. Absent details are sent to the record store as the empty string, by
    all three versions: only service and urgency are left out. *)
Theorem absent_details_sent_empty (n p a s u : jsval) :
  let d := {| name := n; phone := p; address := a; service := s; urgency := u;
              details := Undefined |} in
  assoc "Details" (stringify_members (Quote.fields d)) = Some (JStr "")
  /\ assoc "Details" (stringify_members (QuoteEcho.fields d)) = Some (JStr "")
  /\ assoc "Details" (stringify_members (QuoteLinked.fields d)) = Some (JStr "").
Proof.
  cbv zeta. unfold Quote.fields, QuoteEcho.fields, QuoteLinked.fields, or_else.
  cbn [name phone address service urgency details truthy].
  destruct (json_of n), (json_of p), (json_of a), (truthy s), (truthy u),
    (json_of s), (json_of u); repeat split.
Qed.

(* ===================================================================== *)
(** ** The response, whatever the world *)
(* ===================================================================== *)

(** X6. What a handler answers never depends on how the outbound calls
    settle: in src/api/quote.js and in the second handler of src/api/debug.js
    the whole response is the same in any two worlds; in src/unnamed/part_000
    the status and the headers are (only the [_debug] summary varies). *)
Theorem response_ignores_outcomes (w w' : world) (req : request) :
  sent (Quote.handler w req) = sent (Quote.handler w' req)
  /\ sent (QuoteLinked.handler w req) = sent (QuoteLinked.handler w' req)
  /\ status (sent (QuoteEcho.handler w req)) = status (sent (QuoteEcho.handler w' req))
  /\ headers (sent (QuoteEcho.handler w req)) = headers (sent (QuoteEcho.handler w' req)).
Proof.
  unfold Quote.handler, QuoteEcho.handler, QuoteLinked.handler, allSettled3.
  destruct (String.eqb (method req) "OPTIONS"), (String.eqb (method req) "POST");
    cbn [negb]; try (repeat split; fail);
    destruct (destructure (body req)) as [d | err]; try (repeat split; fail);
    destruct (missing_required d); try (repeat split; fail);
    destruct (QuoteLinked.createAirtableRecord w d) as [c1 a1],
             (QuoteLinked.createAirtableRecord w' d) as [c2 a2];
    destruct (QuoteLinked.record_id a1) as [l1 i1], (QuoteLinked.record_id a2) as [l2 i2];
    repeat split.
Qed.

(** X7. Every answer to a POST carries the three CORS headers, whether it is
    a 200, a 400 or a 500, in every version; so does the answer to OPTIONS in
    the versions with a preflight branch. Every other answer (the 405s)
    carries no header. *)
Theorem cors_headers_by_method (w : world) (req : request) :
  let cors_headers :=
    [ ("Access-Control-Allow-Origin", "*");
      ("Access-Control-Allow-Methods", "POST");
      ("Access-Control-Allow-Headers", "Content-Type") ] in
  headers (sent (Quote.handler w req))
  = (if String.eqb (method req) "POST" then cors_headers else [])
  /\ headers (sent (QuoteEcho.handler w req))
     = (if String.eqb (method req) "OPTIONS" || String.eqb (method req) "POST"
        then cors_headers else [])
  /\ headers (sent (QuoteLinked.handler w req))
     = (if String.eqb (method req) "OPTIONS" || String.eqb (method req) "POST"
        then cors_headers else []).
Proof.
  unfold Quote.handler, QuoteEcho.handler, QuoteLinked.handler, allSettled3.
  destruct (String.eqb (method req) "OPTIONS"), (String.eqb (method req) "POST");
    cbn [negb orb]; try (repeat split; fail);
    destruct (destructure (body req)) as [d | err]; try (repeat split; fail);
    destruct (missing_required d); try (repeat split; fail);
    destruct (QuoteLinked.createAirtableRecord w d) as [c1 a1];
    destruct (QuoteLinked.record_id a1) as [l1 i1];
    repeat split.
Qed.

(* ===================================================================== *)
(** ** How each collaborator call settles *)
(* ===================================================================== *)

Lemma checked_json_fulfilled (n : string) (resp : http_reply) (j : json) :
  snd (checked_json n resp) = Fulfilled j <-> ok resp = true /\ parsed resp = Fulfilled j.
Proof.
  unfold checked_json. destruct (ok resp); cbn [negb].
  - simpl. split; [intros H; now split | now intros [_ H]].
  - split; [| intros [H _]; discriminate].
    unfold bind, await, throw. destruct (text resp); simpl; discriminate.
Qed.

Lemma bind_fetch_fulfilled {A : Type} (w : world) (r : http_request)
    (k : http_reply -> task A) (a : A) :
  snd (let* resp := do_fetch w r in k resp) = Fulfilled a
  <-> exists resp, fetch w r = Fulfilled resp /\ snd (k resp) = Fulfilled a.
Proof.
  unfold bind, do_fetch. destruct (fetch w r) as [resp | reason].
  - destruct (k resp) as [es p] eqn:E. simpl. split.
    + intros ->. exists resp. rewrite E. now split.
    + intros (resp' & [= <-] & H). now rewrite E in H.
  - simpl. split; [discriminate | intros (resp & H & _); discriminate].
Qed.

(** X8. [createAirtableRecord] (all three versions) and [sendEmail] (the two
    parallel versions) are fulfilled exactly when the transport succeeds, the
    status is 200 to 299 and the reply parses as JSON; the value is that JSON.
    Every other case is a rejection. *)
Theorem call_fulfilled_iff_ok_json (w : world) (d : quote) (j : json) :
  (snd (Quote.createAirtableRecord w d) = Fulfilled j
   <-> exists resp, fetch w (airtable_request (env w) (Quote.fields d)) = Fulfilled resp
                    /\ ok resp = true /\ parsed resp = Fulfilled j)
  /\ (snd (QuoteEcho.createAirtableRecord w d) = Fulfilled j
      <-> exists resp, fetch w (airtable_request (env w) (QuoteEcho.fields d)) = Fulfilled resp
                       /\ ok resp = true /\ parsed resp = Fulfilled j)
  /\ (snd (QuoteLinked.createAirtableRecord w d) = Fulfilled j
      <-> exists resp, fetch w (airtable_request (env w) (QuoteLinked.fields d)) = Fulfilled resp
                       /\ ok resp = true /\ parsed resp = Fulfilled j)
  /\ (snd (Quote.sendEmail w d) = Fulfilled j
      <-> exists resp,
            fetch w (email_request (env w) (subject "New Quote — " d) (Quote.html (now w) d))
            = Fulfilled resp
            /\ ok resp = true /\ parsed resp = Fulfilled j)
  /\ (snd (QuoteEcho.sendEmail w d) = Fulfilled j <-> snd (Quote.sendEmail w d) = Fulfilled j).
Proof.
  unfold Quote.createAirtableRecord, QuoteEcho.createAirtableRecord,
    QuoteLinked.createAirtableRecord, Quote.sendEmail, QuoteEcho.sendEmail.
  repeat split; try (rewrite bind_fetch_fulfilled; intros (resp & Hf & Hk);
                     exists resp; now rewrite checked_json_fulfilled in Hk);
    try (intros (resp & Hf & Hk); apply bind_fetch_fulfilled; exists resp;
         now rewrite checked_json_fulfilled);
    auto.
Qed.

(** A reply that is not 200 to 299 rejects the call with the status and the
    text of the reply. *)
Lemma checked_json_http_error (n : string) (resp : http_reply) (t : string) :
  ok resp = false -> text resp = Fulfilled t ->
  snd (checked_json n resp)
  = Rejected ("Error: " +:+ n +:+ " " +:+ digits (code resp) +:+ ": " +:+ t).
Proof. intros Ho Ht. unfold checked_json. rewrite Ho, Ht. reflexivity. Qed.

(** X9. [sendSMS] is fulfilled exactly when the transport succeeds, the status
    is 200 to 299, the reply parses as JSON and its [success] member is
    truthy. A reply of status 200 whose [success] is falsy is a rejection. *)
Theorem sendSMS_fulfilled_iff_success_flag (w : world) (d : quote) (result : json) :
  (snd (Quote.sendSMS w d) = Fulfilled result
   <-> exists resp flag,
         fetch w (sms_request (env w) Quote.heading d) = Fulfilled resp
         /\ ok resp = true /\ parsed resp = Fulfilled result
         /\ member (Some result) "success" = Normal flag /\ json_truthy flag = true)
  /\ (snd (QuoteLinked.sendSMS w d) = Fulfilled result
      <-> exists resp flag,
            fetch w (sms_request (env w) QuoteLinked.heading d) = Fulfilled resp
            /\ ok resp = true /\ parsed resp = Fulfilled result
            /\ member (Some result) "success" = Normal flag /\ json_truthy flag = true)
  /\ QuoteEcho.sendSMS w d = Quote.sendSMS w d.
Proof.
  assert (H : forall h,
             snd (Template.sendSMS w h d) = Fulfilled result
             <-> exists resp flag,
                   fetch w (sms_request (env w) h d) = Fulfilled resp
                   /\ ok resp = true /\ parsed resp = Fulfilled result
                   /\ member (Some result) "success" = Normal flag
                   /\ json_truthy flag = true).
  { intros h. unfold Template.sendSMS. rewrite bind_fetch_fulfilled. split.
    - intros (resp & Hf & Hk). exists resp.
      pose proof (checked_json_quiet "Textbelt" resp) as Hq.
      pose proof (checked_json_fulfilled "Textbelt" resp) as Hc.
      destruct (checked_json "Textbelt" resp) as [es [r | reason]];
        simpl in Hq; subst es; cbn [bind] in Hk; [| discriminate].
      destruct (Hc r) as [(Ho & Hp) _]; [reflexivity |].
      destruct (member (Some r) "success") as [flag | e] eqn:Em;
        [| simpl in Hk; discriminate].
      destruct (json_truthy flag) eqn:Et; cbn [negb] in Hk.
      + simpl in Hk. injection Hk as <-. exists flag. repeat split; assumption.
      + destruct (member (Some r) "error") as [e |]; [| simpl in Hk; discriminate].
        destruct (reply_to_string e); simpl in Hk; discriminate.
    - intros (resp & flag & Hf & Ho & Hp & Hm & Ht). exists resp. split; [exact Hf |].
      pose proof (checked_json_quiet "Textbelt" resp) as Hq.
      pose proof (proj2 (checked_json_fulfilled "Textbelt" resp result) (conj Ho Hp)) as Hc.
      destruct (checked_json "Textbelt" resp) as [es p]. simpl in Hq, Hc. subst es p.
      cbn [bind]. rewrite Hm, Ht. reflexivity. }
  split; [apply H |]. split; [apply H | reflexivity].
Qed.

(** X10. Textbelt's in-band failure: a reply of status 200 to 299 whose JSON
    is an object with a falsy (or no) [success] member and the text [e] as
    [error] rejects [sendSMS] with "Error: Textbelt failed: " followed by
    [e]. *)
Theorem textbelt_failure_flag_rejects (w : world) (d : quote) (resp : http_reply)
    (ms : list (string * json)) (e : string) :
  fetch w (sms_request (env w) Quote.heading d) = Fulfilled resp ->
  ok resp = true -> parsed resp = Fulfilled (JObj ms) ->
  json_truthy (assoc "success" ms) = false -> assoc "error" ms = Some (JStr e) ->
  snd (Quote.sendSMS w d) = Rejected ("Error: Textbelt failed: " +:+ e).
Proof.
  intros Hf Ho Hp Hs He. unfold Quote.sendSMS, Template.sendSMS, bind, do_fetch.
  rewrite Hf. unfold checked_json. rewrite Ho. cbn [negb await]. rewrite Hp.
  cbn [member]. rewrite Hs. cbn [negb]. rewrite He. reflexivity.
Qed.

(** The theorem where Textbelt answers [{success: false, error: "Out of
    quota"}]: the SMS call is rejected, src/api/quote.js still answers 200. *)
Lemma textbelt_failure_flag_rejects_witness :
  fetch Cases.textbelt_refuses
    (sms_request (env Cases.textbelt_refuses) Quote.heading (quote_of (body Samples.jane_post)))
  = Fulfilled Cases.reply_refused
  /\ ok Cases.reply_refused = true
  /\ snd (Quote.sendSMS Cases.textbelt_refuses (quote_of (body Samples.jane_post)))
     = Rejected "Error: Textbelt failed: Out of quota"
  /\ status (sent (Quote.handler Cases.textbelt_refuses Samples.jane_post)) = 200.
Proof.
  split; [reflexivity |]. split; [reflexivity |]. split; [| reflexivity].
  exact (textbelt_failure_flag_rejects Cases.textbelt_refuses
           (quote_of (body Samples.jane_post)) Cases.reply_refused
           [("success", JBool false); ("error", JStr "Out of quota")] "Out of quota"
           eq_refl eq_refl eq_refl eq_refl eq_refl).
Defined.

(** X21. Why [createAirtableRecord] of src/api/quote.js is rejected, and with
    what reason: a transport failure passes its reason on; a status outside
    200 to 299 gives "Error: Airtable ", the status, ": " and the text of the
    reply (or the reason why the text could not be read); a reply that does
    not parse as JSON passes the parser's reason on. *)
Theorem record_store_rejection_reasons (w : world) (d : quote) :
  let rq := airtable_request (env w) (Quote.fields d) in
  (forall r, fetch w rq = Rejected r -> snd (Quote.createAirtableRecord w d) = Rejected r)
  /\ (forall resp t,
        fetch w rq = Fulfilled resp -> ok resp = false -> text resp = Fulfilled t ->
        snd (Quote.createAirtableRecord w d)
        = Rejected ("Error: Airtable " +:+ digits (code resp) +:+ ": " +:+ t))
  /\ (forall resp r,
        fetch w rq = Fulfilled resp -> ok resp = false -> text resp = Rejected r ->
        snd (Quote.createAirtableRecord w d) = Rejected r)
  /\ (forall resp r,
        fetch w rq = Fulfilled resp -> ok resp = true -> parsed resp = Rejected r ->
        snd (Quote.createAirtableRecord w d) = Rejected r).
Proof.
  intros rq. unfold Quote.createAirtableRecord, bind, do_fetch, checked_json. fold rq.
  repeat split.
  - intros r ->. reflexivity.
  - intros resp t -> -> ->. reflexivity.
  - intros resp r -> -> ->. reflexivity.
  - intros resp r -> -> ->. reflexivity.
Qed.

(* ===================================================================== *)
(** ** What the outcomes leave behind *)
(* ===================================================================== *)

Lemma verdict_ok {A : Type} (p : settled A) :
  QuoteEcho.verdict p = "OK" <-> is_rejected p = false.
Proof. destruct p as [v | r]; simpl; split; intros H; try reflexivity; discriminate. Qed.

(** X11. The summary of src/unnamed/part_000 is right for every combination
    of outcomes: on a valid POST the answer is
    [{success: true, _debug: {airtable, sms, email}}], where an entry is "OK"
    exactly when its call was fulfilled, and is "FAIL: " followed by the
    rejection reason when it was rejected. *)
Theorem echo_summary_matches_outcomes (w : world) (req : request) :
  method req = "POST" -> valid (body req) ->
  let d := quote_of (body req) in
  exists va vs ve : string,
    payload (sent (QuoteEcho.handler w req))
    = Some (JObj [ ("success", JBool true);
                   ("_debug", JObj [ ("airtable", JStr va); ("sms", JStr vs);
                                     ("email", JStr ve) ]) ])
    /\ (va = "OK" <-> is_rejected (snd (QuoteEcho.createAirtableRecord w d)) = false)
    /\ (vs = "OK" <-> is_rejected (snd (QuoteEcho.sendSMS w d)) = false)
    /\ (ve = "OK" <-> is_rejected (snd (QuoteEcho.sendEmail w d)) = false)
    /\ (forall r, snd (QuoteEcho.createAirtableRecord w d) = Rejected r -> va = "FAIL: " +:+ r)
    /\ (forall r, snd (QuoteEcho.sendSMS w d) = Rejected r -> vs = "FAIL: " +:+ r)
    /\ (forall r, snd (QuoteEcho.sendEmail w d) = Rejected r -> ve = "FAIL: " +:+ r).
Proof.
  intros Hm Hv d. rewrite (echo_run w req Hm Hv). cbv zeta. fold d.
  exists (QuoteEcho.verdict (snd (QuoteEcho.createAirtableRecord w d))),
    (QuoteEcho.verdict (snd (QuoteEcho.sendSMS w d))),
    (QuoteEcho.verdict (snd (QuoteEcho.sendEmail w d))).
  split; [reflexivity |]. repeat split; try apply verdict_ok;
    intros; (apply verdict_ok; assumption) || (now rewrite H).
Qed.

(** The theorem at Jane Doe's submission, Textbelt refusing in its reply. *)
Lemma echo_summary_matches_outcomes_witness :
  method Samples.jane_post = "POST"
  /\ valid (body Samples.jane_post)
  /\ payload (sent (QuoteEcho.handler Cases.textbelt_refuses Samples.jane_post))
     = Some (JObj [ ("success", JBool true);
                    ("_debug", JObj [ ("airtable", JStr "OK");
                                      ("sms", JStr "FAIL: Error: Textbelt failed: Out of quota");
                                      ("email", JStr "OK") ]) ]).
Proof.
  split; [reflexivity |]. split; [exact valid_jane |].
  destruct (echo_summary_matches_outcomes Cases.textbelt_refuses Samples.jane_post
              eq_refl valid_jane) as (va & vs & ve & Hp & _).
  reflexivity.
Defined.

(** X12. src/unnamed/part_000 hands the record store's error text to the
    submitter: when the record store answers a valid POST with a status
    outside 200 to 299 and the text [t], the [airtable] entry of [_debug] is
    "FAIL: Error: Airtable ", the status, ": " and [t]. *)
Theorem echo_discloses_upstream_error (w : world) (req : request) (resp : http_reply)
    (t : string) :
  method req = "POST" -> valid (body req) ->
  fetch w (airtable_request (env w) (QuoteEcho.fields (quote_of (body req)))) = Fulfilled resp ->
  ok resp = false -> text resp = Fulfilled t ->
  exists vs ve : string,
    payload (sent (QuoteEcho.handler w req))
    = Some (JObj [ ("success", JBool true);
                   ("_debug",
                    JObj [ ("airtable",
                            JStr ("FAIL: Error: Airtable " +:+ digits (code resp)
                                    +:+ ": " +:+ t));
                           ("sms", JStr vs); ("email", JStr ve) ]) ]).
Proof.
  intros Hm Hv Hf Ho Ht. rewrite (echo_run w req Hm Hv). cbv zeta.
  assert (Ha : snd (QuoteEcho.createAirtableRecord w (quote_of (body req)))
               = Rejected ("Error: Airtable " +:+ digits (code resp) +:+ ": " +:+ t)).
  { unfold QuoteEcho.createAirtableRecord, bind, do_fetch. rewrite Hf.
    pose proof (checked_json_quiet "Airtable" resp) as Hq.
    pose proof (checked_json_http_error "Airtable" resp t Ho Ht) as He.
    destruct (checked_json "Airtable" resp) as [es p]. simpl in *. now subst. }
  rewrite Ha. do 2 eexists. reflexivity.
Qed.

(** The theorem at Jane Doe's submission, the record store answering 422
    with the text INVALID_VALUE. *)
Lemma echo_discloses_upstream_error_witness :
  method Samples.jane_post = "POST"
  /\ valid (body Samples.jane_post)
  /\ assoc "_debug"
       (match payload (sent (QuoteEcho.handler Samples.airtable_down Samples.jane_post)) with
        | Some (JObj ms) => ms
        | _ => []
        end)
     = Some (JObj [ ("airtable", JStr "FAIL: Error: Airtable 422: INVALID_VALUE");
                    ("sms", JStr "OK"); ("email", JStr "OK") ]).
Proof.
  split; [reflexivity |]. split; [exact valid_jane |].
  destruct (echo_discloses_upstream_error Samples.airtable_down Samples.jane_post
              {| code := 422; text := Fulfilled "INVALID_VALUE"; parsed := Rejected "SyntaxError" |}
              "INVALID_VALUE" eq_refl valid_jane eq_refl eq_refl eq_refl)
    as (vs & ve & Hp).
  reflexivity.
Defined.

(** X13. The console of src/api/quote.js on a valid POST: silent when the
    three calls are fulfilled; otherwise one error line per rejected call and
    then one warning that names the rejected calls, in the order airtable,
    sms, email, separated by ", ". *)
Theorem warning_names_rejected_calls (w : world) (req : request) :
  method req = "POST" -> valid (body req) ->
  let d := quote_of (body req) in
  let a := snd (Quote.createAirtableRecord w d) in
  let s := snd (Quote.sendSMS w d) in
  let e := snd (Quote.sendEmail w d) in
  let names :=
    (if is_rejected a then ["airtable"] else [])
      ++ (if is_rejected s then ["sms"] else [])
      ++ (if is_rejected e then ["email"] else []) in
  (names = [] <-> is_rejected a = false /\ is_rejected s = false /\ is_rejected e = false)
  /\ (names = [] -> console (effects (Quote.handler w req)) = [])
  /\ (names <> [] ->
      last (console (effects (Quote.handler w req)))
      = Some (LWarn, [Text "Some notifications failed:"; Text (join ", " names)])
      /\ length (console (effects (Quote.handler w req))) = S (length names)).
Proof.
  intros Hm Hv d a s e names. rewrite (quote_run w req Hm Hv). cbv zeta.
  fold d. fold a. fold s. fold e. unfold Quote.errors. fold names. subst names.
  destruct a as [va | ra], s as [vs | rs], e as [ve | re]; simpl;
    (split; [split; [intros H; try discriminate; now repeat split
                    | intros (H1 & H2 & H3); try discriminate; reflexivity] |]);
    (split; [intros H; try discriminate; reflexivity |]);
    intros H; try congruence; split; reflexivity.
Qed.

(** The theorem at Jane Doe's submission, Textbelt refusing in its reply. *)
Lemma warning_names_rejected_calls_witness :
  method Samples.jane_post = "POST"
  /\ valid (body Samples.jane_post)
  /\ console (effects (Quote.handler Cases.textbelt_refuses Samples.jane_post))
     = [ (LError, [Text "SMS error:"; Text "Error: Textbelt failed: Out of quota"]);
         (LWarn, [Text "Some notifications failed:"; Text "sms"]) ]
  /\ last (console (effects (Quote.handler Cases.textbelt_refuses Samples.jane_post)))
     = Some (LWarn, [Text "Some notifications failed:"; Text "sms"]).
Proof.
  split; [reflexivity |]. split; [exact valid_jane |]. split; [reflexivity |].
  refine (proj1 (proj2 (proj2 (warning_names_rejected_calls Cases.textbelt_refuses
                                 Samples.jane_post eq_refl valid_jane)) _)).
  discriminate.
Defined.

(* ===================================================================== *)
(** ** Optional fields and the field sets *)
(* ===================================================================== *)

Lemma alike_truthy (u v : jsval) : Cases.alike u v -> truthy u = truthy v.
Proof. intros [-> | [Hu Hv]]; [reflexivity | unfold blank in *; congruence]. Qed.

Lemma alike_or_else (u v x : jsval) : Cases.alike u v -> or_else u x = or_else v x.
Proof.
  intros [-> | [Hu Hv]]; [reflexivity |]. unfold or_else, blank in *. now rewrite Hu, Hv.
Qed.

(** A choice made on truthiness does not tell two alike values apart. *)
Lemma alike_if {A : Type} (u v : jsval) (f : jsval -> A) (x : A) :
  Cases.alike u v -> (if truthy u then f u else x) = (if truthy v then f v else x).
Proof.
  intros [-> | [Hu Hv]]; [reflexivity |]. unfold blank in *. now rewrite Hu, Hv.
Qed.

(** Two forms with the same required fields and alike optional fields. *)
Lemma alike_forms (d1 d2 : quote) (w : world) :
  name d1 = name d2 -> phone d1 = phone d2 -> address d1 = address d2 ->
  Cases.alike (service d1) (service d2) -> Cases.alike (urgency d1) (urgency d2) ->
  Cases.alike (details d1) (details d2) ->
  missing_required d1 = missing_required d2
  /\ Quote.createAirtableRecord w d1 = Quote.createAirtableRecord w d2
  /\ QuoteEcho.createAirtableRecord w d1 = QuoteEcho.createAirtableRecord w d2
  /\ QuoteLinked.createAirtableRecord w d1 = QuoteLinked.createAirtableRecord w d2
  /\ (forall h, Template.sendSMS w h d1 = Template.sendSMS w h d2)
  /\ Quote.sendEmail w d1 = Quote.sendEmail w d2
  /\ QuoteEcho.sendEmail w d1 = QuoteEcho.sendEmail w d2
  /\ (forall id, QuoteLinked.sendEmail w d1 id = QuoteLinked.sendEmail w d2 id).
Proof.
  intros Hn Hp Ha Hs Hu Hd.
  assert (Hq : Quote.fields d1 = Quote.fields d2).
  { unfold Quote.fields.
    now rewrite Hn, Hp, Ha, (alike_or_else _ _ _ Hs), (alike_or_else _ _ _ Hu),
      (alike_or_else _ _ _ Hd). }
  assert (He : QuoteEcho.fields d1 = QuoteEcho.fields d2).
  { unfold QuoteEcho.fields. cbv zeta.
    rewrite Hn, Hp, Ha, (alike_or_else _ _ _ Hd).
    rewrite (alike_if _ _ (fun v => obj_set _ "Service" (json_of v)) _ Hs).
    now rewrite (alike_if _ _ (fun v => obj_set _ "Urgency" (json_of v)) _ Hu). }
  assert (Hm : forall h, sms_message h d1 = sms_message h d2).
  { intros h. unfold sms_message, sms_lines.
    rewrite Hn, Hp, Ha.
    rewrite (alike_if _ _ (fun v => Str ("Service: " +:+ to_string v)) _ Hs).
    rewrite (alike_if _ _ (fun v => Str ("Urgency: " +:+ to_string v)) _ Hu).
    now rewrite (alike_if _ _ (fun v => Str ("Details: " +:+ to_string v)) _ Hd). }
  assert (Hup : forall ts, html_upper ts d1 = html_upper ts d2).
  { intros ts. unfold html_upper, optional_row. rewrite Hn, Hp, Ha.
    rewrite (alike_if _ _ (fun v => row_service +:+ to_string v +:+ row_end) _ Hs).
    now rewrite (alike_if _ _ (fun v => row_urgency +:+ to_string v +:+ row_end) _ Hu). }
  assert (Hsub : forall p, subject p d1 = subject p d2).
  { intros p. unfold subject. rewrite Hn.
    now rewrite (alike_if _ _ (fun v => " (" +:+ to_string v +:+ ")") _ Hs). }
  assert (Hrow : forall o, optional_row o (details d1) = optional_row o (details d2)).
  { intros o. unfold optional_row.
    now rewrite (alike_if _ _ (fun v => o +:+ to_string v +:+ row_end) _ Hd). }
  split; [unfold missing_required; now rewrite Hn, Hp, Ha |].
  split; [unfold Quote.createAirtableRecord; now rewrite Hq |].
  split; [unfold QuoteEcho.createAirtableRecord; now rewrite He |].
  split; [unfold QuoteLinked.createAirtableRecord;
          change (QuoteLinked.fields d1) with (QuoteEcho.fields d1);
          change (QuoteLinked.fields d2) with (QuoteEcho.fields d2); now rewrite He |].
  split; [intros h; unfold Template.sendSMS, sms_request; now rewrite Hm |].
  split; [unfold Quote.sendEmail, Quote.html; now rewrite Hsub, Hup, Hrow |].
  split; [unfold QuoteEcho.sendEmail, QuoteEcho.html; now rewrite Hsub, Hup, Hrow |].
  intros id. unfold QuoteLinked.sendEmail, QuoteLinked.html. now rewrite Hsub, Hup, Hrow.
Qed.

(** X14. An optional field that is empty, [null] or [false] counts as absent
    everywhere: two requests with the same method whose bodies have the same
    name, phone and address, and whose service, urgency and details are alike
    (equal, or both blank), get the same run from every version: the same
    response, the same outbound requests, the same console output. *)
Theorem blank_optional_fields_count_as_absent (w : world) (m : string)
    (o1 o2 : gmap string jsval) :
  o1 !! "name" = o2 !! "name" -> o1 !! "phone" = o2 !! "phone" ->
  o1 !! "address" = o2 !! "address" ->
  Cases.alike (prop o1 "service") (prop o2 "service") ->
  Cases.alike (prop o1 "urgency") (prop o2 "urgency") ->
  Cases.alike (prop o1 "details") (prop o2 "details") ->
  Quote.handler w {| method := m; body := BObject o1 |}
  = Quote.handler w {| method := m; body := BObject o2 |}
  /\ QuoteEcho.handler w {| method := m; body := BObject o1 |}
     = QuoteEcho.handler w {| method := m; body := BObject o2 |}
  /\ QuoteLinked.handler w {| method := m; body := BObject o1 |}
     = QuoteLinked.handler w {| method := m; body := BObject o2 |}.
Proof.
  intros Hn Hp Ha Hs Hu Hd.
  assert (Hname : name (quote_of (BObject o1)) = name (quote_of (BObject o2)))
    by (cbn; unfold prop; now rewrite Hn).
  destruct (alike_forms (quote_of (BObject o1)) (quote_of (BObject o2)) w)
    as (H0 & H1 & H2 & H3 & H4 & H5 & H6 & H7);
    try assumption; try (cbn; unfold prop; congruence).
  unfold Quote.handler, QuoteEcho.handler, QuoteLinked.handler,
    Quote.sendSMS, QuoteEcho.sendSMS, QuoteLinked.sendSMS.
  cbn [method body destructure].
  rewrite H0, H1, H2, H3, !H4, H5, H6, Hname.
  split; [reflexivity |]. split; [reflexivity |].
  destruct (String.eqb m "OPTIONS"); [reflexivity |].
  destruct (negb (String.eqb m "POST")); [reflexivity |].
  destruct (missing_required (quote_of (BObject o2))); [reflexivity |].
  destruct (QuoteLinked.createAirtableRecord w (quote_of (BObject o2))) as [c a].
  destruct (QuoteLinked.record_id a) as [l i]. now rewrite H7.
Qed.

(** The theorem at a body with an empty service and a [null] urgency, against
    the body without them. *)
Lemma blank_optional_fields_count_as_absent_witness :
  Cases.minimal_blanks !! "service" = Some (Str "")
  /\ Samples.minimal !! "service" = None
  /\ Cases.alike (prop Cases.minimal_blanks "urgency") (prop Samples.minimal "urgency")
  /\ Quote.handler Samples.online (Samples.post Cases.minimal_blanks)
     = Quote.handler Samples.online (Samples.post Samples.minimal).
Proof.
  assert (Hs : Cases.alike (prop Cases.minimal_blanks "service") (prop Samples.minimal "service"))
    by (right; split; reflexivity).
  assert (Hu : Cases.alike (prop Cases.minimal_blanks "urgency") (prop Samples.minimal "urgency"))
    by (right; split; reflexivity).
  assert (Hd : Cases.alike (prop Cases.minimal_blanks "details") (prop Samples.minimal "details"))
    by (left; reflexivity).
  split; [reflexivity |]. split; [reflexivity |]. split; [exact Hu |].
  exact (proj1 (blank_optional_fields_count_as_absent Samples.online "POST"
                  Cases.minimal_blanks Samples.minimal eq_refl eq_refl eq_refl Hs Hu Hd)).
Defined.

(** X15. The three versions send the same record-store field set: the fields
    of src/api/quote.js (optional members set to [undefined] and dropped by
    [JSON.stringify]) are those of src/unnamed/part_000 (optional members
    assigned only when present) in another order, and the second handler of
    src/api/debug.js builds its fields as src/unnamed/part_000 does. *)
Theorem field_sets_agree_across_versions (d : quote) :
  stringify_members (Quote.fields d) ≡ₚ stringify_members (QuoteEcho.fields d)
  /\ QuoteLinked.fields d = QuoteEcho.fields d
  /\ (forall e : gmap string string,
        record_fields (airtable_request e (Quote.fields d))
        ≡ₚ record_fields (airtable_request e (QuoteEcho.fields d))).
Proof.
  assert (H : stringify_members (Quote.fields d) ≡ₚ stringify_members (QuoteEcho.fields d)).
  { unfold Quote.fields, QuoteEcho.fields, or_else. cbv zeta.
    destruct (truthy (service d)), (truthy (urgency d)), (truthy (details d)),
      (json_of (name d)), (json_of (phone d)), (json_of (address d)),
      (json_of (service d)), (json_of (urgency d)), (json_of (details d));
      cbn; solve_Permutation. }
  split; [exact H |]. split; [reflexivity |].
  intros e. now rewrite !record_fields_airtable.
Qed.

(* ===================================================================== *)
(** ** The configuration report and the configuration *)
(* ===================================================================== *)

(** X16. The configuration report reads the seven listed variables and
    nothing else: two configurations that agree on them get the same answer,
    whatever their other variables and whatever the two requests. *)
Theorem env_report_reads_only_listed_variables (w w' : world) (req req' : request) :
  (forall v, In v EnvDebug.vars -> env w !! v = env w' !! v) ->
  EnvDebug.handler w req = EnvDebug.handler w' req'.
Proof.
  intros H. unfold EnvDebug.handler, EnvDebug.status, EnvDebug.vars in *.
  cbn [fold_left]. rewrite !(H _) by (simpl; tauto). reflexivity.
Qed.

(** The theorem at two configurations that differ in [PATH], and two
    different requests. *)
Lemma env_report_reads_only_listed_variables_witness :
  env Cases.with_path !! "PATH" <> env Samples.offline !! "PATH"
  /\ (forall v, In v EnvDebug.vars -> env Cases.with_path !! v = env Samples.offline !! v)
  /\ EnvDebug.handler Cases.with_path Samples.get_empty
     = EnvDebug.handler Samples.offline Samples.jane_post.
Proof.
  assert (H : forall v, In v EnvDebug.vars -> env Cases.with_path !! v = env Samples.offline !! v).
  { intros v Hv. simpl in Hv.
    destruct Hv as [<- | [<- | [<- | [<- | [<- | [<- | [<- | []]]]]]]]; reflexivity. }
  split; [discriminate |]. split; [exact H |].
  exact (env_report_reads_only_listed_variables Cases.with_path Samples.offline
           Samples.get_empty Samples.jane_post H).
Defined.



(* ===================================================================== *)
(** ** The email: submitted text goes in as it is *)
(* ===================================================================== *)

Lemma append_assoc (a b c : string) : (a +:+ b) +:+ c = a +:+ b +:+ c.
Proof.
  induction a as [| x a IH]; [reflexivity |].
  change (String x ((a +:+ b) +:+ c) = String x (a +:+ b +:+ c)). now rewrite IH.
Qed.

Lemma prefix_append_l (t s u : string) :
  String.prefix t s = true -> String.prefix t (s +:+ u) = true.
Proof.
  revert s. induction t as [| x t IH]; intros s H.
  - destruct (s +:+ u); reflexivity.
  - destruct s as [| y s]; [discriminate |].
    change (String y s +:+ u) with (String y (s +:+ u)).
    cbn [String.prefix] in *. destruct (ascii_dec x y); [now apply IH | discriminate].
Qed.

Lemma prefix_here (t u : string) : String.prefix t (t +:+ u) = true.
Proof.
  induction t as [| x t IH]; [destruct u; reflexivity |].
  change (String x t +:+ u) with (String x (t +:+ u)).
  cbn [String.prefix]. destruct (ascii_dec x x); [exact IH | congruence].
Qed.

Lemma occurs_unfold (t s : string) :
  occurs t s = String.prefix t s
               || match s with EmptyString => false | String _ s' => occurs t s' end.
Proof. destruct s; reflexivity. Qed.

Lemma occurs_here (t u : string) : occurs t (t +:+ u) = true.
Proof. rewrite occurs_unfold, prefix_here. reflexivity. Qed.

Lemma occurs_append_r (t s u : string) : occurs t s = true -> occurs t (u +:+ s) = true.
Proof.
  intros H. induction u as [| x u IH]; [exact H |].
  change (String x u +:+ s) with (String x (u +:+ s)).
  rewrite occurs_unfold, IH. apply orb_true_r.
Qed.

Lemma occurs_append_l (t s u : string) : occurs t s = true -> occurs t (s +:+ u) = true.
Proof.
  induction s as [| x s IH]; intros H.
  - rewrite occurs_unfold, orb_false_r in H. destruct t; [| discriminate].
    rewrite occurs_unfold. destruct (EmptyString +:+ u); reflexivity.
  - rewrite occurs_unfold in H. apply orb_true_iff in H as [H | H].
    + rewrite occurs_unfold. now rewrite (prefix_append_l _ _ u H).
    + change (String x s +:+ u) with (String x (s +:+ u)).
      rewrite occurs_unfold, (IH H). apply orb_true_r.
Qed.

(** The fields that the shared upper part of the template renders. *)
Lemma html_upper_verbatim (ts : string) (d : quote) :
  occurs (to_string (name d)) (html_upper ts d) = true
  /\ occurs (to_string (phone d)) (html_upper ts d) = true
  /\ occurs (to_string (address d)) (html_upper ts d) = true
  /\ (truthy (service d) = true -> occurs (to_string (service d)) (html_upper ts d) = true)
  /\ (truthy (urgency d) = true -> occurs (to_string (urgency d)) (html_upper ts d) = true).
Proof.
  unfold html_upper, optional_row. repeat split.
  - do 3 apply occurs_append_r. apply occurs_here.
  - do 5 apply occurs_append_r. apply occurs_here.
  - do 9 apply occurs_append_r. apply occurs_here.
  - intros ->. do 11 apply occurs_append_r. apply occurs_append_l.
    apply occurs_append_r. apply occurs_here.
  - intros ->. do 13 apply occurs_append_r. apply occurs_append_l.
    apply occurs_append_r. apply occurs_here.
Qed.

(** X20. The email HTML takes the submitted text as it is: in every version
    the name is interpolated, unescaped, right after the fixed opening of the
    template and the time, and the name, the phone, the address and every
    present optional field occur verbatim in the HTML. The two parallel
    versions render the same HTML. *)
Theorem email_html_is_unescaped (ts : string) (d : quote) :
  (exists rest,
     Quote.html ts d = html_open +:+ ts +:+ html_name +:+ to_string (name d) +:+ rest)
  /\ (forall link, exists rest,
        QuoteLinked.html ts d link
        = html_open +:+ ts +:+ html_name +:+ to_string (name d) +:+ rest)
  /\ QuoteEcho.html ts d = Quote.html ts d
  /\ (forall v, v = name d \/ v = phone d \/ v = address d
                \/ (truthy v = true /\ (v = service d \/ v = urgency d \/ v = details d)) ->
        occurs (to_string v) (Quote.html ts d) = true
        /\ forall link, occurs (to_string v) (QuoteLinked.html ts d link) = true).
Proof.
  split; [| split; [| split; [reflexivity |]]].
  - unfold Quote.html, html_upper. rewrite !append_assoc. eexists. reflexivity.
  - intros link. unfold QuoteLinked.html, html_upper. rewrite !append_assoc.
    eexists. reflexivity.
  - destruct (html_upper_verbatim ts d) as (Hn & Hp & Ha & Hs & Hu).
    assert (Hd : forall o u, truthy (details d) = true ->
                   occurs (to_string (details d))
                     (html_upper ts d +:+ optional_row o (details d) +:+ u) = true).
    { intros o u Ht. unfold optional_row. rewrite Ht.
      apply occurs_append_r, occurs_append_l, occurs_append_r, occurs_here. }
    intros v Hv. unfold Quote.html, QuoteLinked.html.
    destruct Hv as [-> | [-> | [-> | [Ht [-> | [-> | ->]]]]]];
      (split; [| intros link]); auto using occurs_append_l.
Qed.

(* ===================================================================== *)
(** ** The SMS text, line by line *)
(* ===================================================================== *)

Lemma occurs_nl_cons (c : ascii) (s : string) :
  occurs nl (String c s) = Ascii.eqb c (ascii_of_nat 10) || occurs nl s.
Proof.
  rewrite occurs_unfold. f_equal. unfold nl. cbn [String.prefix].
  destruct (ascii_dec (ascii_of_nat 10) c) as [<- | Hne].
  - destruct s; reflexivity.
  - symmetry. apply Ascii.eqb_neq. congruence.
Qed.

Lemma occurs_nl_append (a b : string) :
  occurs nl (a +:+ b) = occurs nl a || occurs nl b.
Proof.
  induction a as [| c a IH]; [reflexivity |].
  change (String c a +:+ b) with (String c (a +:+ b)).
  now rewrite !occurs_nl_cons, IH, orb_assoc.
Qed.

(** A text without a line feed is one line. *)
Lemma split_lines_single (a : string) : occurs nl a = false -> split_lines a = [a].
Proof.
  induction a as [| c a IH]; [reflexivity |].
  rewrite occurs_nl_cons. intros H. apply orb_false_iff in H as [Hc Ha].
  cbn [split_lines]. rewrite Hc, (IH Ha). reflexivity.
Qed.

Lemma split_lines_first (a s : string) :
  occurs nl a = false -> split_lines (a +:+ nl +:+ s) = a :: split_lines s.
Proof.
  induction a as [| c a IH]; [reflexivity |].
  rewrite occurs_nl_cons. intros H. apply orb_false_iff in H as [Hc Ha].
  change (String c a +:+ nl +:+ s) with (String c (a +:+ nl +:+ s)).
  cbn [split_lines]. rewrite Hc, (IH Ha). reflexivity.
Qed.

(** Splitting undoes joining, for lines that hold no line feed. *)
Lemma split_lines_join (l : list string) :
  l <> [] -> Forall (fun a => occurs nl a = false) l -> split_lines (join nl l) = l.
Proof.
  induction l as [| a [| b l] IH]; intros Hne Hl; [congruence | |].
  - apply split_lines_single. now inversion Hl.
  - inversion Hl as [| ? ? Ha Hrest]; subst.
    change (join nl (a :: b :: l)) with (a +:+ nl +:+ join nl (b :: l)).
    rewrite (split_lines_first _ _ Ha), IH; [reflexivity | discriminate | exact Hrest].
Qed.

(** X22. When none of the submitted values holds a line feed, the lines of
    the SMS text are exactly the heading, the Name, Phone and Address lines,
    and one line for each optional field that is present, in the order
    Service, Urgency, Details: there is no blank line and no other line. *)
Theorem sms_lines_for_single_line_values (e : gmap string string) (d : quote) :
  occurs nl (to_string (name d)) = false ->
  occurs nl (to_string (phone d)) = false ->
  occurs nl (to_string (address d)) = false ->
  occurs nl (to_string (service d)) = false ->
  occurs nl (to_string (urgency d)) = false ->
  occurs nl (to_string (details d)) = false ->
  split_lines (message_of (sms_request e Quote.heading d))
  = [ "🌿 New WeMow760 Quote"; "Name: " +:+ to_string (name d);
      "Phone: " +:+ to_string (phone d); "Address: " +:+ to_string (address d) ]
      ++ present "Service: " (service d)
      ++ present "Urgency: " (urgency d)
      ++ present "Details: " (details d)
  /\ split_lines (message_of (sms_request e QuoteLinked.heading d))
     = [ "🌿 New WeMow760 Quote Request"; "Name: " +:+ to_string (name d);
         "Phone: " +:+ to_string (phone d); "Address: " +:+ to_string (address d) ]
         ++ present "Service: " (service d)
         ++ present "Urgency: " (urgency d)
         ++ present "Details: " (details d).
Proof.
  intros Hn Hp Ha Hs Hu Hd. rewrite !message_of_sms. unfold sms_message.
  rewrite !kept_sms_lines by discriminate.
  assert (Hpre : forall label v,
             occurs nl label = false -> occurs nl (to_string v) = false ->
             Forall (fun a => occurs nl a = false) (present label v)).
  { intros label v Hl Hv. unfold present. destruct (truthy v); constructor; [| constructor].
    now rewrite occurs_nl_append, Hl, Hv. }
  split; apply split_lines_join; try discriminate;
    repeat (apply Forall_app; split); try (apply Hpre; [reflexivity | assumption]);
    repeat constructor; rewrite ?occurs_nl_append, ?Hn, ?Hp, ?Ha; reflexivity.
Qed.

(** The theorem at Jane Doe's submission. *)
Lemma sms_lines_for_single_line_values_witness :
  occurs nl (to_string (details (quote_of (body Samples.jane_post)))) = false
  /\ split_lines (message_of (sms_request Samples.configured Quote.heading
                                (quote_of (body Samples.jane_post))))
     = [ "🌿 New WeMow760 Quote"; "Name: Jane Doe"; "Phone: 760-555-0100";
         "Address: 123 Oak St"; "Service: Mowing"; "Details: Gate code 4521" ].
Proof.
  split; [reflexivity |].
  exact (proj1 (sms_lines_for_single_line_values Samples.configured
                  (quote_of (body Samples.jane_post))
                  eq_refl eq_refl eq_refl eq_refl eq_refl eq_refl)).
Defined.

(* ===================================================================== *)
(** ** Any JSON value as a field *)
(* ===================================================================== *)

(** *** Values and rendering *)

Lemma full_destructure_valid (b : Full.value) :
  Full.valid b -> Full.destructure b = Normal (Full.quote_of b).
Proof.
  intros (H & _ & _). destruct b as [[ | | | | | ] | ]; try reflexivity; discriminate.
Qed.

Lemma full_valid_not_missing (b : Full.value) :
  Full.valid b -> Full.missing_required (Full.quote_of b) = false.
Proof.
  intros (H1 & H2 & H3). unfold Full.missing_required, Full.quote_of.
  cbn [Full.name Full.phone Full.address]. now rewrite H1, H2, H3.
Qed.

Lemma full_not_missing_valid (b : Full.value) :
  Full.missing_required (Full.quote_of b) = false -> Full.valid b.
Proof.
  unfold Full.missing_required, Full.quote_of, Full.valid.
  cbn [Full.name Full.phone Full.address].
  rewrite !orb_false_iff, !negb_false_iff. tauto.
Qed.

Lemma renders_shown (v : Full.value) :
  Full.renders v = true -> reply_to_string v = Normal (Full.shown v).
Proof.
  unfold Full.renders, Full.shown. destruct (reply_to_string v); [reflexivity | discriminate].
Qed.

Lemma labelled_shown (label : string) (v : Full.value) :
  Full.renders v = true -> Full.labelled label v = Normal (label +:+ Full.shown v).
Proof. intros H. unfold Full.labelled. now rewrite (renders_shown v H). Qed.

Lemma optional_line_shown (label : string) (v : Full.value) :
  negb (json_truthy v) || Full.renders v = true ->
  Full.optional_line label v
  = Normal (if json_truthy v then Some (label +:+ Full.shown v) else None).
Proof.
  unfold Full.optional_line. destruct (json_truthy v); [| reflexivity].
  cbn [negb orb]. intros H. now rewrite (labelled_shown label v H).
Qed.

Lemma optional_row_shown (opening : string) (v : Full.value) :
  negb (json_truthy v) || Full.renders v = true ->
  Full.optional_row opening v = Normal (Full.row opening v).
Proof.
  unfold Full.optional_row, Full.row. destruct (json_truthy v); [| reflexivity].
  cbn [negb orb]. intros H. now rewrite (renders_shown v H).
Qed.

Lemma renderable_parts (d : Full.quote) :
  Full.renderable d = true ->
  Full.renders (Full.name d) = true /\ Full.renders (Full.phone d) = true
  /\ Full.renders (Full.address d) = true
  /\ negb (json_truthy (Full.service d)) || Full.renders (Full.service d) = true
  /\ negb (json_truthy (Full.urgency d)) || Full.renders (Full.urgency d) = true
  /\ negb (json_truthy (Full.details d)) || Full.renders (Full.details d) = true.
Proof. unfold Full.renderable. rewrite !andb_true_iff. tauto. Qed.

(** A renderable form gives the SMS request, with the text [Full.sms_text]. *)
Lemma sms_request_renderable (e : gmap string string) (h : string) (d : Full.quote) :
  String.eqb h "" = false -> Full.renderable d = true ->
  Full.sms_request e h d = Normal (Full.sms_request_of e (Full.sms_text h d)).
Proof.
  intros Hh Hr. destruct (renderable_parts d Hr) as (Hn & Hp & Ha & Hs & Hu & Ht).
  unfold Full.sms_request, Full.sms_message, Full.sms_lines.
  rewrite (labelled_shown _ _ Hn), (labelled_shown _ _ Hp), (labelled_shown _ _ Ha),
    (optional_line_shown _ _ Hs), (optional_line_shown _ _ Hu), (optional_line_shown _ _ Ht).
  cbn [Full.and_then]. unfold Full.sms_text, Full.line, Full.kept.
  cbn [omap list_omap]. rewrite Hh.
  destruct (json_truthy (Full.service d)), (json_truthy (Full.urgency d)),
    (json_truthy (Full.details d)); reflexivity.
Qed.

Lemma html_upper_renderable (ts : string) (d : Full.quote) :
  Full.renderable d = true ->
  Full.html_upper ts d = Normal (Full.html_upper_text ts d).
Proof.
  intros Hr. destruct (renderable_parts d Hr) as (Hn & Hp & Ha & Hs & Hu & Ht).
  unfold Full.html_upper.
  rewrite (renders_shown _ Hn), (renders_shown _ Hp), (renders_shown _ Ha),
    (optional_row_shown _ _ Hs), (optional_row_shown _ _ Hu).
  reflexivity.
Qed.

Lemma subject_renderable (prefix : string) (d : Full.quote) :
  Full.renderable d = true ->
  Full.subject prefix d = Normal (Full.subject_text prefix d).
Proof.
  intros Hr. destruct (renderable_parts d Hr) as (Hn & _ & _ & Hs & _).
  unfold Full.subject, Full.subject_text. rewrite (renders_shown _ Hn). cbn [Full.and_then].
  destruct (json_truthy (Full.service d)); [| reflexivity].
  cbn [negb orb] in Hs. now rewrite (renders_shown _ Hs).
Qed.

Lemma quote_email_renderable (e : gmap string string) (ts : string) (d : Full.quote) :
  Full.renderable d = true ->
  FullQuote.email e ts d
  = Normal (email_request e (Full.subject_text "New Quote — " d)
              (Full.html_upper_text ts d +:+ Full.row row_details (Full.details d)
                 +:+ html_close)).
Proof.
  intros Hr. destruct (renderable_parts d Hr) as (_ & _ & _ & _ & _ & Ht).
  unfold FullQuote.email, FullQuote.html.
  now rewrite (html_upper_renderable ts d Hr), (optional_row_shown _ _ Ht),
    (subject_renderable _ d Hr).
Qed.

Lemma echo_email_renderable (e : gmap string string) (ts : string) (d : Full.quote) :
  Full.renderable d = true ->
  FullQuoteEcho.email e ts d
  = Normal (email_request e (Full.subject_text "New Quote — " d)
              (Full.html_upper_text ts d +:+ Full.row row_details (Full.details d)
                 +:+ html_close)).
Proof.
  intros Hr. destruct (renderable_parts d Hr) as (_ & _ & _ & _ & _ & Ht).
  unfold FullQuoteEcho.email, FullQuoteEcho.html.
  now rewrite (html_upper_renderable ts d Hr), (optional_row_shown _ _ Ht),
    (subject_renderable _ d Hr).
Qed.

Lemma linked_email_renderable (e : gmap string string) (ts : string) (d : Full.quote)
    (id : option json) (link : string) :
  Full.renderable d = true -> QuoteLinked.airtableUrl e id = Normal link ->
  FullQuoteLinked.email e ts d id
  = Normal (email_request e (Full.subject_text "New Quote Request — " d)
              (Full.html_upper_text ts d +:+ Full.row row_details_linked (Full.details d)
                 +:+ html_link +:+ link +:+ html_link_close)).
Proof.
  intros Hr Hl. destruct (renderable_parts d Hr) as (_ & _ & _ & _ & _ & Ht).
  unfold FullQuoteLinked.email, FullQuoteLinked.html. rewrite Hl. cbn [Full.and_then].
  now rewrite (html_upper_renderable ts d Hr), (optional_row_shown _ _ Ht),
    (subject_renderable _ d Hr).
Qed.

(** A form that is not renderable gives no SMS request and no email request:
    building either throws. *)
Lemma unrenderable_issues_nothing (d : Full.quote) :
  Full.renderable d = false ->
  forall (e : gmap string string) (h ts : string) (id : option json),
    Full.issued (Full.sms_request e h d) = []
    /\ Full.issued (FullQuote.email e ts d) = []
    /\ Full.issued (FullQuoteEcho.email e ts d) = []
    /\ Full.issued (FullQuoteLinked.email e ts d id) = [].
Proof.
  intros Hr e h ts id.
  unfold Full.renderable, Full.renders in Hr.
  unfold Full.sms_request, Full.sms_message, Full.sms_lines, Full.labelled,
    Full.optional_line, Full.labelled,
    FullQuote.email, FullQuote.html, FullQuoteEcho.email, FullQuoteEcho.html,
    FullQuoteLinked.email, FullQuoteLinked.html, Full.html_upper, Full.optional_row,
    Full.subject.
  destruct (QuoteLinked.airtableUrl e id);
  destruct (reply_to_string (Full.name d)), (reply_to_string (Full.phone d)),
    (reply_to_string (Full.address d));
  destruct (json_truthy (Full.service d)), (reply_to_string (Full.service d));
  destruct (json_truthy (Full.urgency d)), (reply_to_string (Full.urgency d));
  destruct (json_truthy (Full.details d)), (reply_to_string (Full.details d));
  cbn [andb orb negb] in Hr; try discriminate Hr;
  cbn [Full.and_then Full.issued]; repeat split.
Qed.

(** *** An async call issues its request before it awaits anything *)

Lemma textbelt_result_quiet (result : json) : fst (Full.textbelt_result result) = [].
Proof.
  unfold Full.textbelt_result.
  destruct (member (Some result) "success") as [flag | r]; [| reflexivity].
  destruct (negb (json_truthy flag)); [| reflexivity].
  destruct (member (Some result) "error") as [e | r]; [| reflexivity].
  destruct (reply_to_string e); reflexivity.
Qed.

Lemma full_sendSMS_effects (w : world) (h : string) (d : Full.quote) :
  fst (Full.sendSMS w h d) = Full.issued (Full.sms_request (env w) h d).
Proof.
  unfold Full.sendSMS. destruct (Full.sms_request (env w) h d) as [rq | r]; [| reflexivity].
  cbn [Full.issued]. apply bind_fetch_effects. intros resp.
  apply bind_quiet; [apply checked_json_quiet | apply textbelt_result_quiet].
Qed.

Lemma full_quote_airtable_effects (w : world) (d : Full.quote) :
  fst (FullQuote.createAirtableRecord w d)
  = [Fetch (airtable_request (env w) (FullQuote.fields d))].
Proof. apply bind_fetch_effects. intros resp. apply checked_json_quiet. Qed.

Lemma full_echo_airtable_effects (w : world) (d : Full.quote) :
  fst (FullQuoteEcho.createAirtableRecord w d)
  = [Fetch (airtable_request (env w) (FullQuoteEcho.fields d))].
Proof. apply bind_fetch_effects. intros resp. apply checked_json_quiet. Qed.

Lemma full_linked_airtable_effects (w : world) (d : Full.quote) :
  fst (FullQuoteLinked.createAirtableRecord w d)
  = [Fetch (airtable_request (env w) (FullQuoteLinked.fields d))].
Proof. apply bind_fetch_effects. intros resp. apply checked_json_quiet. Qed.

Lemma full_quote_email_effects (w : world) (d : Full.quote) :
  fst (FullQuote.sendEmail w d) = Full.issued (FullQuote.email (env w) (now w) d).
Proof.
  unfold FullQuote.sendEmail. destruct (FullQuote.email _ _ _); [| reflexivity].
  apply bind_fetch_effects. intros resp. apply checked_json_quiet.
Qed.

Lemma full_echo_email_effects (w : world) (d : Full.quote) :
  fst (FullQuoteEcho.sendEmail w d) = Full.issued (FullQuoteEcho.email (env w) (now w) d).
Proof.
  unfold FullQuoteEcho.sendEmail. destruct (FullQuoteEcho.email _ _ _); [| reflexivity].
  apply bind_fetch_effects. intros resp. apply checked_json_quiet.
Qed.

Lemma full_linked_email_effects (w : world) (d : Full.quote) (id : option json) :
  fst (FullQuoteLinked.sendEmail w d id)
  = Full.issued (FullQuoteLinked.email (env w) (now w) d id).
Proof.
  unfold FullQuoteLinked.sendEmail. destruct (FullQuoteLinked.email _ _ _ _); [| reflexivity].
  apply bind_fetch_effects. intros resp. apply checked_json_quiet.
Qed.

(** *** The run of each handler on a valid POST *)

Lemma full_quote_run (w : world) (req : Full.request) :
  Full.method req = "POST" -> Full.valid (Full.body req) ->
  let d := Full.quote_of (Full.body req) in
  let airtable := snd (FullQuote.createAirtableRecord w d) in
  let sms := snd (FullQuote.sendSMS w d) in
  let email := snd (FullQuote.sendEmail w d) in
  FullQuote.handler w req
  = map Full.Did
      ([Fetch (airtable_request (env w) (FullQuote.fields d))]
         ++ Full.issued (Full.sms_request (env w) Quote.heading d)
         ++ Full.issued (FullQuote.email (env w) (now w) d))
      ++ [Full.Awaited [airtable; sms; email]]
      ++ map Full.Did
           (log_rejected "Airtable error:" airtable
              ++ log_rejected "SMS error:" sms
              ++ log_rejected "Email error:" email
              ++ (if (0 <? length (Quote.errors airtable sms email))%nat
                  then [Console LWarn [Text "Some notifications failed:";
                                       Text (join ", " (Quote.errors airtable sms email))]]
                  else []))
      ++ [Full.Send (send_json (cors []) 200 success)].
Proof.
  intros Hm Hv. unfold FullQuote.handler.
  rewrite Hm, (full_destructure_valid _ Hv), (full_valid_not_missing _ Hv).
  cbn [String.eqb Ascii.eqb Bool.eqb negb].
  rewrite full_quote_airtable_effects, full_quote_email_effects.
  unfold FullQuote.sendSMS at 1. rewrite full_sendSMS_effects. reflexivity.
Qed.

Lemma full_echo_run (w : world) (req : Full.request) :
  Full.method req = "POST" -> Full.valid (Full.body req) ->
  let d := Full.quote_of (Full.body req) in
  let airtable := snd (FullQuoteEcho.createAirtableRecord w d) in
  let sms := snd (FullQuoteEcho.sendSMS w d) in
  let email := snd (FullQuoteEcho.sendEmail w d) in
  let report := QuoteEcho.summary airtable sms email in
  FullQuoteEcho.handler w req
  = [Full.Did (Console LLog [Text "Processing quote for:"; Full.console_arg (Full.name d)])]
      ++ map Full.Did
           ([Fetch (airtable_request (env w) (FullQuoteEcho.fields d))]
              ++ Full.issued (Full.sms_request (env w) QuoteEcho.heading d)
              ++ Full.issued (FullQuoteEcho.email (env w) (now w) d))
      ++ [Full.Awaited [airtable; sms; email]]
      ++ [Full.Did (Console LLog [Text "Results:"; Json report])]
      ++ [Full.Send (send_json (cors []) 200
                       (JObj [("success", JBool true); ("_debug", report)]))].
Proof.
  intros Hm Hv. unfold FullQuoteEcho.handler.
  rewrite Hm, (full_destructure_valid _ Hv), (full_valid_not_missing _ Hv).
  cbn [String.eqb Ascii.eqb Bool.eqb negb].
  rewrite full_echo_airtable_effects, full_echo_email_effects.
  unfold FullQuoteEcho.sendSMS at 1. rewrite full_sendSMS_effects. reflexivity.
Qed.

Lemma full_linked_run (w : world) (req : Full.request) :
  Full.method req = "POST" -> Full.valid (Full.body req) ->
  let d := Full.quote_of (Full.body req) in
  let airtable := snd (FullQuoteLinked.createAirtableRecord w d) in
  let step1 := QuoteLinked.record_id airtable in
  let sms := snd (FullQuoteLinked.sendSMS w d) in
  let email := snd (FullQuoteLinked.sendEmail w d (snd step1)) in
  FullQuoteLinked.handler w req
  = map Full.Did [Fetch (airtable_request (env w) (FullQuoteLinked.fields d))]
      ++ [Full.Awaited [airtable]]
      ++ map Full.Did (fst step1)
      ++ map Full.Did
           (Full.issued (Full.sms_request (env w) QuoteLinked.heading d)
              ++ Full.issued (FullQuoteLinked.email (env w) (now w) d (snd step1)))
      ++ [Full.Awaited [sms; email]]
      ++ map Full.Did (log_rejected "SMS error:" sms ++ log_rejected "Email error:" email)
      ++ [Full.Send (send_json (cors []) 200 success)].
Proof.
  intros Hm Hv. unfold FullQuoteLinked.handler.
  rewrite Hm, (full_destructure_valid _ Hv), (full_valid_not_missing _ Hv).
  cbn [String.eqb Ascii.eqb Bool.eqb negb].
  rewrite full_linked_airtable_effects.
  destruct (QuoteLinked.record_id _) as [log1 id]. cbn [fst snd].
  rewrite full_linked_email_effects.
  unfold FullQuoteLinked.sendSMS at 1. rewrite full_sendSMS_effects. reflexivity.
Qed.

(** *** The outbound requests of a run *)

Lemma effects_of_app (t t' : list Full.event) :
  Full.effects_of (t ++ t') = Full.effects_of t ++ Full.effects_of t'.
Proof. apply omap_app. Qed.

Lemma effects_of_did (es : list effect) : Full.effects_of (map Full.Did es) = es.
Proof. induction es as [| e es IH]; [reflexivity |]. cbn. unfold Full.effects_of in IH. now rewrite IH. Qed.

Lemma fetches_app (es es' : list effect) : fetches (es ++ es') = fetches es ++ fetches es'.
Proof. apply omap_app. Qed.

Lemma fetches_log_rejected {A : Type} (label : string) (p : settled A) :
  fetches (log_rejected label p) = [].
Proof. destruct p; reflexivity. Qed.

Lemma fetches_record_id (p : settled json) : fetches (fst (QuoteLinked.record_id p)) = [].
Proof.
  destruct p as [j | r]; [| reflexivity]. unfold QuoteLinked.record_id.
  destruct (member (Some j) "records"); reflexivity.
Qed.

Lemma fetches_issued (rq : completion http_request) :
  fetches (Full.issued rq) = match rq with Normal r => [r] | Throw _ => [] end.
Proof. destruct rq; reflexivity. Qed.

(** The requests of each version on a valid POST: the record-store request,
    then those of [sendSMS] and [sendEmail] when they could be built. *)
Lemma full_quote_fetches (w : world) (req : Full.request) :
  Full.method req = "POST" -> Full.valid (Full.body req) ->
  let d := Full.quote_of (Full.body req) in
  fetches (Full.effects_of (FullQuote.handler w req))
  = [airtable_request (env w) (FullQuote.fields d)]
      ++ fetches (Full.issued (Full.sms_request (env w) Quote.heading d))
      ++ fetches (Full.issued (FullQuote.email (env w) (now w) d)).
Proof.
  intros Hm Hv d. rewrite (full_quote_run w req Hm Hv). cbv zeta. fold d.
  rewrite !effects_of_app, !effects_of_did, !fetches_app, !fetches_log_rejected.
  cbn [Full.effects_of omap list_omap fetches app].
  destruct (0 <? _)%nat; cbn [omap list_omap]; now rewrite !app_nil_r.
Qed.

Lemma full_echo_fetches (w : world) (req : Full.request) :
  Full.method req = "POST" -> Full.valid (Full.body req) ->
  let d := Full.quote_of (Full.body req) in
  fetches (Full.effects_of (FullQuoteEcho.handler w req))
  = [airtable_request (env w) (FullQuoteEcho.fields d)]
      ++ fetches (Full.issued (Full.sms_request (env w) QuoteEcho.heading d))
      ++ fetches (Full.issued (FullQuoteEcho.email (env w) (now w) d)).
Proof.
  intros Hm Hv d. rewrite (full_echo_run w req Hm Hv). cbv zeta. fold d.
  rewrite !effects_of_app, !effects_of_did, !fetches_app.
  cbn [Full.effects_of omap list_omap fetches app]. now rewrite !app_nil_r.
Qed.

Lemma full_linked_fetches (w : world) (req : Full.request) :
  Full.method req = "POST" -> Full.valid (Full.body req) ->
  let d := Full.quote_of (Full.body req) in
  let id := snd (QuoteLinked.record_id (snd (FullQuoteLinked.createAirtableRecord w d))) in
  fetches (Full.effects_of (FullQuoteLinked.handler w req))
  = [airtable_request (env w) (FullQuoteLinked.fields d)]
      ++ fetches (Full.issued (Full.sms_request (env w) QuoteLinked.heading d))
      ++ fetches (Full.issued (FullQuoteLinked.email (env w) (now w) d id)).
Proof.
  intros Hm Hv d id. rewrite (full_linked_run w req Hm Hv). cbv zeta. fold d. fold id.
  rewrite !effects_of_app, !effects_of_did, !fetches_app, !fetches_log_rejected,
    fetches_record_id.
  cbn [Full.effects_of omap list_omap fetches app]. now rewrite !app_nil_r.
Qed.

Lemma message_of_sms_request_of (e : gmap string string) (m : string) :
  message_of (Full.sms_request_of e m) = m.
Proof.
  unfold message_of, Full.sms_request_of, stringify_members. cbn [content].
  destruct (e !! "NOTIFY_PHONE"); reflexivity.
Qed.

(** *** C2: one call to each collaborator, with the submitted form *)

(** C2, as the code has it. On a valid POST whose fields can be interpolated
    (text, numbers, booleans, lists of these; objects without an own
    [toString] member), src/api/quote.js and src/unnamed/part_000 make
    exactly three outbound requests, one to the record store, one to the SMS
    gateway and one to the email gateway, in this order, and each carries the
    submitted form: the record-store field set holds the name, phone and
    address as submitted, the service and urgency when present, the details
    (or the empty string) and the status [New]; the SMS text is the heading
    followed by the labelled line of every required and every present
    optional field; the email's subject holds the name and the service, and
    its HTML holds every required and every present optional field, in the
    template of the source. A field that is text is interpolated and
    serialised as it is. *)
Theorem each_collaborator_called_once_with_the_form (w : world) (req : Full.request) :
  Full.method req = "POST" -> Full.valid (Full.body req) ->
  Full.renderable (Full.quote_of (Full.body req)) = true ->
  let f := Full.field (Full.body req) in
  let given k := json_truthy (f k) in
  let text k := Full.shown (f k) in
  let written k := Full.stringified <$> f k in
  let sms heading :=
    join nl
      ([ heading;
         "Name: " +:+ text "name";
         "Phone: " +:+ text "phone";
         "Address: " +:+ text "address" ]
         ++ (if given "service" then ["Service: " +:+ text "service"] else [])
         ++ (if given "urgency" then ["Urgency: " +:+ text "urgency"] else [])
         ++ (if given "details" then ["Details: " +:+ text "details"] else [])) in
  let subj :=
    "New Quote — " +:+ text "name"
      +:+ (if given "service" then " (" +:+ text "service" +:+ ")" else "") in
  let page :=
    html_open +:+ now w
      +:+ html_name +:+ text "name"
      +:+ html_phone +:+ text "phone"
      +:+ html_phone_text +:+ text "phone"
      +:+ html_address +:+ text "address"
      +:+ html_rows
      +:+ (if given "service" then row_service +:+ text "service" +:+ row_end else "")
      +:+ html_gap
      +:+ (if given "urgency" then row_urgency +:+ text "urgency" +:+ row_end else "")
      +:+ html_gap
      +:+ (if given "details" then row_details +:+ text "details" +:+ row_end else "")
      +:+ html_close in
  (exists a s e,
     fetches (Full.effects_of (FullQuote.handler w req)) = [a; s; e]
     /\ url a = airtable_url (env w)
     /\ record_fields a
        = stringify_members
            [ ("Name", written "name");
              ("Phone", written "phone");
              ("Address", written "address");
              ("Service", if given "service" then written "service" else None);
              ("Urgency", if given "urgency" then written "urgency" else None);
              ("Details", if given "details" then written "details" else Some (JStr ""));
              ("Status", Some (JStr "New")) ]
     /\ url s = "https://textbelt.com/text"
     /\ message_of s = sms "🌿 New WeMow760 Quote"
     /\ url e = "https://api.resend.com/emails"
     /\ opt_member (Some (content e)) "subject" = Some (JStr subj)
     /\ opt_member (Some (content e)) "html" = Some (JStr page)
     /\ calls_to "https://api.airtable.com/" (Full.effects_of (FullQuote.handler w req)) = 1%nat
     /\ calls_to "https://textbelt.com/" (Full.effects_of (FullQuote.handler w req)) = 1%nat
     /\ calls_to "https://api.resend.com/" (Full.effects_of (FullQuote.handler w req)) = 1%nat)
  /\ (exists a s e,
        fetches (Full.effects_of (FullQuoteEcho.handler w req)) = [a; s; e]
        /\ url a = airtable_url (env w)
        /\ record_fields a
           = stringify_members
               [ ("Name", written "name");
                 ("Phone", written "phone");
                 ("Address", written "address");
                 ("Details", if given "details" then written "details" else Some (JStr ""));
                 ("Status", Some (JStr "New"));
                 ("Service", if given "service" then written "service" else None);
                 ("Urgency", if given "urgency" then written "urgency" else None) ]
        /\ url s = "https://textbelt.com/text"
        /\ message_of s = sms "🌿 New WeMow760 Quote"
        /\ url e = "https://api.resend.com/emails"
        /\ opt_member (Some (content e)) "subject" = Some (JStr subj)
        /\ opt_member (Some (content e)) "html" = Some (JStr page)
        /\ calls_to "https://api.airtable.com/" (Full.effects_of (FullQuoteEcho.handler w req))
           = 1%nat
        /\ calls_to "https://textbelt.com/" (Full.effects_of (FullQuoteEcho.handler w req))
           = 1%nat
        /\ calls_to "https://api.resend.com/" (Full.effects_of (FullQuoteEcho.handler w req))
           = 1%nat)
  /\ (forall k t, f k = Some (JStr t) -> text k = t /\ written k = Some (JStr t)).
Proof.
  intros Hm Hv Hr f given text written sms subj page.
  set (d := Full.quote_of (Full.body req)) in *.
  assert (Hsms : forall h, String.eqb h "" = false -> Full.sms_text h d = sms h).
  { intros h Hh. unfold Full.sms_text, sms, Full.line, given, text, f, d. reflexivity. }
  assert (Hsubj : Full.subject_text "New Quote — " d = subj) by reflexivity.
  assert (Hpage : Full.html_upper_text (now w) d +:+ Full.row row_details (Full.details d)
                    +:+ html_close = page).
  { unfold Full.html_upper_text, Full.row, page, given, text, f, d.
    cbn [Full.name Full.phone Full.address Full.service Full.urgency Full.details
         Full.quote_of].
    rewrite !append_assoc. reflexivity. }
  split; [| split; [| intros k t Hk; unfold text, written; rewrite Hk; split; reflexivity]].
  - unfold calls_to. rewrite (full_quote_fetches w req Hm Hv). cbv zeta. fold d.
    rewrite (sms_request_renderable (env w) Quote.heading d eq_refl Hr),
      (quote_email_renderable (env w) (now w) d Hr).
    cbn [Full.issued fetches omap list_omap app].
    do 3 eexists. split; [reflexivity |].
    rewrite record_fields_airtable, message_of_sms_request_of, Hsubj, Hpage.
    rewrite (Hsms Quote.heading eq_refl).
    repeat split.
    unfold FullQuote.fields, Full.or_else, written, given, f, d.
    cbn [Full.name Full.phone Full.address Full.service Full.urgency Full.details
         Full.quote_of].
    destruct (json_truthy (Full.field (Full.body req) "service")),
      (json_truthy (Full.field (Full.body req) "urgency")),
      (json_truthy (Full.field (Full.body req) "details")); reflexivity.
  - unfold calls_to. rewrite (full_echo_fetches w req Hm Hv). cbv zeta. fold d.
    rewrite (sms_request_renderable (env w) QuoteEcho.heading d eq_refl Hr),
      (echo_email_renderable (env w) (now w) d Hr).
    cbn [Full.issued fetches omap list_omap app].
    do 3 eexists. split; [reflexivity |].
    rewrite record_fields_airtable, message_of_sms_request_of, Hsubj, Hpage.
    rewrite (Hsms QuoteEcho.heading eq_refl).
    repeat split.
    unfold FullQuoteEcho.fields, Full.or_else, written, given, f, d.
    cbn [Full.name Full.phone Full.address Full.service Full.urgency Full.details
         Full.quote_of].
    destruct (json_truthy (Full.field (Full.body req) "service")),
      (json_truthy (Full.field (Full.body req) "urgency")),
      (json_truthy (Full.field (Full.body req) "details")); reflexivity.
Qed.

Lemma full_valid_jane : Full.valid (Full.body (FullCases.post FullCases.jane)).
Proof. repeat split. Qed.

(** The theorem at Jane Doe's submission, every call succeeding. *)
Lemma each_collaborator_called_once_with_the_form_witness :
  Full.method (FullCases.post FullCases.jane) = "POST"
  /\ Full.valid (Full.body (FullCases.post FullCases.jane))
  /\ Full.renderable (Full.quote_of (Full.body (FullCases.post FullCases.jane))) = true
  /\ calls_to "https://api.airtable.com/"
       (Full.effects_of (FullQuote.handler Samples.online (FullCases.post FullCases.jane)))
     = 1%nat
  /\ calls_to "https://textbelt.com/"
       (Full.effects_of (FullQuote.handler Samples.online (FullCases.post FullCases.jane)))
     = 1%nat
  /\ calls_to "https://api.resend.com/"
       (Full.effects_of (FullQuote.handler Samples.online (FullCases.post FullCases.jane)))
     = 1%nat.
Proof.
  split; [reflexivity |]. split; [exact full_valid_jane |]. split; [reflexivity |].
  destruct (proj1 (each_collaborator_called_once_with_the_form Samples.online
                     (FullCases.post FullCases.jane) eq_refl full_valid_jane eq_refl))
    as (a & s & e & _ & _ & _ & _ & _ & _ & _ & _ & H1 & H2 & H3).
  exact (conj H1 (conj H2 H3)).
Defined.

(** C2 as stated fails. A POST whose name is the object [{"toString": null}]
    is valid: the name is not empty. Its record-store request goes out, but
    [sendSMS] and [sendEmail] throw while they interpolate the name, before
    their [fetch]: one outbound request is made, and neither the SMS gateway
    nor the email gateway is called. src/unnamed/part_000 reports the two
    errors to the caller. *)
Lemma each_collaborator_called_once_counterexample :
  Full.method (FullCases.post FullCases.unprintable) = "POST"
  /\ Full.valid (Full.body (FullCases.post FullCases.unprintable))
  /\ (map url (fetches (Full.effects_of
                          (FullQuote.handler Samples.online
                             (FullCases.post FullCases.unprintable))))
      = ["https://api.airtable.com/v0/appBASE0000000001/tblQUOTES00000001"]
      /\ calls_to "https://textbelt.com/"
           (Full.effects_of (FullQuote.handler Samples.online
                               (FullCases.post FullCases.unprintable))) = 0%nat
      /\ calls_to "https://api.resend.com/"
           (Full.effects_of (FullQuote.handler Samples.online
                               (FullCases.post FullCases.unprintable))) = 0%nat)
  /\ (map url (fetches (Full.effects_of
                          (FullQuoteEcho.handler Samples.online
                             (FullCases.post FullCases.unprintable))))
      = ["https://api.airtable.com/v0/appBASE0000000001/tblQUOTES00000001"]
      /\ Full.responses (FullQuoteEcho.handler Samples.online
                           (FullCases.post FullCases.unprintable))
         = [ {| status := 200;
                headers := [ ("Access-Control-Allow-Origin", "*");
                             ("Access-Control-Allow-Methods", "POST");
                             ("Access-Control-Allow-Headers", "Content-Type") ];
                payload := Some (JObj
                  [ ("success", JBool true);
                    ("_debug", JObj
                       [ ("airtable", JStr "OK");
                         ("sms", JStr "FAIL: TypeError: Cannot convert object to primitive value");
                         ("email", JStr "FAIL: TypeError: Cannot convert object to primitive value") ]) ]) |} ]).
Proof. repeat split. Qed.

(** A submission whose fields are a number, a list and a flag is valid, and
    each value is interpolated as JavaScript prints it; an empty list is
    truthy and prints empty. *)
Lemma untyped_fields_are_interpolated :
  Full.valid (Full.body (FullCases.post FullCases.untyped))
  /\ map message_of
       (fetches (Full.effects_of
                   (FullQuote.handler Samples.online (FullCases.post FullCases.untyped))))
     = [ "";
         join nl [ "🌿 New WeMow760 Quote"; "Name: 42"; "Phone: 760,555,0100";
                   "Address: true"; "Service: " ];
         "" ].
Proof. repeat split. Qed.

(** *** C3: the response follows every settlement *)

Lemma responses_app (t t' : list Full.event) :
  Full.responses (t ++ t') = Full.responses t ++ Full.responses t'.
Proof. apply omap_app. Qed.

Lemma responses_did (es : list effect) : Full.responses (map Full.Did es) = [].
Proof. induction es as [| e es IH]; [reflexivity | exact IH]. Qed.

Lemma awaited_app (t t' : list Full.event) :
  Full.awaited (t ++ t') = Full.awaited t ++ Full.awaited t'.
Proof. unfold Full.awaited. now rewrite omap_app, concat_app. Qed.

Lemma awaited_did (es : list effect) : Full.awaited (map Full.Did es) = [].
Proof. induction es as [| e es IH]; [reflexivity | exact IH]. Qed.

(** C3. On a valid POST, whatever the submitted values and however the calls
    settle, the run of each version ends with its one response, and before
    that response the handler has awaited the settlement of each of the three
    calls. In src/api/quote.js and src/unnamed/part_000 every request of the
    three calls is issued before the handler awaits anything, so no outcome
    bears on another call; after the [await] the handler only writes to the
    console and responds. In the second handler of src/api/debug.js the
    record-store call is awaited first; whether it was fulfilled or rejected,
    [sendSMS] and [sendEmail] are called next and awaited together, and when
    it was rejected the email links to the table. The requests of the two
    parallel versions are the same in any two worlds that differ only in how
    calls settle. *)
Theorem response_follows_every_settlement (w : world) (req : Full.request) :
  Full.method req = "POST" -> Full.valid (Full.body req) ->
  let d := Full.quote_of (Full.body req) in
  let answers_after (t : list Full.event) (outcomes : list (settled json)) :=
    exists before r,
      t = before ++ [Full.Send r] /\ Full.responses before = []
      /\ Full.awaited before = outcomes in
  (answers_after (FullQuote.handler w req)
     [ snd (FullQuote.createAirtableRecord w d); snd (FullQuote.sendSMS w d);
       snd (FullQuote.sendEmail w d) ]
   /\ answers_after (FullQuoteEcho.handler w req)
        [ snd (FullQuoteEcho.createAirtableRecord w d); snd (FullQuoteEcho.sendSMS w d);
          snd (FullQuoteEcho.sendEmail w d) ]
   /\ answers_after (FullQuoteLinked.handler w req)
        [ snd (FullQuoteLinked.createAirtableRecord w d); snd (FullQuoteLinked.sendSMS w d);
          snd (FullQuoteLinked.sendEmail w d
                 (snd (QuoteLinked.record_id
                         (snd (FullQuoteLinked.createAirtableRecord w d))))) ])
  /\ (let airtable := snd (FullQuote.createAirtableRecord w d) in
      let sms := snd (FullQuote.sendSMS w d) in
      let email := snd (FullQuote.sendEmail w d) in
      FullQuote.handler w req
      = map Full.Did
          ([Fetch (airtable_request (env w) (FullQuote.fields d))]
             ++ Full.issued (Full.sms_request (env w) Quote.heading d)
             ++ Full.issued (FullQuote.email (env w) (now w) d))
          ++ [Full.Awaited [airtable; sms; email]]
          ++ map Full.Did
               (log_rejected "Airtable error:" airtable
                  ++ log_rejected "SMS error:" sms
                  ++ log_rejected "Email error:" email
                  ++ (if (0 <? length (Quote.errors airtable sms email))%nat
                      then [Console LWarn [Text "Some notifications failed:";
                                           Text (join ", " (Quote.errors airtable sms email))]]
                      else []))
          ++ [Full.Send (send_json (cors []) 200 success)])
  /\ (let airtable := snd (FullQuoteEcho.createAirtableRecord w d) in
      let sms := snd (FullQuoteEcho.sendSMS w d) in
      let email := snd (FullQuoteEcho.sendEmail w d) in
      let report := QuoteEcho.summary airtable sms email in
      FullQuoteEcho.handler w req
      = [Full.Did (Console LLog [Text "Processing quote for:";
                                 Full.console_arg (Full.name d)])]
          ++ map Full.Did
               ([Fetch (airtable_request (env w) (FullQuoteEcho.fields d))]
                  ++ Full.issued (Full.sms_request (env w) QuoteEcho.heading d)
                  ++ Full.issued (FullQuoteEcho.email (env w) (now w) d))
          ++ [Full.Awaited [airtable; sms; email]]
          ++ [Full.Did (Console LLog [Text "Results:"; Json report])]
          ++ [Full.Send (send_json (cors []) 200
                           (JObj [("success", JBool true); ("_debug", report)]))])
  /\ (let airtable := snd (FullQuoteLinked.createAirtableRecord w d) in
      let step1 := QuoteLinked.record_id airtable in
      let sms := snd (FullQuoteLinked.sendSMS w d) in
      let email := snd (FullQuoteLinked.sendEmail w d (snd step1)) in
      FullQuoteLinked.handler w req
      = map Full.Did [Fetch (airtable_request (env w) (FullQuoteLinked.fields d))]
          ++ [Full.Awaited [airtable]]
          ++ map Full.Did (fst step1)
          ++ map Full.Did
               (Full.issued (Full.sms_request (env w) QuoteLinked.heading d)
                  ++ Full.issued (FullQuoteLinked.email (env w) (now w) d (snd step1)))
          ++ [Full.Awaited [sms; email]]
          ++ map Full.Did
               (log_rejected "SMS error:" sms ++ log_rejected "Email error:" email)
          ++ [Full.Send (send_json (cors []) 200 success)])
  /\ (forall r,
        snd (FullQuoteLinked.createAirtableRecord w d) = Rejected r ->
        fetches (Full.effects_of (FullQuoteLinked.handler w req))
        = [airtable_request (env w) (FullQuoteLinked.fields d)]
            ++ fetches (Full.issued (Full.sms_request (env w) QuoteLinked.heading d))
            ++ fetches (Full.issued (FullQuoteLinked.email (env w) (now w) d None))
        /\ (Full.renderable d = true ->
            FullQuoteLinked.email (env w) (now w) d None
            = Normal (email_request (env w) (Full.subject_text "New Quote Request — " d)
                        (Full.html_upper_text (now w) d
                           +:+ Full.row row_details_linked (Full.details d)
                           +:+ html_link
                           +:+ ("https://airtable.com/"
                                  +:+ env_text (env w !! "AIRTABLE_BASE_ID")
                                  +:+ "/" +:+ env_text (env w !! "AIRTABLE_TABLE_ID"))
                           +:+ html_link_close))))
  /\ (forall w' : world,
        env w' = env w -> now w' = now w ->
        fetches (Full.effects_of (FullQuote.handler w' req))
        = fetches (Full.effects_of (FullQuote.handler w req))
        /\ fetches (Full.effects_of (FullQuoteEcho.handler w' req))
           = fetches (Full.effects_of (FullQuoteEcho.handler w req))).
Proof.
  intros Hm Hv d answers_after.
  pose proof (full_quote_run w req Hm Hv) as Hq.
  pose proof (full_echo_run w req Hm Hv) as He.
  pose proof (full_linked_run w req Hm Hv) as Hl.
  cbv zeta in Hq, He, Hl. fold d in Hq, He, Hl.
  split; [| split; [exact Hq | split; [exact He | split; [exact Hl | split]]]].
  - unfold answers_after. split; [| split].
    + eexists; eexists. split; [rewrite Hq, !app_assoc; reflexivity |].
      rewrite !responses_app, !awaited_app, !responses_did, !awaited_did. split; reflexivity.
    + eexists; eexists. split; [rewrite He, !app_assoc; reflexivity |].
      rewrite !responses_app, !awaited_app, !responses_did, !awaited_did. split; reflexivity.
    + eexists; eexists. split; [rewrite Hl, !app_assoc; reflexivity |].
      rewrite !responses_app, !awaited_app, !responses_did, !awaited_did. split; reflexivity.
  - intros r Hr. split.
    + rewrite (full_linked_fetches w req Hm Hv). cbv zeta. fold d. rewrite Hr. reflexivity.
    + intros Hd. now apply linked_email_renderable.
  - intros w' He' Hn'.
    rewrite !(full_quote_fetches _ req Hm Hv), !(full_echo_fetches _ req Hm Hv), He', Hn'.
    split; reflexivity.
Qed.

(** The theorem at Jane Doe's submission, the record store answering 422:
    the SMS and the email still go out, and the response comes last. *)
Lemma response_follows_every_settlement_witness :
  Full.method (FullCases.post FullCases.jane) = "POST"
  /\ Full.valid (Full.body (FullCases.post FullCases.jane))
  /\ snd (FullQuoteLinked.createAirtableRecord Samples.airtable_down
            (Full.quote_of (Full.body (FullCases.post FullCases.jane))))
     = Rejected "Error: Airtable 422: INVALID_VALUE"
  /\ map url (fetches (Full.effects_of
                         (FullQuoteLinked.handler Samples.airtable_down
                            (FullCases.post FullCases.jane))))
     = [ "https://api.airtable.com/v0/appBASE0000000001/tblQUOTES00000001";
         "https://textbelt.com/text";
         "https://api.resend.com/emails" ].
Proof.
  split; [reflexivity |]. split; [exact full_valid_jane |]. split; [reflexivity |].
  rewrite (proj1 (proj1 (proj2 (proj2 (proj2 (proj2
             (response_follows_every_settlement Samples.airtable_down
                (FullCases.post FullCases.jane) eq_refl full_valid_jane)))))
             "Error: Airtable 422: INVALID_VALUE" eq_refl)).
  reflexivity.
Defined.

(** *** Configuration, the record link, and the number of requests *)



(** X18. The second handler of src/api/debug.js on a valid POST whose form
    can be interpolated. When the link can be rendered it makes exactly three
    requests, to the record store, then the SMS gateway, then the email
    gateway, and the email's HTML ends with that link; when the link cannot
    be rendered (the record id is an object with an own [toString] member)
    the email is not sent. When the record store's reply is
    [{records: [{id: i, ...}, ...], ...}] with [i] truthy and printing as
    [t] (a string is its own text, a number prints as JavaScript prints it),
    the link is that of the record, [https://airtable.com/<base>/<table>/t];
    when the call is rejected, or its reply is an object without a [records]
    member, the link is that of the table. *)
Theorem record_link_follows_the_record_id (w : world) (req : Full.request) :
  Full.method req = "POST" -> Full.valid (Full.body req) ->
  Full.renderable (Full.quote_of (Full.body req)) = true ->
  let d := Full.quote_of (Full.body req) in
  let a := airtable_request (env w) (FullQuoteLinked.fields d) in
  let s := Full.sms_request_of (env w) (Full.sms_text "🌿 New WeMow760 Quote Request" d) in
  let table :=
    "https://airtable.com/" +:+ env_text (env w !! "AIRTABLE_BASE_ID")
      +:+ "/" +:+ env_text (env w !! "AIRTABLE_TABLE_ID") in
  let id := snd (QuoteLinked.record_id (snd (FullQuoteLinked.createAirtableRecord w d))) in
  (forall link,
     QuoteLinked.airtableUrl (env w) id = Normal link ->
     fetches (Full.effects_of (FullQuoteLinked.handler w req))
     = [ a; s;
         email_request (env w) (Full.subject_text "New Quote Request — " d)
           (Full.html_upper_text (now w) d
              +:+ Full.row row_details_linked (Full.details d)
              +:+ html_link +:+ link +:+ html_link_close) ])
  /\ (forall r,
        QuoteLinked.airtableUrl (env w) id = Throw r ->
        fetches (Full.effects_of (FullQuoteLinked.handler w req)) = [a; s])
  /\ (forall resp top ms rest i t,
        fetch w a = Fulfilled resp -> ok resp = true ->
        parsed resp = Fulfilled (JObj top) ->
        assoc "records" top = Some (JArr (JObj ms :: rest)) ->
        assoc "id" ms = Some i -> json_truthy (Some i) = true ->
        json_to_string i = Normal t ->
        QuoteLinked.airtableUrl (env w) id = Normal (table +:+ "/" +:+ t))
  /\ (forall r, fetch w a = Rejected r -> QuoteLinked.airtableUrl (env w) id = Normal table)
  /\ (forall resp top,
        fetch w a = Fulfilled resp -> ok resp = true ->
        parsed resp = Fulfilled (JObj top) -> assoc "records" top = None ->
        QuoteLinked.airtableUrl (env w) id = Normal table).
Proof.
  intros Hm Hv Hr d a s table id.
  assert (Hf : fetches (Full.effects_of (FullQuoteLinked.handler w req))
               = [a; s] ++ fetches (Full.issued (FullQuoteLinked.email (env w) (now w) d id))).
  { rewrite (full_linked_fetches w req Hm Hv). cbv zeta. fold d. fold id.
    now rewrite (sms_request_renderable (env w) QuoteLinked.heading d eq_refl Hr). }
  split; [| split].
  - intros link Hl. rewrite Hf.
    now rewrite (linked_email_renderable (env w) (now w) d id link Hr Hl).
  - intros r Hl. rewrite Hf. unfold FullQuoteLinked.email. now rewrite Hl.
  - assert (Hok : forall resp j,
               fetch w a = Fulfilled resp -> ok resp = true -> parsed resp = Fulfilled j ->
               snd (FullQuoteLinked.createAirtableRecord w d) = Fulfilled j).
    { intros resp j Hfe Ho Hp. unfold FullQuoteLinked.createAirtableRecord, bind, do_fetch.
      fold a. rewrite Hfe. unfold checked_json. rewrite Ho. cbn [negb await]. now rewrite Hp. }
    split; [| split].
    + intros resp top ms rest i t Hfe Ho Hp Hrec Hi Ht Hs. unfold id.
      rewrite (Hok resp _ Hfe Ho Hp). cbn [QuoteLinked.record_id member]. rewrite Hrec.
      cbn [opt_first head opt_member]. rewrite Hi. cbn [snd]. rewrite Ht.
      unfold QuoteLinked.airtableUrl. rewrite Ht. cbn [reply_to_string]. now rewrite Hs.
    + intros r Hfe. unfold id, FullQuoteLinked.createAirtableRecord, bind, do_fetch.
      fold a. now rewrite Hfe.
    + intros resp top Hfe Ho Hp Hrec. unfold id.
      rewrite (Hok resp _ Hfe Ho Hp). cbn [QuoteLinked.record_id member]. now rewrite Hrec.
Qed.

(** The theorem at Jane Doe's submission, the record store answering with
    the record [rec0001]. *)
Lemma record_link_follows_the_record_id_witness :
  Full.method (FullCases.post FullCases.jane) = "POST"
  /\ Full.valid (Full.body (FullCases.post FullCases.jane))
  /\ Full.renderable (Full.quote_of (Full.body (FullCases.post FullCases.jane))) = true
  /\ QuoteLinked.airtableUrl (env Samples.online)
       (snd (QuoteLinked.record_id
               (snd (FullQuoteLinked.createAirtableRecord Samples.online
                       (Full.quote_of (Full.body (FullCases.post FullCases.jane)))))))
     = Normal "https://airtable.com/appBASE0000000001/tblQUOTES00000001/rec0001"
  /\ length (fetches (Full.effects_of
                        (FullQuoteLinked.handler Samples.online
                           (FullCases.post FullCases.jane)))) = 3%nat.
Proof.
  split; [reflexivity |]. split; [exact full_valid_jane |]. split; [reflexivity |].
  pose proof (record_link_follows_the_record_id Samples.online (FullCases.post FullCases.jane)
                eq_refl full_valid_jane eq_refl) as (H1 & _ & H2 & _).
  pose proof (H2 Samples.reply_ok _ [("id", JStr "rec0001")] [] (JStr "rec0001") "rec0001"
                eq_refl eq_refl eq_refl eq_refl eq_refl eq_refl eq_refl) as Hl.
  split; [exact Hl |]. now rewrite (H1 _ Hl).
Defined.

(** A request is answered without any call, or it is a valid POST. *)
Lemma full_calls_need_valid_post (w : world) (req : Full.request) :
  (Full.method req = "POST" /\ Full.valid (Full.body req))
  \/ (fetches (Full.effects_of (FullQuote.handler w req)) = []
      /\ fetches (Full.effects_of (FullQuoteEcho.handler w req)) = []
      /\ fetches (Full.effects_of (FullQuoteLinked.handler w req)) = []).
Proof.
  destruct (String.eqb (Full.method req) "POST") eqn:Em.
  - apply String.eqb_eq in Em.
    destruct (Full.missing_required (Full.quote_of (Full.body req))) eqn:Ev.
    + right. unfold FullQuote.handler, FullQuoteEcho.handler, FullQuoteLinked.handler.
      rewrite Em. cbn [String.eqb Ascii.eqb Bool.eqb negb].
      destruct (Full.body req) as [[ | | | | | ] | ] eqn:Hb; cbn [Full.destructure];
        try rewrite Ev; repeat split.
    + left. split; [exact Em |]. now apply full_not_missing_valid.
  - right. unfold FullQuote.handler, FullQuoteEcho.handler, FullQuoteLinked.handler.
    rewrite Em. cbn [negb]. destruct (String.eqb (Full.method req) "OPTIONS"); repeat split.
Qed.

(** X19. Whatever the request and the world, every outbound request of every
    version is a POST to one of three places: the record-store URL built from
    the configuration, [https://textbelt.com/text], or
    [https://api.resend.com/emails]; and no run makes more than three. The
    two parallel versions make three when the request is a valid POST whose
    form can be interpolated, one (to the record store) when it is a valid
    POST whose form cannot, and none otherwise. *)
Theorem outbound_requests_are_known_and_few (w : world) (req : Full.request) :
  let known (r : http_request) :=
    verb r = "POST"
    /\ (url r = "https://api.airtable.com/v0/" +:+ env_text (env w !! "AIRTABLE_BASE_ID")
                  +:+ "/" +:+ env_text (env w !! "AIRTABLE_TABLE_ID")
        \/ url r = "https://textbelt.com/text"
        \/ url r = "https://api.resend.com/emails") in
  let accepted := Full.method req = "POST" /\ Full.valid (Full.body req) in
  let counted (rs : list http_request) :=
    (~ accepted /\ rs = [])
    \/ (accepted /\ Full.renderable (Full.quote_of (Full.body req)) = true
        /\ length rs = 3%nat)
    \/ (accepted /\ Full.renderable (Full.quote_of (Full.body req)) = false
        /\ map url rs = [airtable_url (env w)]) in
  (Forall known (fetches (Full.effects_of (FullQuote.handler w req)))
   /\ counted (fetches (Full.effects_of (FullQuote.handler w req))))
  /\ (Forall known (fetches (Full.effects_of (FullQuoteEcho.handler w req)))
      /\ counted (fetches (Full.effects_of (FullQuoteEcho.handler w req))))
  /\ (Forall known (fetches (Full.effects_of (FullQuoteLinked.handler w req)))
      /\ (length (fetches (Full.effects_of (FullQuoteLinked.handler w req))) <= 3)%nat).
Proof.
  intros known accepted counted.
  destruct (full_calls_need_valid_post w req) as [[Hm Hv] | (H1 & H2 & H3)].
  - assert (Ha : accepted) by (split; assumption).
    rewrite (full_quote_fetches w req Hm Hv), (full_echo_fetches w req Hm Hv),
      (full_linked_fetches w req Hm Hv). cbv zeta.
    set (d := Full.quote_of (Full.body req)) in *.
    destruct (Full.renderable d) eqn:Hr.
    + rewrite (sms_request_renderable (env w) Quote.heading d eq_refl Hr),
        (sms_request_renderable (env w) QuoteEcho.heading d eq_refl Hr),
        (sms_request_renderable (env w) QuoteLinked.heading d eq_refl Hr),
        (quote_email_renderable (env w) (now w) d Hr),
        (echo_email_renderable (env w) (now w) d Hr).
      split; [| split].
      * split; [repeat constructor; unfold known; cbn; tauto |].
        right; left. split; [exact Ha | split; reflexivity].
      * split; [repeat constructor; unfold known; cbn; tauto |].
        right; left. split; [exact Ha | split; reflexivity].
      * destruct (QuoteLinked.airtableUrl (env w)
                    (snd (QuoteLinked.record_id
                            (snd (FullQuoteLinked.createAirtableRecord w d))))) as [link | r] eqn:Hl.
        -- rewrite (linked_email_renderable (env w) (now w) d _ link Hr Hl).
           split; [repeat constructor; unfold known; cbn; tauto | cbn; lia].
        -- unfold FullQuoteLinked.email. rewrite Hl.
           split; [repeat constructor; unfold known; cbn; tauto | cbn; lia].
    + destruct (unrenderable_issues_nothing d Hr (env w) Quote.heading (now w) None)
        as (Hs1 & He1 & He2 & _).
      destruct (unrenderable_issues_nothing d Hr (env w) QuoteLinked.heading (now w)
                  (snd (QuoteLinked.record_id
                          (snd (FullQuoteLinked.createAirtableRecord w d)))))
        as (Hs3 & _ & _ & He3).
      change QuoteEcho.heading with Quote.heading.
      rewrite Hs1, He1, He2, Hs3, He3.
      split; [| split].
      * split; [repeat constructor; unfold known; cbn; tauto |].
        right; right. split; [exact Ha | split; reflexivity].
      * split; [repeat constructor; unfold known; cbn; tauto |].
        right; right. split; [exact Ha | split; reflexivity].
      * split; [repeat constructor; unfold known; cbn; tauto | cbn; lia].
  - assert (Hn : ~ accepted).
    { intros [Hm Hv]. rewrite (full_quote_fetches w req Hm Hv) in H1. discriminate H1. }
    rewrite H1, H2, H3.
    split; [split; [constructor | left; now split] |].
    split; [split; [constructor | left; now split] |].
    split; [constructor | cbn; lia].
Qed.

(* ===================================================================== *)
(** ** Scalar bodies: the two embeddings agree *)
(* ===================================================================== *)

Lemma assoc_elem {A : Type} (l : list (string * A)) (k : string) (v : A) :
  NoDup (l.*1) -> (k, v) ∈ l -> assoc k l = Some v.
Proof.
  induction l as [| [k' v'] l IH]; intros Hnd Hin.
  - now apply elem_of_nil in Hin.
  - apply NoDup_cons in Hnd as [Hk Hnd]. apply elem_of_cons in Hin as [Heq | Hin]; cbn [assoc].
    + inversion Heq; subst. now rewrite String.eqb_refl.
    + destruct (String.eqb k k') eqn:E; [| now apply IH].
      apply String.eqb_eq in E. subst k'. exfalso. apply Hk.
      apply (list_elem_of_fmap_2 fst l (k, v) Hin).
Qed.

Lemma assoc_not_elem {A : Type} (l : list (string * A)) (k : string) :
  (forall v, (k, v) ∉ l) -> assoc k l = None.
Proof.
  induction l as [| [k' v'] l IH]; intros Hn; [reflexivity |]. cbn [assoc].
  destruct (String.eqb k k') eqn:E.
  - apply String.eqb_eq in E. subst k'. exfalso. apply (Hn v'). now left.
  - apply IH. intros v Hv. apply (Hn v). now right.
Qed.

Lemma assoc_map_to_list {A : Type} (o : gmap string A) (k : string) :
  assoc k (map_to_list o) = o !! k.
Proof.
  destruct (o !! k) as [v |] eqn:E.
  - apply assoc_elem; [apply NoDup_fst_map_to_list | now apply elem_of_map_to_list].
  - apply assoc_not_elem. intros v Hv. apply elem_of_map_to_list in Hv. congruence.
Qed.

Lemma assoc_valued (l : list (string * jsval)) (k : string) :
  NoDup (l.*1) ->
  assoc k (omap (fun m => match json_of (snd m) with
                          | Some j => Some (fst m, j)
                          | None => None
                          end) l)
  = match assoc k l with Some v => json_of v | None => None end.
Proof.
  induction l as [| [k' v'] l IH]; intros Hnd; [reflexivity |].
  apply NoDup_cons in Hnd as [Hk Hnd]. cbn [omap list_omap assoc fst snd].
  destruct (String.eqb k k') eqn:E.
  - apply String.eqb_eq in E. subst k'.
    destruct (json_of v') as [j |] eqn:Ej; cbn [assoc]; [now rewrite String.eqb_refl |].
    fold (omap (fun m : string * jsval => match json_of (snd m) with
                          | Some j => Some (fst m, j)
                          | None => None
                          end) l).
    rewrite (IH Hnd). rewrite assoc_not_elem; [reflexivity |].
    intros v Hv. apply Hk. apply (list_elem_of_fmap_2 fst l (k, v) Hv).
  - destruct (json_of v') as [j |]; cbn [assoc]; [rewrite E |]; now apply IH.
Qed.

(** Destructuring the JSON body gives the scalar form, field by field. *)
Lemma field_of_body (b : reqbody) (k : string) :
  Full.field (Full.of_body b) k = json_of (field b k).
Proof.
  destruct b as [ | | t | o]; try reflexivity.
  cbn [Full.of_body Full.field field]. unfold Full.members, prop.
  rewrite (assoc_valued _ k (NoDup_fst_map_to_list o)), assoc_map_to_list.
  destruct (o !! k); reflexivity.
Qed.

Lemma quote_of_body (b : reqbody) : Full.quote_of (Full.of_body b) = Full.of_quote (quote_of b).
Proof. unfold Full.quote_of, Full.of_quote, quote_of. cbn. now rewrite !field_of_body. Qed.

Lemma truthy_json_of (v : jsval) : json_truthy (json_of v) = truthy v.
Proof. destruct v; reflexivity. Qed.

Lemma to_string_json_of (v : jsval) : reply_to_string (json_of v) = Normal (to_string v).
Proof. destruct v as [ | | [] | s]; reflexivity. Qed.

Lemma stringified_json_of (v : jsval) : Full.stringified <$> json_of v = json_of v.
Proof. destruct v; reflexivity. Qed.

Lemma shown_json_of (v : jsval) : Full.shown (json_of v) = to_string v.
Proof. unfold Full.shown. now rewrite to_string_json_of. Qed.

Lemma renderable_of_quote (d : quote) : Full.renderable (Full.of_quote d) = true.
Proof.
  unfold Full.renderable, Full.renders, Full.of_quote.
  cbn [Full.name Full.phone Full.address Full.service Full.urgency Full.details].
  rewrite !to_string_json_of. cbn. now rewrite !orb_true_r.
Qed.

Lemma missing_required_of_quote (d : quote) :
  Full.missing_required (Full.of_quote d) = missing_required d.
Proof.
  unfold Full.missing_required, missing_required, Full.of_quote.
  cbn [Full.name Full.phone Full.address]. now rewrite !truthy_json_of.
Qed.

Lemma or_else_json_of (v x : jsval) :
  Full.stringified <$> Full.or_else (json_of v) (json_of x) = json_of (or_else v x).
Proof.
  unfold Full.or_else, or_else. rewrite truthy_json_of.
  destruct (truthy v); apply stringified_json_of.
Qed.

Lemma or_undefined_json_of (v : jsval) :
  Full.stringified <$> Full.or_else (json_of v) None = json_of (or_else v Undefined).
Proof. exact (or_else_json_of v Undefined). Qed.

Lemma or_empty_json_of (v : jsval) :
  Full.stringified <$> Full.or_else (json_of v) (Some (JStr "")) = json_of (or_else v (Str "")).
Proof. exact (or_else_json_of v (Str "")). Qed.

Lemma line_json_of (label : string) (v : jsval) :
  Full.line label (json_of v) = present label v.
Proof. unfold Full.line, present. now rewrite truthy_json_of, shown_json_of. Qed.

Lemma row_json_of (opening : string) (v : jsval) :
  Full.row opening (json_of v) = optional_row opening v.
Proof. unfold Full.row, optional_row. now rewrite truthy_json_of, shown_json_of. Qed.

Lemma sms_text_of_quote (h : string) (d : quote) :
  String.eqb h "" = false -> Full.sms_text h (Full.of_quote d) = sms_message h d.
Proof.
  intros Hh. unfold sms_message.
  rewrite kept_sms_lines by (intros ->; discriminate Hh).
  unfold Full.sms_text, Full.of_quote.
  cbn [Full.name Full.phone Full.address Full.service Full.urgency Full.details].
  now rewrite !shown_json_of, !line_json_of.
Qed.

Lemma html_upper_of_quote (ts : string) (d : quote) :
  Full.html_upper_text ts (Full.of_quote d) = html_upper ts d.
Proof.
  unfold Full.html_upper_text, html_upper, Full.of_quote.
  cbn [Full.name Full.phone Full.address Full.service Full.urgency Full.details].
  now rewrite !shown_json_of, !row_json_of.
Qed.

Lemma subject_of_quote (prefix : string) (d : quote) :
  Full.subject_text prefix (Full.of_quote d) = subject prefix d.
Proof.
  unfold Full.subject_text, subject, Full.of_quote. cbn [Full.name Full.service].
  now rewrite !shown_json_of, truthy_json_of.
Qed.

Lemma sendSMS_of_quote (w : world) (h : string) (d : quote) :
  String.eqb h "" = false -> Full.sendSMS w h (Full.of_quote d) = Template.sendSMS w h d.
Proof.
  intros Hh. unfold Full.sendSMS.
  rewrite (sms_request_renderable (env w) h _ Hh (renderable_of_quote d)),
    (sms_text_of_quote h d Hh).
  reflexivity.
Qed.

Lemma quote_fields_of_quote (d : quote) : FullQuote.fields (Full.of_quote d) = Quote.fields d.
Proof.
  unfold FullQuote.fields, Quote.fields, Full.of_quote.
  cbn [Full.name Full.phone Full.address Full.service Full.urgency Full.details].
  rewrite !stringified_json_of.
  rewrite !or_undefined_json_of, or_empty_json_of.
  reflexivity.
Qed.

Lemma echo_fields_of_quote (d : quote) :
  FullQuoteEcho.fields (Full.of_quote d) = QuoteEcho.fields d.
Proof.
  unfold FullQuoteEcho.fields, QuoteEcho.fields, Full.of_quote.
  cbn [Full.name Full.phone Full.address Full.service Full.urgency Full.details].
  rewrite !stringified_json_of, !truthy_json_of, or_empty_json_of.
  reflexivity.
Qed.

Lemma linked_fields_of_quote (d : quote) :
  FullQuoteLinked.fields (Full.of_quote d) = QuoteLinked.fields d.
Proof.
  unfold FullQuoteLinked.fields, QuoteLinked.fields, Full.of_quote.
  cbn [Full.name Full.phone Full.address Full.service Full.urgency Full.details].
  rewrite !stringified_json_of, !truthy_json_of, or_empty_json_of.
  reflexivity.
Qed.

Lemma quote_sendEmail_of_quote (w : world) (d : quote) :
  FullQuote.sendEmail w (Full.of_quote d) = Quote.sendEmail w d.
Proof.
  unfold FullQuote.sendEmail.
  rewrite (quote_email_renderable (env w) (now w) _ (renderable_of_quote d)),
    subject_of_quote, html_upper_of_quote.
  unfold Full.of_quote at 1. cbn [Full.details]. rewrite row_json_of. reflexivity.
Qed.

Lemma echo_sendEmail_of_quote (w : world) (d : quote) :
  FullQuoteEcho.sendEmail w (Full.of_quote d) = QuoteEcho.sendEmail w d.
Proof.
  unfold FullQuoteEcho.sendEmail.
  rewrite (echo_email_renderable (env w) (now w) _ (renderable_of_quote d)),
    subject_of_quote, html_upper_of_quote.
  unfold Full.of_quote at 1. cbn [Full.details]. rewrite row_json_of. reflexivity.
Qed.

Lemma linked_sendEmail_of_quote (w : world) (d : quote) (id : option json) :
  FullQuoteLinked.sendEmail w (Full.of_quote d) id = QuoteLinked.sendEmail w d id.
Proof.
  unfold FullQuoteLinked.sendEmail, QuoteLinked.sendEmail.
  destruct (QuoteLinked.airtableUrl (env w) id) as [link | r] eqn:Hl.
  - rewrite (linked_email_renderable (env w) (now w) _ id link (renderable_of_quote d) Hl),
      subject_of_quote, html_upper_of_quote.
    unfold Full.of_quote at 1. cbn [Full.details]. rewrite row_json_of. reflexivity.
  - unfold FullQuoteLinked.email. now rewrite Hl.
Qed.

Lemma console_arg_json_of (v : jsval) : Full.console_arg (json_of v) = Text (to_string v).
Proof. destruct v as [ | | [] | s]; reflexivity. Qed.

Lemma destructure_of_body (b : reqbody) :
  Full.destructure (Full.of_body b)
  = match destructure b with
    | Normal d => Normal (Full.of_quote d)
    | Throw r => Throw r
    end.
Proof. destruct b; try reflexivity; cbn [Full.destructure Full.of_body destructure];
  now rewrite <- quote_of_body. Qed.

Lemma quote_calls_of_quote (w : world) (d : quote) :
  FullQuote.createAirtableRecord w (Full.of_quote d) = Quote.createAirtableRecord w d
  /\ FullQuote.sendSMS w (Full.of_quote d) = Quote.sendSMS w d.
Proof.
  split.
  - unfold FullQuote.createAirtableRecord. now rewrite quote_fields_of_quote.
  - exact (sendSMS_of_quote w Quote.heading d eq_refl).
Qed.

Lemma echo_calls_of_quote (w : world) (d : quote) :
  FullQuoteEcho.createAirtableRecord w (Full.of_quote d) = QuoteEcho.createAirtableRecord w d
  /\ FullQuoteEcho.sendSMS w (Full.of_quote d) = QuoteEcho.sendSMS w d.
Proof.
  split.
  - unfold FullQuoteEcho.createAirtableRecord. now rewrite echo_fields_of_quote.
  - exact (sendSMS_of_quote w QuoteEcho.heading d eq_refl).
Qed.

Lemma linked_calls_of_quote (w : world) (d : quote) :
  FullQuoteLinked.createAirtableRecord w (Full.of_quote d)
  = QuoteLinked.createAirtableRecord w d
  /\ FullQuoteLinked.sendSMS w (Full.of_quote d) = QuoteLinked.sendSMS w d.
Proof.
  split.
  - unfold FullQuoteLinked.createAirtableRecord. now rewrite linked_fields_of_quote.
  - exact (sendSMS_of_quote w QuoteLinked.heading d eq_refl).
Qed.

Lemma quote_runs_alike (w : world) (req : request) :
  Full.effects_of (FullQuote.handler w (Full.of_request req)) = effects (Quote.handler w req)
  /\ Full.responses (FullQuote.handler w (Full.of_request req))
     = [sent (Quote.handler w req)].
Proof.
  unfold FullQuote.handler, Quote.handler, Full.of_request. cbn [Full.method Full.body].
  destruct (String.eqb (method req) "POST"); cbn [negb]; [| split; reflexivity].
  rewrite destructure_of_body.
  destruct (destructure (body req)) as [d | r]; [| split; reflexivity].
  rewrite missing_required_of_quote.
  destruct (missing_required d); [split; reflexivity |].
  destruct (quote_calls_of_quote w d) as [-> ->]. rewrite quote_sendEmail_of_quote.
  unfold allSettled3.
  rewrite !effects_of_app, !effects_of_did, !responses_app, !responses_did.
  cbn [Full.effects_of Full.responses omap list_omap app effects sent].
  rewrite !app_nil_r, <- !app_assoc. split; reflexivity.
Qed.

Lemma echo_runs_alike (w : world) (req : request) :
  Full.effects_of (FullQuoteEcho.handler w (Full.of_request req))
  = effects (QuoteEcho.handler w req)
  /\ Full.responses (FullQuoteEcho.handler w (Full.of_request req))
     = [sent (QuoteEcho.handler w req)].
Proof.
  unfold FullQuoteEcho.handler, QuoteEcho.handler, Full.of_request.
  cbn [Full.method Full.body].
  destruct (String.eqb (method req) "OPTIONS"); [split; reflexivity |].
  destruct (String.eqb (method req) "POST"); cbn [negb]; [| split; reflexivity].
  rewrite destructure_of_body.
  destruct (destructure (body req)) as [d | r]; [| split; reflexivity].
  rewrite missing_required_of_quote.
  destruct (missing_required d); [split; reflexivity |].
  destruct (echo_calls_of_quote w d) as [-> ->]. rewrite echo_sendEmail_of_quote.
  replace (Full.console_arg (Full.name (Full.of_quote d))) with (Text (to_string (name d)))
    by (symmetry; apply console_arg_json_of).
  unfold allSettled3.
  rewrite !effects_of_app, !effects_of_did, !responses_app, !responses_did.
  cbn [Full.effects_of Full.responses omap list_omap app effects sent].
  rewrite ?app_nil_r, <- ?app_assoc. split; reflexivity.
Qed.

Lemma linked_runs_alike (w : world) (req : request) :
  Full.effects_of (FullQuoteLinked.handler w (Full.of_request req))
  = effects (QuoteLinked.handler w req)
  /\ Full.responses (FullQuoteLinked.handler w (Full.of_request req))
     = [sent (QuoteLinked.handler w req)].
Proof.
  unfold FullQuoteLinked.handler, QuoteLinked.handler, Full.of_request.
  cbn [Full.method Full.body].
  destruct (String.eqb (method req) "OPTIONS"); [split; reflexivity |].
  destruct (String.eqb (method req) "POST"); cbn [negb]; [| split; reflexivity].
  rewrite destructure_of_body.
  destruct (destructure (body req)) as [d | r]; [| split; reflexivity].
  rewrite missing_required_of_quote.
  destruct (missing_required d); [split; reflexivity |].
  destruct (linked_calls_of_quote w d) as [-> ->].
  destruct (QuoteLinked.createAirtableRecord w d) as [call1 airtable]. cbn [fst snd].
  destruct (QuoteLinked.record_id airtable) as [log1 id].
  rewrite linked_sendEmail_of_quote.
  rewrite !effects_of_app, !effects_of_did, !responses_app, !responses_did.
  cbn [Full.effects_of Full.responses omap list_omap app effects sent].
  rewrite ?app_nil_r, <- ?app_assoc. split; reflexivity.
Qed.

(** On the bodies of [Net.reqbody], whose fields are scalars, the handlers
    over JSON do what [Quote], [QuoteEcho] and [QuoteLinked] do: the same
    effects in the same order, and the same single response. *)
Theorem scalar_bodies_run_alike (w : world) (req : request) :
  (Full.effects_of (FullQuote.handler w (Full.of_request req)) = effects (Quote.handler w req)
   /\ Full.responses (FullQuote.handler w (Full.of_request req))
      = [sent (Quote.handler w req)])
  /\ (Full.effects_of (FullQuoteEcho.handler w (Full.of_request req))
      = effects (QuoteEcho.handler w req)
      /\ Full.responses (FullQuoteEcho.handler w (Full.of_request req))
         = [sent (QuoteEcho.handler w req)])
  /\ (Full.effects_of (FullQuoteLinked.handler w (Full.of_request req))
      = effects (QuoteLinked.handler w req)
      /\ Full.responses (FullQuoteLinked.handler w (Full.of_request req))
         = [sent (QuoteLinked.handler w req)]).
Proof.
  split; [apply quote_runs_alike |]. split; [apply echo_runs_alike | apply linked_runs_alike].
Qed.
